(** * The rule callback engine of the Sqreen agent

    A shallow embedding of [sqreen/rules.py] (callback base class, the
    wrapper pipeline of [RuleCallback]) and of the request-context callback
    of [sqreen/ecosystem/adapters/frameworks/aws_lambda.py].

    Python objects are records, dictionaries are [gmap string _], the
    module-level set of frozen sets is a [gset (gset string)].  Code with
    side effects is written in state-passing style over [Env]; a call either
    returns a value or raises, and the state reached at the raise is kept. *)

From Stdlib Require Import ZArith String List Lia.
From stdpp Require Import base gmap strings list sets pretty sorting.

Open Scope Z_scope.
Open Scope string_scope.

(** ** Python values *)

#[warnings="-register-all"]
Inductive value : Type :=
| VNone
| VBool (b : bool)
| VInt (n : Z)
| VStr (s : string)
| VList (l : list value)
| VDict (d : gmap string value).

(** Truth value of an object, as [if x], [x or y] and [not x] test it. *)
Definition truthy (v : value) : bool :=
  match v with
  | VNone => false
  | VBool b => b
  | VInt n => negb (Z.eqb n 0)
  | VStr s => negb (String.eqb s "")
  | VList l => match l with [] => false | _ => true end
  | VDict d => negb (Nat.eqb (size d) 0)
  end.

(** [a or b] *)
Definition py_or (a b : value) : value := if truthy a then a else b.

(** [x is not None] *)
Definition is_not_None (v : value) : bool :=
  match v with VNone => false | _ => true end.

(** [v == s] for a string literal [s]: only a string compares equal. *)
Definition eq_str (v : value) (s : string) : bool :=
  match v with VStr s' => String.eqb s' s | _ => false end.

(** [v in (False, None)]: membership in a tuple compares with [==], and the
    integer 0 compares equal to [False]. *)
Definition in_False_None (v : value) : bool :=
  match v with
  | VNone => true
  | VBool b => negb b
  | VInt n => Z.eqb n 0
  | _ => false
  end.

(** ** Exceptions and outcomes *)

(** The exceptions of the model are all subclasses of [Exception]. *)
Inductive exn : Type :=
| AttributeError (attr : string)
| KeyError (key : string)
| IndexError
| TypeError
| NotImplementedError
| UnsupportedAWSLambdaEvent (event : gmap string value)
| OtherException (klass message : string).

Inductive outcome (A : Type) : Type :=
| Ret (a : A)
| Raise (e : exn).
Arguments Ret {A} a.
Arguments Raise {A} e.

(** ** Requests *)

Inductive request : Type :=
| AWSLambdaProxyV2Request (event : gmap string value)
| AWSLambdaProxyV1Request (event : gmap string value)
| FrameworkRequest (descr : value).

(** ** What the storage and the logger are handed *)

Inductive payload : Type :=
| AttackPayload (infos : value) (rulespack_id rule_name : string)
    (beta block test attack_type : value) (time : Z)
    (backtrace : option (list string))
| MetricPayload (metric_name : string) (at_ : Z) (key : string) (val : value)
| ExceptionPayload (message klass : string) (infos : gmap string value)
    (rule_name rulespack_id : string) (test : value) (time : Z)
    (backtrace : list string).

Inductive log_record : Type :=
| LogRunning (lifecycle rule_name : string)
| LogNotRunning (lifecycle rule_name : string) (condition result : value)
| LogObserved (what : string) (p : payload).

(** Every effect visible outside the callback, in the order it happens. *)
Inductive effect : Type :=
| Observed (category : string) (p : payload)
    (payload_sections : option (list string)) (report : option bool)
| TraceEnter (name : string)
| TraceExit (name : string)
| Logged (r : log_record).

(** ** The mutable state *)

(** Modelled from the spec: the request-scoped storage class is not part
    of the sources; this is what it holds for its readers
    ([get_current_request], [get_current_response], [get_request_store],
    [get_whitelist_match], [request_sq_time], and the call stack a request
    reports as [raw_caller]). *)
Record Storage : Type := mkStorage {
  current_request : option request;
  current_response : option value;
  request_store : gmap string value;
  whitelist_match : value;
  request_sq_time : option Z;
  raw_caller : list string
}.

(** The storage, the clock, the logger's level, the callback's own
    counters, the module-level set of the AWS Lambda adapter, and the
    effects produced so far (the storage's event sink, its trace scopes and
    the log). *)
Record Env : Type := mkEnv {
  storage : Storage;
  clock : Z;
  debug_enabled : bool;
  call_counts : gmap string Z;
  UNSUPPORTED_LAMBDA_EVENTS : gset (gset string);
  effects : list effect
}.

Definition set_effects (l : list effect) (e : Env) : Env :=
  mkEnv (storage e) (clock e) (debug_enabled e) (call_counts e)
    (UNSUPPORTED_LAMBDA_EVENTS e) l.

Definition set_call_counts (m : gmap string Z) (e : Env) : Env :=
  mkEnv (storage e) (clock e) (debug_enabled e) m
    (UNSUPPORTED_LAMBDA_EVENTS e) (effects e).

Definition set_storage (s : Storage) (e : Env) : Env :=
  mkEnv s (clock e) (debug_enabled e) (call_counts e)
    (UNSUPPORTED_LAMBDA_EVENTS e) (effects e).

Definition set_UNSUPPORTED_LAMBDA_EVENTS (s : gset (gset string)) (e : Env)
  : Env :=
  mkEnv (storage e) (clock e) (debug_enabled e) (call_counts e) s
    (effects e).

Definition emit (x : effect) (e : Env) : Env :=
  set_effects (effects e ++ [x])%list e.

(** Modelled from the spec: the storage class is not part of the sources;
    [observe(category, payload, payload_sections, report)] forwards the
    payload to the storage's event sink.  An argument the caller leaves out
    is [None]. *)
Definition observe (category : string) (p : payload)
    (sections : option (list string)) (report : option bool) (e : Env)
  : Env :=
  emit (Observed category p sections report) e.

(** Modelled from the spec: [now()] of the missing [utils] module reads the
    clock. *)
Definition now (e : Env) : Z := clock e.

(** [LOGGER.debug(...)]: a record is emitted only at debug level. *)
Definition LOGGER_debug (r : log_record) (e : Env) : Env :=
  if debug_enabled e then emit (Logged r) e else e.

(** [LOGGER.isEnabledFor(logging.DEBUG)] *)
Definition LOGGER_isEnabledFor_DEBUG (e : Env) : bool := debug_enabled e.

(** The payloads observed under one category. *)
Definition observed_as (category : string) (e : Env) : list payload :=
  omap (fun x => match x with
                 | Observed c p _ _ =>
                     if String.eqb c category then Some p else None
                 | _ => None
                 end) (effects e).

(** ** The runner, as far as the callbacks read it *)
Record Runner : Type := mkRunner {
  performance_metrics : bool;
  performance_metrics_settings_enabled : bool;
  budget : option Z
}.

(** ** [BaseCallback] *)

Definition SECTIONS : list string :=
  ["request"; "response"; "params"; "headers"; "context"].

(** The attributes set by [BaseCallback.__init__] and
    [RuleCallback.__init__], with the two class constants. *)
Record config : Type := mkConfig {
  SUPPORTS_BUDGET : bool;
  INTERRUPTIBLE : bool;
  rule_name : string;
  rulespack_id : string;
  runner : option Runner;
  data : value;
  beta : value;
  block : value;
  test : value;
  metrics : value;
  attack_type : value;
  payload_sections : list string;
  priority : value;
  conditions : gmap string value;
  call_count_interval : Z
}.

(** [priority if priority is not None else 100] *)
Definition init_priority (priority : value) : value :=
  if is_not_None priority then priority else VInt 100.

(** [BaseCallback.__init__]; the class constants come with the class. *)
Definition BaseCallback_init (supports_budget interruptible : bool)
    (rule_name rulespack_id : string) (runner : option Runner)
    (beta block test data metrics : value)
    (payload_sections : option (list string))
    (priority attack_type : value) : config :=
  {| SUPPORTS_BUDGET := supports_budget;
     INTERRUPTIBLE := interruptible;
     rule_name := rule_name;
     rulespack_id := rulespack_id;
     runner := runner;
     data := py_or data (VDict ∅);
     beta := py_or beta (VBool false);
     block := py_or block (VBool false);
     test := py_or test (VBool false);
     metrics := py_or metrics (VList []);
     attack_type := attack_type;
     payload_sections :=
       match payload_sections with None => SECTIONS | Some s => s end;
     priority := init_priority priority;
     conditions := ∅;
     call_count_interval := 0 |}.

Definition collaborative (c : config) : bool := SUPPORTS_BUDGET c.

Definition skippable (c : config) : bool := INTERRUPTIBLE c.

(** [self.storage.get_whitelist_match() or False] *)
Definition whitelisted (e : Env) : value :=
  py_or (whitelist_match (storage e)) (VBool false).

Definition performance_monitoring_enabled (c : config) : bool :=
  match runner c with
  | Some r => performance_metrics r && performance_metrics_settings_enabled r
  | None => false
  end.

(** [get_remaining_budget(callback_kwargs)]; [callback_kwargs.pop] changes
    the caller's dictionary, which is returned next to the result. *)
Definition get_remaining_budget (c : config)
    (callback_kwargs : option (gmap string value)) (e : Env)
  : value * option (gmap string value) :=
  let '(override_budget, callback_kwargs') :=
    match callback_kwargs with
    | Some kw =>
        (default VNone (kw !! "__sqreen_override_budget"),
         Some (delete "__sqreen_override_budget" kw))
    | None => (VNone, None)
    end in
  if is_not_None override_budget then (override_budget, callback_kwargs')
  else
    match runner c with
    | Some r =>
        if performance_monitoring_enabled c then
          match budget r with
          | Some b => (VInt (b - default 0 (request_sq_time (storage e))),
                       callback_kwargs')
          | None => (VNone, callback_kwargs')
          end
        else (VNone, callback_kwargs')
    | None => (VNone, callback_kwargs')
    end.

(** [record_attack(infos, at)] *)
Definition record_attack (c : config) (infos : value) (at_ : option Z)
    (e : Env) : Env :=
  let at_ := match at_ with None => now e | Some t => t end in
  let backtrace :=
    if bool_decide ("context" ∈ payload_sections c) then
      match current_request (storage e) with
      | Some _ => Some (raw_caller (storage e))
      | None => None
      end
    else None in
  let p := AttackPayload infos (rulespack_id c) (rule_name c) (beta c)
             (block c) (test c) (attack_type c) at_ backtrace in
  observe "attacks" p (Some (payload_sections c)) None
    (LOGGER_debug (LogObserved "attack" p) e).

(** [record_observation(metric_name, key, value, at)] *)
Definition record_observation (c : config) (metric_name key : string)
    (val : value) (at_ : option Z) (e : Env) : Env :=
  let at_ := match at_ with None => now e | Some t => t end in
  let p := MetricPayload metric_name at_ key val in
  observe "observations" p None (Some false)
    (LOGGER_debug (LogObserved "metric" p) e).

(** [BaseCallback.exception_infos] *)
Definition exception_infos (c : config) : gmap string value :=
  <["rule_name" := VStr (rule_name c)]>
    (<["rulespack_id" := VStr (rulespack_id c)]> ∅).

(** ** Computations that may raise *)

Definition M (A : Type) : Type := Env → outcome A * Env.

Definition ret {A} (a : A) : M A := fun e => (Ret a, e).

Definition raise {A} (x : exn) : M A := fun e => (Raise x, e).

Definition bind {A B} (m : M A) (k : A → M B) : M B :=
  fun e => match m e with
           | (Ret a, e') => k a e'
           | (Raise x, e') => (Raise x, e')
           end.

(** [try: m  except Exception: h] *)
Definition try_except {A} (m : M A) (h : exn → M A) : M A :=
  fun e => match m e with
           | (Ret a, e') => (Ret a, e')
           | (Raise x, e') => h x e'
           end.

Definition effect_ (f : Env → Env) : M unit := fun e => (Ret tt, f e).

#[global] Instance M_ret : MRet M := @ret.
#[global] Instance M_bind : MBind M := fun A B k m => bind m k.

(** ** Exception objects handed to [record_exception] *)

(** What [exc.exception_infos()] does for a given exception object: the
    attribute lookup, the call, or the update of [infos] with the result
    raises; or the call returns a dictionary. *)
Inductive exception_infos_result : Type :=
| InfosFails (x : exn)
| InfosReturns (d : gmap string value).

(** An exception object, as far as [record_exception] uses it. *)
Record exception_object : Type := mkExc {
  exc_exception_infos : exception_infos_result
}.

(** [sys.exc_info()]: the class (by its [__name__]), the value (by its
    [str]) and the traceback frames. *)
Record exc_info_t : Type := mkExcInfo {
  exc_klass_name : string;
  exc_value_str : string;
  exc_traceback : list string
}.

(** ** Phase handlers *)

(** The arguments the condition evaluator is called with. *)
Record bindings : Type := mkBindings {
  b_request : option request;
  b_response : option value;
  b_inst : value;
  b_args : list value;
  b_kwargs : gmap string value;
  b_data : value;
  b_rv : value;
  b_request_store : gmap string value
}.

(** A lifecycle method as a class defines it: it is bound to [self] and
    called with [(inst, args, kwargs, **options)]. *)
Definition body : Type :=
  config → value → list value → gmap string value → gmap string value →
  M value.

(** The callable stored under a lifecycle name.  Each wrapper of
    [rules.py] is a closure over its arguments and keeps the wrapped
    callable in [__wrapped__]. *)
Inductive method : Type :=
| Own (f : body)
| check_condition_wrapper (wrapped : method) (condition : value)
    (lifecycle : string)
| call_count_wrapper (wrapped : method) (lifecycle observation_key : string)
| perf_monitoring_wrapper (wrapped : method) (name : string)
| debug_log_wrapper (wrapped : method) (lifecycle : string).

(** One invocation of a class-defined lifecycle method, as seen from
    outside: the arguments it received. *)
Record invocation : Type := mkInvocation {
  i_inst : value;
  i_args : list value;
  i_kwargs : gmap string value;
  i_options : gmap string value
}.

(** The state together with the history of the invocations of the
    class-defined lifecycle methods.  The history is not program state: no
    code reads it. *)
Record World : Type := mkWorld {
  env : Env;
  calls : list invocation
}.

Definition on_env (f : Env → Env) (w : World) : World :=
  mkWorld (f (env w)) (calls w).

(** A context manager: what entering and leaving the [with] block do. *)
Record context_manager : Type := mkContextManager {
  cm_enter : Env → Env;
  cm_exit : Env → Env
}.

(** Modelled from the spec: [storage.trace(name)] is a scoped timer of the
    missing storage class; entering opens the trace, leaving closes it, and
    an exception of the block is not suppressed. *)
Definition storage_trace (name : string) : context_manager :=
  {| cm_enter := emit (TraceEnter name);
     cm_exit := emit (TraceExit name) |}.

(** [with cm: return block]: the manager is left when the block returns
    and when it raises. *)
Definition with_ {A} (cm : context_manager)
    (block : World → outcome A * World) (w : World) : outcome A * World :=
  match block (on_env (cm_enter cm) w) with
  | (Ret v, w') => (Ret v, on_env (cm_exit cm) w')
  | (Raise x, w') => (Raise x, on_env (cm_exit cm) w')
  end.

(** The counting step of [call_count_wrapper], for the count read. *)
Definition count_call (c : config) (lifecycle observation_key : string)
    (current_count : Z) (e : Env) : Env :=
  if Z.eqb (current_count + 1) (call_count_interval c) then
    let e' := record_observation c "sqreen_call_counts" observation_key
                (VInt (call_count_interval c)) None e in
    set_call_counts (<[lifecycle := 0]> (call_counts e')) e'
  else
    set_call_counts (<[lifecycle := current_count + 1]> (call_counts e)) e.

(** ["%s/%s/%s" % (rulespack_id, rule_name, lifecycle)] *)
Definition observation_key_of (c : config) (lifecycle : string) : string :=
  rulespack_id c ++ "/" ++ rule_name c ++ "/" ++ lifecycle.

(** ["sq.{}.{}".format(rule_name, lifecycle)] *)
Definition metric_name_of (c : config) (lifecycle : string) : string :=
  "sq." ++ rule_name c ++ "." ++ lifecycle.

(** The object built by [RuleCallback.__init__]: its attributes and, under
    each lifecycle name, the callable [getattr] finds. *)
Record RuleCallback : Type := mkRuleCallback {
  self_ : config;
  attrs : gmap string method
}.

(** [setattr(self, lifecycle, wrapped)] *)
Definition setattr (cb : RuleCallback) (lifecycle : string) (m : method)
  : RuleCallback :=
  mkRuleCallback (self_ cb) (<[lifecycle := m]> (attrs cb)).

(** [[l for l in ("pre", "post", "failing") if hasattr(self, l)]] *)
Definition lifecycle_methods (cb : RuleCallback) : list string :=
  filter (fun l => is_Some (attrs cb !! l)) ["pre"; "post"; "failing"].

(** ** The wrappers and the construction of a rule callback *)

Section Engine.

(** The collaborators that are not part of the sources: the condition
    language ([is_condition_empty], [ConditionEvaluator(c).evaluate],
    which has no side effect), the storage's filter on positional
    arguments and the two traceback formatters. *)
Variable is_condition_empty : value → bool.
Variable evaluate : value → bindings → value.
Variable get_current_args : Storage → list value → list value.
Variable raw_traceback_formatter : list string → list string.
Variable traceback_formatter : list string → list string.

(** [record_exception(exc, exc_info, stack, infos, at)], on the arguments
    it is written for: an exception object whose [exception_infos] returns
    or fails with an [Exception], the triple of [sys.exc_info()] for an
    exception that is being handled, and collaborators that return.
    [BaseCallback_record_exception] below takes arguments of any shape. *)
Definition record_exception (c : config) (exc : exception_object)
    (exc_info : exc_info_t) (stack : option (list string))
    (infos : option (gmap string value)) (at_ : option Z) : M value :=
  fun e =>
    let infos := default ∅ infos in
    let at_ := match at_ with None => now e | Some t => t end in
    (infos ← try_except
               (match exc_exception_infos exc with
                | InfosFails x => raise x
                | InfosReturns d => ret (d ∪ infos)
                end)
               (fun _ => ret infos);
     let bt := raw_traceback_formatter (exc_traceback exc_info) in
     let bt := match stack with
               | Some st => (traceback_formatter st ++ bt)%list
               | None => bt
               end in
     let p := ExceptionPayload (exc_value_str exc_info)
                (exc_klass_name exc_info) infos (rule_name c)
                (rulespack_id c) (test c) at_ bt in
     effect_ (LOGGER_debug (LogObserved "exception" p));;
     effect_ (observe "sqreen_exceptions" p (Some (payload_sections c))
                None);;
     ret VNone) e.

(** The bindings [check_condition_wrapper] evaluates the condition
    with. *)
Definition binding_eval_args (c : config) (lifecycle : string)
    (inst : value) (args : list value)
    (kwargs options : gmap string value) (st : Storage) : bindings :=
  let rv := default VNone
              (options !! (if String.eqb lifecycle "post"
                           then "result" else "exc_info")) in
  {| b_request := current_request st;
     b_response := current_response st;
     b_inst := inst;
     b_args := get_current_args st args;
     b_kwargs := kwargs;
     b_data := data c;
     b_rv := rv;
     b_request_store := request_store st |}.

(** Calling the callable stored under a lifecycle name with
    [(inst, args, kwargs, **options)].  [c] is the callback the wrappers
    were built for. *)
Fixpoint call (c : config) (m : method) (inst : value) (args : list value)
    (kwargs options : gmap string value) (w : World)
  : outcome value * World :=
  match m with
  | Own f =>
      let '(r, e') := f c inst args kwargs options (env w) in
      (r, mkWorld e'
            (calls w ++ [mkInvocation inst args kwargs options])%list)
  | check_condition_wrapper wrapped condition lifecycle =>
      let condition_result :=
        evaluate condition
          (binding_eval_args c lifecycle inst args kwargs options
             (storage (env w))) in
      if in_False_None condition_result then
        (Ret VNone,
         on_env (LOGGER_debug (LogNotRunning lifecycle (rule_name c)
                                 condition condition_result)) w)
      else call c wrapped inst args kwargs options w
  | call_count_wrapper wrapped lifecycle observation_key =>
      match call_counts (env w) !! lifecycle with
      | None => (Raise (KeyError lifecycle), w)
      | Some current_count =>
          call c wrapped inst args kwargs options
            (on_env (count_call c lifecycle observation_key current_count)
               w)
      end
  | perf_monitoring_wrapper wrapped name =>
      with_ (storage_trace name)
        (call c wrapped inst args kwargs options) w
  | debug_log_wrapper wrapped lifecycle =>
      call c wrapped inst args kwargs options
        (on_env (LOGGER_debug (LogRunning lifecycle (rule_name c))) w)
  end.

(** [_apply_debug_log(methods)]; the logger's level is read from [e]. *)
Definition _apply_debug_log (e : Env) (methods : list string)
    (cb : RuleCallback) : RuleCallback :=
  if negb (LOGGER_isEnabledFor_DEBUG e) then cb
  else
    foldl (fun cb lifecycle =>
             match attrs cb !! lifecycle with
             | Some lifecycle_method =>
                 setattr cb lifecycle
                   (debug_log_wrapper lifecycle_method lifecycle)
             | None => cb
             end) cb methods.

(** [_apply_perf_monitoring(methods)] *)
Definition _apply_perf_monitoring (methods : list string)
    (cb : RuleCallback) : RuleCallback :=
  if negb (performance_monitoring_enabled (self_ cb)) then cb
  else
    foldl (fun cb lifecycle =>
             match attrs cb !! lifecycle with
             | Some lifecycle_method =>
                 let metric_name := metric_name_of (self_ cb) lifecycle in
                 setattr cb lifecycle
                   (perf_monitoring_wrapper lifecycle_method metric_name)
             | None => cb
             end) cb methods.

(** [_apply_conditions(methods)] *)
Definition _apply_conditions (methods : list string) (cb : RuleCallback)
  : RuleCallback :=
  foldl (fun cb lifecycle =>
           let conditions :=
             default VNone (conditions (self_ cb) !! lifecycle) in
           match attrs cb !! lifecycle with
           | Some lifecycle_method =>
               if negb (is_condition_empty conditions) then
                 setattr cb lifecycle
                   (check_condition_wrapper lifecycle_method conditions
                      lifecycle)
               else cb
           | None => cb
           end) cb methods.

(** [_apply_call_count(methods)] *)
Definition _apply_call_count (methods : list string) (cb : RuleCallback)
  : RuleCallback :=
  if Z.eqb (call_count_interval (self_ cb)) 0 then cb
  else
    foldl (fun cb lifecycle =>
             match attrs cb !! lifecycle with
             | Some lifecycle_method =>
                 let observation_key :=
                   observation_key_of (self_ cb) lifecycle in
                 setattr cb lifecycle
                   (call_count_wrapper lifecycle_method lifecycle
                      observation_key)
             | None => cb
             end) cb methods.

(** The arguments of [RuleCallback.__init__] that the engine reads; the
    hook point ([hook_module], [hook_name], [strategy]) and the render
    information are only stored. *)
Record init_args : Type := mkInitArgs {
  a_rule_name : string;
  a_rulespack_id : string;
  a_runner : option Runner;
  a_beta : value;
  a_block : value;
  a_test : value;
  a_data : value;
  a_conditions : option (gmap string value);
  a_call_count_interval : option Z;
  a_metrics : value;
  a_payload_sections : option (list string);
  a_priority : value;
  a_attack_type : value
}.

(** A subclass of [RuleCallback]: its class constants and the lifecycle
    methods it defines. *)
Record callback_class : Type := mkClass {
  cls_SUPPORTS_BUDGET : bool;
  cls_INTERRUPTIBLE : bool;
  cls_methods : gmap string body
}.

Definition initial_call_counts : gmap string Z :=
  <["pre" := 0]> (<["post" := 0]> (<["failing" := 0]> ∅)).

(** [RuleCallback.__init__]: returns the object and the state in which
    its counters exist. *)
Definition RuleCallback_init (cls : callback_class) (a : init_args)
    (e : Env) : RuleCallback * Env :=
  let base := BaseCallback_init (cls_SUPPORTS_BUDGET cls)
                (cls_INTERRUPTIBLE cls) (a_rule_name a) (a_rulespack_id a)
                (a_runner a) (a_beta a) (a_block a) (a_test a) (a_data a)
                (a_metrics a) (a_payload_sections a) (a_priority a)
                (a_attack_type a) in
  let self0 :=
    mkConfig (SUPPORTS_BUDGET base) (INTERRUPTIBLE base) (rule_name base)
      (rulespack_id base) (runner base) (data base) (beta base)
      (block base) (test base) (metrics base) (attack_type base)
      (payload_sections base) (priority base)
      (default ∅ (a_conditions a))
      (default 0 (a_call_count_interval a)) in
  let cb := mkRuleCallback self0 (Own <$> cls_methods cls) in
  let e := set_call_counts initial_call_counts e in
  let methods := lifecycle_methods cb in
  let cb := _apply_debug_log e methods cb in
  let cb := _apply_conditions methods cb in
  let cb := _apply_call_count methods cb in
  let cb := _apply_perf_monitoring methods cb in
  (cb, e).

(** The handler the runner finds under a lifecycle name. *)
Definition handler (cb : RuleCallback) (lifecycle : string)
  : option method := attrs cb !! lifecycle.

End Engine.

(** ** Callbacks defined in the sources *)

(** [CountHTTPCodesCBFlask.failing] *)
Definition CountHTTPCodesCBFlask_failing : body :=
  fun self _ _ _ _ =>
    effect_ (record_observation self "http_code" "500" (VInt 1) None);;
    ret (VDict ∅).

(** Modelled from the spec: [RecordRequestContext._store_request] is not
    part of the sources; the normalized request becomes the current request
    of the storage. *)
Definition _store_request (r : request) : M value :=
  effect_ (fun e =>
    set_storage
      (mkStorage (Some r) (current_response (storage e))
         (request_store (storage e)) (whitelist_match (storage e))
         (request_sq_time (storage e)) (raw_caller (storage e))) e);;
  ret VNone.

(** The branch of [RecordRequestContextAWSLambda.pre] an event takes. *)
Definition is_v2_event (event : gmap string value) : bool :=
  eq_str (default VNone (event !! "version")) "2.0".

Definition is_v1_event (event : gmap string value) : bool :=
  eq_str (default VNone (event !! "version")) "1.0"
  || bool_decide (is_Some (event !! "httpMethod")).

(** [RecordRequestContextAWSLambda.pre] *)
Definition RecordRequestContextAWSLambda_pre : body :=
  fun self instance args kwars options =>
    match args with
    | [] => raise IndexError
    | VDict event :: _ =>
        if is_v2_event event then
          _store_request (AWSLambdaProxyV2Request event)
        else if is_v1_event event then
          _store_request (AWSLambdaProxyV1Request event)
        else
          fun e =>
            let event_type := dom event in
            if bool_decide (event_type ∈ UNSUPPORTED_LAMBDA_EVENTS e) then
              (Ret VNone, e)
            else
              (Raise (UnsupportedAWSLambdaEvent event),
               set_UNSUPPORTED_LAMBDA_EVENTS
                 ({[event_type]} ∪ UNSUPPORTED_LAMBDA_EVENTS e) e)
    | _ :: _ => raise (AttributeError "get")
    end.

(** ** Notions used to state the properties *)

(** The metric samples the call-count sampler reports: key and value of the
    observations under the metric [sqreen_call_counts]. *)
Definition sampled_observations (e : Env) : list (string * value) :=
  omap (fun p => match p with
                 | MetricPayload m _ k v =>
                     if String.eqb m "sqreen_call_counts" then Some (k, v)
                     else None
                 | _ => None
                 end) (observed_as "observations" e).

(** The class-defined method at the end of the [__wrapped__] chain. *)
Fixpoint own_logic (m : method) : body :=
  match m with
  | Own f => f
  | check_condition_wrapper wrapped _ _ => own_logic wrapped
  | call_count_wrapper wrapped _ _ => own_logic wrapped
  | perf_monitoring_wrapper wrapped _ => own_logic wrapped
  | debug_log_wrapper wrapped _ => own_logic wrapped
  end.

(** Whether the [__wrapped__] chain goes through the performance
    monitor. *)
Fixpoint perf_monitor_applied (m : method) : bool :=
  match m with
  | Own _ => false
  | perf_monitoring_wrapper _ _ => true
  | check_condition_wrapper wrapped _ _ => perf_monitor_applied wrapped
  | call_count_wrapper wrapped _ _ => perf_monitor_applied wrapped
  | debug_log_wrapper wrapped _ => perf_monitor_applied wrapped
  end.

(** Whether the chain goes through the call-count sampler. *)
Fixpoint call_count_applied (m : method) : bool :=
  match m with
  | Own _ => false
  | call_count_wrapper _ _ _ => true
  | check_condition_wrapper wrapped _ _ => call_count_applied wrapped
  | perf_monitoring_wrapper wrapped _ => call_count_applied wrapped
  | debug_log_wrapper wrapped _ => call_count_applied wrapped
  end.

(** A decorator that is applied only when its guard holds. *)
Definition wrap_if (g : bool) (W : method → method) (m : method) : method :=
  if g then W m else m.

(** One step of a loop [for lifecycle in methods] that replaces the
    attribute by a callable computed from it. *)
Definition rewrap (G : config → string → method → method)
    (cb : RuleCallback) (lifecycle : string) : RuleCallback :=
  match attrs cb !! lifecycle with
  | Some m => setattr cb lifecycle (G (self_ cb) lifecycle m)
  | None => cb
  end.

Section Pipelines.

Variable is_condition_empty : value → bool.

(** The guards of the four decorators, in the order
    debug, condition, call count, performance. *)
Definition debug_guard (e : Env) : bool := LOGGER_isEnabledFor_DEBUG e.

Definition condition_of (c : config) (lifecycle : string) : value :=
  default VNone (conditions c !! lifecycle).

Definition condition_guard (c : config) (lifecycle : string) : bool :=
  negb (is_condition_empty (condition_of c lifecycle)).

Definition call_count_guard (c : config) : bool :=
  negb (Z.eqb (call_count_interval c) 0).

Definition perf_guard (c : config) : bool :=
  performance_monitoring_enabled c.

(** The chain below the call-count sampler. *)
Definition gated_logic (e : Env) (c : config) (lifecycle : string)
    (f : body) : method :=
  wrap_if (condition_guard c lifecycle)
    (fun m => check_condition_wrapper m (condition_of c lifecycle)
                lifecycle)
    (wrap_if (debug_guard e) (fun m => debug_log_wrapper m lifecycle)
       (Own f)).

(** Innermost to outermost: own logic, debug trace, condition gate,
    call-count sampler, performance monitor. *)
Definition pipeline (e : Env) (c : config) (lifecycle : string)
    (f : body) : method :=
  wrap_if (perf_guard c)
    (fun m => perf_monitoring_wrapper m (metric_name_of c lifecycle))
    (wrap_if (call_count_guard c)
       (fun m => call_count_wrapper m lifecycle
                   (observation_key_of c lifecycle))
       (gated_logic e c lifecycle f)).

(** The order as the specification words it, innermost to outermost: own
    logic, condition gate, call-count sampler, performance monitor, debug
    trace. *)
Definition pipeline_debug_outermost (e : Env) (c : config)
    (lifecycle : string) (f : body) : method :=
  wrap_if (debug_guard e) (fun m => debug_log_wrapper m lifecycle)
    (wrap_if (perf_guard c)
       (fun m => perf_monitoring_wrapper m (metric_name_of c lifecycle))
       (wrap_if (call_count_guard c)
          (fun m => call_count_wrapper m lifecycle
                      (observation_key_of c lifecycle))
          (wrap_if (condition_guard c lifecycle)
             (fun m => check_condition_wrapper m (condition_of c lifecycle)
                         lifecycle)
             (Own f)))).

End Pipelines.

Section Runs.

Variable evaluate : value → bindings → value.
Variable get_current_args : Storage → list value → list value.

(** The runner invoking one handler once per element of [l], whatever
    each invocation returns or raises. *)
Fixpoint invoke_all (c : config) (m : method) (l : list invocation)
    (w : World) : World :=
  match l with
  | [] => w
  | i :: l' =>
      invoke_all c m l'
        (snd (call evaluate get_current_args c m (i_inst i) (i_args i)
                (i_kwargs i) (i_options i) w))
  end.

(** The same, keeping what each invocation returned or raised. *)
Fixpoint outcomes_all (c : config) (m : method) (l : list invocation)
    (w : World) : list (outcome value) :=
  match l with
  | [] => []
  | i :: l' =>
      let '(r, w') := call evaluate get_current_args c m (i_inst i)
                        (i_args i) (i_kwargs i) (i_options i) w in
      r :: outcomes_all c m l' w'
  end.

(** The runner calling the handler it finds under a lifecycle name; [None]
    when the object has no such attribute. *)
Definition invoke_phase (cb : RuleCallback) (l : string) (i : value)
    (ar : list value) (k o : gmap string value) (w : World)
  : option (outcome value * World) :=
  match handler cb l with
  | Some h => Some (call evaluate get_current_args (self_ cb) h i ar k o w)
  | None => None
  end.

(** What one invocation of a sampled handler does to the counter of its
    phase and to the reported samples. *)
Definition counts_one (c : config) (l : string) (h : method) : Prop :=
  ∀ n i ar k o w,
    call_counts (env w) !! l = Some n →
    let w' := snd (call evaluate get_current_args c h i ar k o w) in
    call_counts (env w') !! l
      = Some (if Z.eqb (n + 1) (call_count_interval c) then 0 else n + 1) ∧
    sampled_observations (env w') =
      (sampled_observations (env w) ++
       if Z.eqb (n + 1) (call_count_interval c)
       then [(observation_key_of c l, VInt (call_count_interval c))]
       else [])%list.

(** The invocation returns [None] without calling any class-defined
    lifecycle method; it leaves the storage's readable state alone and
    nothing is observed but the metric samples [extra]. *)
Definition skips_with (extra : list payload) (c : config) (h : method)
    (i : value) (ar : list value) (k o : gmap string value) (w : World)
  : Prop :=
  ∃ w',
    call evaluate get_current_args c h i ar k o w = (Ret VNone, w') ∧
    calls w' = calls w ∧
    storage (env w') = storage (env w) ∧
    (∀ cat, cat ≠ "observations" →
            observed_as cat (env w') = observed_as cat (env w)) ∧
    observed_as "observations" (env w') =
      (observed_as "observations" (env w) ++ extra)%list.

(** The invocation calls the class-defined method [f] exactly once, with
    the arguments the handler received, in the state [e_in]; it passes on
    what [f] returns or raises, and the state it leaves is the one [f]
    left, after [leave]. *)
Definition runs_in (e_in : Env) (leave : Env → Env) (c : config) (f : body)
    (h : method) (i : value) (ar : list value) (k o : gmap string value)
    (w : World) : Prop :=
  call evaluate get_current_args c h i ar k o w
  = (fst (f c i ar k o e_in),
     mkWorld (leave (snd (f c i ar k o e_in)))
       (calls w ++ [mkInvocation i ar k o])%list).

End Runs.

(** An event that is neither a version 2.0 event, nor a version 1.0
    event, nor has the key [httpMethod]. *)
Definition unsupported_event (event : gmap string value) : bool :=
  negb (is_v2_event event) && negb (is_v1_event event).

(** The shapes (sets of top-level keys) of the unsupported events of a
    list, in order. *)
Definition unsupported_shapes (evs : list (gmap string value))
  : list (gset string) :=
  omap (fun ev => if unsupported_event ev then Some (dom ev) else None) evs.

(** The event an invocation of the AWS Lambda handler is about. *)
Definition event_invocation (event : gmap string value) : invocation :=
  mkInvocation VNone [VDict event] ∅ ∅.

(** Whether an outcome is [UnsupportedAWSLambdaEvent] raised for an event
    of the given shape. *)
Definition raised_unsupported (shape : gset string) (o : outcome value)
  : bool :=
  match o with
  | Raise (UnsupportedAWSLambdaEvent ev) => bool_decide (dom ev = shape)
  | _ => false
  end.

(** How often a run raised it for that shape. *)
Definition unsupported_raised (shape : gset string)
    (l : list (outcome value)) : nat :=
  length (List.filter (raised_unsupported shape) l).


(** ** Concrete instances *)

(** A condition is empty when it is [None] or an empty dictionary. *)
Definition example_is_condition_empty (condition : value) : bool :=
  negb (truthy condition).

(** The condition [{"%and": ["#.request"]}] of the AWS Lambda adapter:
    true when the storage has a current request, false otherwise. *)
Definition example_evaluate (condition : value) (b : bindings) : value :=
  VBool (bool_decide (is_Some (b_request b))).

Definition example_condition : value :=
  VDict {[ "%and" := VList [VStr "#.request"] ]}.

(** A storage that hands the positional arguments back unchanged. *)
Definition example_get_current_args (st : Storage) (args : list value)
  : list value := args.

(** A formatter that keeps the frames as they are. *)
Definition example_formatter (frames : list string) : list string := frames.

Definition empty_storage : Storage := mkStorage None None ∅ VNone None [].

(** No request in flight, logger above debug level. *)
Definition env0 : Env := mkEnv empty_storage 0 false ∅ ∅ [].

(** The same with the logger at debug level. *)
Definition env_debug : Env := mkEnv empty_storage 0 true ∅ ∅ [].

(** A request in flight. *)
Definition env_request : Env :=
  mkEnv (mkStorage (Some (FrameworkRequest VNone)) None ∅ VNone None [])
    0 false initial_call_counts ∅ [].

(** A whitelisted request, 3 time units spent on it. *)
Definition env_whitelisted : Env :=
  mkEnv (mkStorage (Some (FrameworkRequest VNone)) None ∅
           (VStr "10.0.0.0/8") (Some 3) [])
    0 false initial_call_counts ∅ [].

(** A whitelisted client before any request is stored. *)
Definition env_whitelisted_early : Env :=
  mkEnv (mkStorage None None ∅ (VStr "10.0.0.0/8") None [])
    0 false initial_call_counts ∅ [].

(** A runner with performance monitoring enabled and a budget of 10. *)
Definition runner_monitoring : Runner := mkRunner true true (Some 10).

(** A runner with a budget of 10 and performance metrics switched off. *)
Definition runner_not_monitoring : Runner := mkRunner false true (Some 10).

(** A lifecycle method that does nothing. *)
Definition noop : body := fun _ _ _ _ _ => ret VNone.

(** A lifecycle method that records an attack. *)
Definition attack_on_call : body :=
  fun self _ _ _ _ =>
    effect_ (record_attack self (VStr "found") None);; ret VNone.

(** A class defining [pre] only; no budget support, interruptible. *)
Definition class_with_pre (f : body) : callback_class :=
  mkClass false true {[ "pre" := f ]}.

(** A class defining [failing] as [CountHTTPCodesCBFlask] does. *)
Definition class_CountHTTPCodesCBFlask : callback_class :=
  mkClass false false {[ "failing" := CountHTTPCodesCBFlask_failing ]}.

(** A class that declares budget support. *)
Definition class_with_budget : callback_class :=
  mkClass true true {[ "pre" := noop ]}.

(** Rule descriptions. *)
Definition args_plain (r : option Runner) : init_args :=
  mkInitArgs "rule" "pack" r VNone VNone VNone VNone None None VNone None
    VNone VNone.

Definition args_priority (p : value) : init_args :=
  mkInitArgs "rule" "pack" None VNone VNone VNone VNone None None VNone None
    p VNone.

Definition args_gated_sampled (interval : option Z) : init_args :=
  mkInitArgs "rule" "pack" None VNone VNone VNone VNone
    (Some {[ "pre" := example_condition ]}) interval VNone None VNone VNone.

Definition args_sampled (interval : Z) : init_args :=
  mkInitArgs "rule" "pack" None VNone VNone VNone VNone None (Some interval)
    VNone None VNone VNone.

(** Events of the AWS Lambda adapter. *)
Definition event_scheduled : gmap string value :=
  {[ "source" := VStr "aws.events"; "detail" := VDict ∅ ]}.

(** The state in which the shape of [event_scheduled] has been seen. *)
Definition env_seen_scheduled : Env :=
  set_UNSUPPORTED_LAMBDA_EVENTS
    ({[ dom event_scheduled ]} : gset (gset string)) env0.

Definition event_v1 : gmap string value :=
  {[ "httpMethod" := VStr "GET"; "path" := VStr "/" ]}.

(** The engine with these collaborators. *)
Abbreviation ex_call := (call example_evaluate example_get_current_args).
Abbreviation ex_init := (RuleCallback_init example_is_condition_empty).
Abbreviation ex_invoke_phase :=
  (invoke_phase example_evaluate example_get_current_args).
Abbreviation ex_invoke_all :=
  (invoke_all example_evaluate example_get_current_args).

(** * The rest of [rules.py] *)

(** Whether the [__wrapped__] chain goes through a condition gate. *)
Fixpoint condition_applied (m : method) : bool :=
  match m with
  | Own _ => false
  | check_condition_wrapper _ _ _ => true
  | call_count_wrapper wrapped _ _ => condition_applied wrapped
  | perf_monitoring_wrapper wrapped _ => condition_applied wrapped
  | debug_log_wrapper wrapped _ => condition_applied wrapped
  end.

(** Trace scopes entered minus trace scopes left. *)
Fixpoint trace_depth (l : list effect) : Z :=
  match l with
  | [] => 0
  | TraceEnter _ :: l' => trace_depth l' + 1
  | TraceExit _ :: l' => trace_depth l' - 1
  | _ :: l' => trace_depth l'
  end.

(** The lifecycle names whose counters the samplers of the chain count
    in. *)
Fixpoint counted_phases (m : method) : list string :=
  match m with
  | Own _ => []
  | call_count_wrapper wrapped l _ => l :: counted_phases wrapped
  | check_condition_wrapper wrapped _ _ => counted_phases wrapped
  | perf_monitoring_wrapper wrapped _ => counted_phases wrapped
  | debug_log_wrapper wrapped _ => counted_phases wrapped
  end.

Section Decorators.

Variable evaluate : value → bindings → value.
Variable get_current_args : Storage → list value → list value.

(** What the decorators of a chain do between the invocation of the handler
    and the call of the class-defined method: the state the method is
    called in, or, when a decorator ends the invocation without calling
    it, what the handler returns or raises and the state it leaves. *)
Fixpoint before_own (c : config) (m : method) (inst : value)
    (args : list value) (kwargs options : gmap string value) (e : Env)
  : Env + outcome value * Env :=
  match m with
  | Own _ => inl e
  | check_condition_wrapper wrapped condition lifecycle =>
      let condition_result :=
        evaluate condition
          (binding_eval_args get_current_args c lifecycle inst args kwargs
             options (storage e)) in
      if in_False_None condition_result then
        inr (Ret VNone,
             LOGGER_debug (LogNotRunning lifecycle (rule_name c) condition
                             condition_result) e)
      else before_own c wrapped inst args kwargs options e
  | call_count_wrapper wrapped lifecycle observation_key =>
      match call_counts e !! lifecycle with
      | None => inr (Raise (KeyError lifecycle), e)
      | Some current_count =>
          before_own c wrapped inst args kwargs options
            (count_call c lifecycle observation_key current_count e)
      end
  | perf_monitoring_wrapper wrapped name =>
      match before_own c wrapped inst args kwargs options
              (emit (TraceEnter name) e) with
      | inl e' => inl e'
      | inr (r, e') => inr (r, emit (TraceExit name) e')
      end
  | debug_log_wrapper wrapped lifecycle =>
      before_own c wrapped inst args kwargs options
        (LOGGER_debug (LogRunning lifecycle (rule_name c)) e)
  end.

End Decorators.

(** What the decorators of a chain do once the class-defined method has
    returned or raised: the trace scopes are left, innermost first. *)
Fixpoint after_own (m : method) (e : Env) : Env :=
  match m with
  | Own _ => e
  | perf_monitoring_wrapper wrapped name =>
      emit (TraceExit name) (after_own wrapped e)
  | check_condition_wrapper wrapped _ _ => after_own wrapped e
  | call_count_wrapper wrapped _ _ => after_own wrapped e
  | debug_log_wrapper wrapped _ => after_own wrapped e
  end.

(** [UnsupportedAWSLambdaEvent.exception_infos] *)
Definition UnsupportedAWSLambdaEvent_exception_infos
    (event : gmap string value) : gmap string value :=
  {[ "event" := VDict event ]}.

(** ** [record_exception] on arguments of any shape *)

(** What an operation on an argument raises: an instance of [Exception],
    or an instance of another subclass of [BaseException]
    ([KeyboardInterrupt], [SystemExit], [GeneratorExit]), which
    [except Exception] does not catch. *)
Inductive raised : Type :=
| AnException (x : exn)
| NotAnException (klass : string).

Inductive py_result (A : Type) : Type :=
| Returns (a : A)
| Raises (r : raised).
Arguments Returns {A} a.
Arguments Raises {A} r.

#[global] Instance py_result_ret : MRet py_result := @Returns.
#[global] Instance py_result_bind : MBind py_result :=
  fun A B k m => match m with
                 | Returns a => k a
                 | Raises r => Raises r
                 end.

(** An object found in [exc_info], by what [record_exception] does with
    it: [str(o)], [o.__name__], and the frames a traceback object holds. *)
Record py_object : Type := mkObject {
  obj_str : py_result string;
  obj_name : py_result string;
  obj_frames : option (list string)
}.

(** The argument [exc_info]: a tuple of objects, or [None]. *)
Inductive exc_info_arg : Type :=
| ExcInfoTuple (items : list py_object)
| ExcInfoNone.

(** [exc_info[i]] *)
Definition exc_info_getitem (exc_info : exc_info_arg) (i : nat)
  : py_result py_object :=
  match exc_info with
  | ExcInfoTuple items =>
      match items !! i with
      | Some x => Returns x
      | None => Raises (AnException IndexError)
      end
  | ExcInfoNone => Raises (AnException TypeError)
  end.

(** The argument [exc], by what [infos.update(exc.exception_infos())] does
    for it: the dictionary the call returns, or what the lookup of the
    attribute, the call or the update raises. *)
Record exc_arg : Type := mkExcArg {
  arg_exception_infos : py_result (gmap string value)
}.

(** [try: infos.update(exc.exception_infos())] [except Exception: pass] *)
Definition updated_infos (exc : exc_arg) (infos : gmap string value)
  : py_result (gmap string value) :=
  match arg_exception_infos exc with
  | Returns d => Returns (d ∪ infos)
  | Raises (AnException _) => Returns infos
  | Raises (NotAnException klass) => Raises (NotAnException klass)
  end.

Section RecordException.

(** The collaborators that are not part of the sources, each of which may
    raise: the two traceback formatters of [remote_exception] and the
    [observe] method of the storage. *)
Variable raw_traceback_formatter : py_object → py_result (list string).
Variable traceback_formatter : list string → py_result (list string).
Variable storage_observe :
  string → payload → option (list string) → option bool → Env →
  py_result unit * Env.

(** [BaseCallback.record_exception(exc, exc_info, stack, infos, at)]; the
    items of the payload are evaluated in the order they are written.
    [infos] is a dictionary when it is given. *)
Definition BaseCallback_record_exception (c : config) (exc : exc_arg)
    (exc_info : exc_info_arg) (stack : option (list string))
    (infos : option (gmap string value)) (at_ : option Z) (e : Env)
  : py_result value * Env :=
  let infos := default ∅ infos in
  let at_ := match at_ with None => now e | Some t => t end in
  let payload_ : py_result payload :=
    infos ← updated_infos exc infos;
    tb ← exc_info_getitem exc_info 2;
    bt ← raw_traceback_formatter tb;
    bt ← match stack with
         | Some st => st' ← traceback_formatter st; mret (st' ++ bt)%list
         | None => mret bt
         end;
    value_ ← exc_info_getitem exc_info 1;
    message ← obj_str value_;
    klass ← exc_info_getitem exc_info 0;
    name ← obj_name klass;
    mret (ExceptionPayload message name infos (rule_name c) (rulespack_id c)
            (test c) at_ bt) in
  match payload_ with
  | Raises r => (Raises r, e)
  | Returns p =>
      match storage_observe "sqreen_exceptions" p (Some (payload_sections c))
              None (LOGGER_debug (LogObserved "exception" p) e) with
      | (Returns _, e') => (Returns VNone, e')
      | (Raises r, e') => (Raises r, e')
      end
  end.

End RecordException.

(** The arguments [record_exception] is modelled on above, among the
    arguments of any shape: an exception object whose [exception_infos]
    fails with an [Exception] or returns, and the triple of an exception
    class, an exception and a traceback. *)
Definition to_result {A} (o : outcome A) : py_result A :=
  match o with
  | Ret a => Returns a
  | Raise x => Raises (AnException x)
  end.

Definition class_object (name : string) : py_object :=
  mkObject (Returns ("<class '" ++ name ++ "'>")) (Returns name) None.

Definition exception_instance (message : string) : py_object :=
  mkObject (Returns message) (Raises (AnException (AttributeError "__name__")))
    None.

Definition traceback_object (frames : list string) : py_object :=
  mkObject (Returns "<traceback object>")
    (Raises (AnException (AttributeError "__name__"))) (Some frames).

(** The object [None]. *)
Definition None_object : py_object :=
  mkObject (Returns "None") (Raises (AnException (AttributeError "__name__")))
    None.

Definition exc_info_triple (exc_info : exc_info_t) : exc_info_arg :=
  ExcInfoTuple [class_object (exc_klass_name exc_info);
                exception_instance (exc_value_str exc_info);
                traceback_object (exc_traceback exc_info)].

Definition exc_arg_of (exc : exception_object) : exc_arg :=
  mkExcArg match exc_exception_infos exc with
           | InfosFails x => Raises (AnException x)
           | InfosReturns d => Returns d
           end.

(** ** [ReactiveRuleCallback] *)

(** [ReactiveRuleCallback.handler] of the base class. *)
Definition ReactiveRuleCallback_handler : body :=
  fun _ _ _ _ _ => raise NotImplementedError.

(** The object built by [ReactiveRuleCallback.__init__]. *)
Record ReactiveRuleCallback : Type := mkReactive {
  reactive_cb : RuleCallback;
  authorized_addresses : gset string;
  batch_addresses : gset string;
  group_addresses : gset string
}.

(** [ReactiveRuleCallback.__init__]; [handler] is the method the class
    defines, the base class's one unless a subclass overrides it.  The
    logger's level is read from [e]. *)
Definition ReactiveRuleCallback_init (supports_budget interruptible : bool)
    (handler : body) (rule_name rulespack_id : string)
    (runner : option Runner) (beta block test data : value)
    (authorized_addresses : option (list string)) (metrics : value)
    (payload_sections : option (list string)) (priority attack_type : value)
    (e : Env) : ReactiveRuleCallback :=
  let base := BaseCallback_init supports_budget interruptible rule_name
                rulespack_id runner beta block test data metrics
                payload_sections priority attack_type in
  let addresses : gset string :=
    list_to_set (default [] authorized_addresses) in
  let cb := mkRuleCallback base {[ "handler" := Own handler ]} in
  let cb := _apply_debug_log e ["handler"] cb in
  let cb := _apply_perf_monitoring ["handler"] cb in
  mkReactive cb addresses addresses ∅.

(** ** [from_rule_dict] *)

(** The [hookpoint] entry of a rule description; a key that is absent is
    [None]. *)
Record hookpoint_dict : Type := mkHookpoint {
  hp_klass : option string;
  hp_method : option string;
  hp_strategy : option string;
  hp_attack_render_info : option value
}.

(** A rule description, by the keys [from_rule_dict] reads; a key that is
    absent is [None]. *)
Record rule_dict : Type := mkRuleDict {
  rd_hookpoint : option hookpoint_dict;
  rd_name : option string;
  rd_rulespack_id : option string;
  rd_beta : option value;
  rd_block : option value;
  rd_test : option value;
  rd_data : option value;
  rd_conditions : option (gmap string value);
  rd_callbacks : option value;
  rd_call_count_interval : option Z;
  rd_metrics : option value;
  rd_payload : option (list string);
  rd_priority : option value;
  rd_attack_type : option value;
  rd_reactive_authorized_addresses : option (list string)
}.

(** [d[key]] *)
Definition subscript {A} (field : option A) (key : string) : outcome A :=
  match field with
  | Some x => Ret x
  | None => Raise (KeyError key)
  end.

(** [d.get(key)] for a value *)
Definition get_value (field : option value) : value := default VNone field.

(** The rule callback with the attributes that only describe where it is
    attached. *)
Record AttachedCallback : Type := mkAttached {
  hook_module : string;
  hook_name : string;
  strategy : string;
  attack_render_info : value;
  callbacks : value;
  attached_cb : RuleCallback
}.

Section FromRuleDict.

Variable is_condition_empty : value → bool.

(** [RuleCallback.from_rule_dict(rule_dict, runner, storage)] for a class
    [cls]; the arguments are evaluated from left to right. *)
Definition RuleCallback_from_rule_dict (cls : callback_class)
    (rd : rule_dict) (runner : option Runner) (e : Env)
  : outcome (AttachedCallback * Env) :=
  match subscript (rd_hookpoint rd) "hookpoint" with
  | Raise x => Raise x
  | Ret hp =>
  match subscript (hp_klass hp) "klass" with
  | Raise x => Raise x
  | Ret klass =>
  match subscript (hp_method hp) "method" with
  | Raise x => Raise x
  | Ret method_ =>
  match subscript (rd_name rd) "name" with
  | Raise x => Raise x
  | Ret name =>
  match subscript (rd_rulespack_id rd) "rulespack_id" with
  | Raise x => Raise x
  | Ret rulespack_id =>
      let a := mkInitArgs name rulespack_id runner
                 (get_value (rd_beta rd)) (get_value (rd_block rd))
                 (get_value (rd_test rd)) (get_value (rd_data rd))
                 (rd_conditions rd) (rd_call_count_interval rd)
                 (get_value (rd_metrics rd)) (rd_payload rd)
                 (get_value (rd_priority rd))
                 (get_value (rd_attack_type rd)) in
      let '(cb, e') := RuleCallback_init is_condition_empty cls a e in
      Ret (mkAttached klass method_
             (default "import_hook" (hp_strategy hp))
             (default (VDict ∅) (hp_attack_render_info hp))
             (match rd_callbacks rd with
              | Some v => match v with VNone => VDict ∅ | _ => v end
              | None => VDict ∅
              end)
             cb, e')
  end end end end end.

End FromRuleDict.

(** [ReactiveRuleCallback.from_rule_dict(rule_dict, runner, storage)] *)
Definition ReactiveRuleCallback_from_rule_dict
    (supports_budget interruptible : bool) (handler : body)
    (rd : rule_dict) (runner : option Runner) (e : Env)
  : outcome ReactiveRuleCallback :=
  match subscript (rd_name rd) "name" with
  | Raise x => Raise x
  | Ret name =>
  match subscript (rd_rulespack_id rd) "rulespack_id" with
  | Raise x => Raise x
  | Ret rulespack_id =>
      Ret (ReactiveRuleCallback_init supports_budget interruptible handler
             name rulespack_id runner (get_value (rd_beta rd))
             (get_value (rd_block rd)) (get_value (rd_test rd))
             (get_value (rd_data rd))
             (rd_reactive_authorized_addresses rd)
             (get_value (rd_metrics rd)) (rd_payload rd)
             (get_value (rd_priority rd)) (get_value (rd_attack_type rd)) e)
  end end.

(** * The rest of [aws_lambda.py] *)

(** [v.get(key, default)]: only a dictionary has the method. *)
Definition py_get (v : value) (key : string) (dflt : value)
  : outcome value :=
  match v with
  | VDict d => Ret (default dflt (d !! key))
  | _ => Raise (AttributeError "get")
  end.

(** Sequencing of expressions that may raise. *)
Definition and_then {A B} (x : outcome A) (k : A → outcome B) : outcome B :=
  match x with
  | Ret a => k a
  | Raise e => Raise e
  end.

(** [self.rc], set by both request classes to
    [event.get("requestContext")]. *)
Definition request_rc (event : gmap string value) : value :=
  default VNone (event !! "requestContext").

(** ** [AWSLambdaProxyV2Request] *)

Definition V2_remote_addr (event : gmap string value) : outcome value :=
  and_then (py_get (request_rc event) "http" (VDict ∅))
    (fun http => py_get http "sourceIp" VNone).

Definition V2_hostname (event : gmap string value) : outcome value :=
  py_get (request_rc event) "domainName" VNone.

Definition V2_method (event : gmap string value) : outcome value :=
  Ret (default VNone (event !! "httpMethod")).

Definition V2_client_user_agent (event : gmap string value)
  : outcome value :=
  and_then (py_get (request_rc event) "http" (VDict ∅))
    (fun http => py_get http "userAgent" VNone).

Definition V2_path (event : gmap string value) : outcome value :=
  py_get (request_rc event) "path" VNone.

(** ["?".join((a, b))]: both items have to be strings. *)
Definition V2_request_uri (event : gmap string value) : outcome value :=
  match default VNone (event !! "rawPath"),
        default VNone (event !! "rawQueryString") with
  | VStr raw_path, VStr raw_query =>
      Ret (VStr (raw_path ++ "?" ++ raw_query))
  | _, _ => Raise TypeError
  end.

Definition V2_scheme (event : gmap string value) : outcome value :=
  py_get (default (VDict ∅) (event !! "headers")) "x-forwarded-proto"
    (VStr "http").

Definition V2_server_port (event : gmap string value) : outcome value :=
  py_get (default (VDict ∅) (event !! "headers")) "x-forwarded-port"
    (VStr "http").

Definition V2_query_params (event : gmap string value) : outcome value :=
  let params :=
    default VNone (event !! "multiValueQueryStringParameters") in
  Ret (if is_not_None params then params else VDict ∅).

Definition V2_cookies_params (event : gmap string value) : outcome value :=
  Ret (default VNone (event !! "cookies")).

(** ** [AWSLambdaProxyV1Request] *)

Definition V1_remote_addr (event : gmap string value) : outcome value :=
  and_then (py_get (request_rc event) "identity" (VDict ∅))
    (fun identity => py_get identity "sourceIp" VNone).

Definition V1_hostname (event : gmap string value) : outcome value :=
  py_get (request_rc event) "domainName" VNone.

Definition V1_method (event : gmap string value) : outcome value :=
  Ret (default VNone (event !! "httpMethod")).

Definition V1_client_user_agent (event : gmap string value)
  : outcome value :=
  and_then (py_get (request_rc event) "identity" (VDict ∅))
    (fun identity => py_get identity "userAgent" VNone).

Definition V1_path (event : gmap string value) : outcome value :=
  Ret (default VNone (event !! "path")).

Definition V1_scheme (event : gmap string value) : outcome value :=
  py_get (default (VDict ∅) (event !! "headers")) "X-Forwarded-Proto"
    (VStr "http").

Definition V1_server_port (event : gmap string value) : outcome value :=
  py_get (default (VDict ∅) (event !! "headers")) "X-Forwarded-Port" VNone.

Definition V1_query_params (event : gmap string value) : outcome value :=
  let params :=
    default VNone (event !! "multiValueQueryStringParameters") in
  Ret (if is_not_None params then params else VDict ∅).

Definition V1_cookies_params (event : gmap string value) : outcome value :=
  Ret VNone.

(** ** [AWSLambdaProxyV1Response] *)

Section Response.

(** [int(s)] for a string, of the Python runtime: the integer it denotes,
    if it denotes one. *)
Variable int_of_str : string → option Z.

(** [int(v)] *)
Definition py_int (v : value) : outcome Z :=
  match v with
  | VInt n => Ret n
  | VBool b => Ret (if b then 1 else 0)
  | VStr s => match int_of_str s with
              | Some n => Ret n
              | None => Raise (OtherException "ValueError" s)
              end
  | _ => Raise TypeError
  end.

Definition Response_status_code (res : value) : outcome value :=
  py_get res "statusCode" VNone.

Definition Response_content_type (res : value) : outcome value :=
  and_then (py_get res "headers" (VDict ∅))
    (fun headers => py_get headers "Content-Type" VNone).

Definition Response_content_length (res : value) : outcome value :=
  and_then (py_get res "headers" (VDict ∅)) (fun headers =>
  and_then (py_get headers "Content-Length" VNone) (fun cl =>
    if is_not_None cl then
      match py_int cl with
      | Ret n => Ret (VInt n)
      | Raise _ => Ret VNone
      end
    else Ret VNone)).

End Response.

(** ** [RecordResponseAWSLambda] *)

(** Modelled from the spec: [storage.store_response] belongs to the missing
    storage class; the response becomes the current response of the
    storage.  The response object is represented by the result it wraps. *)
Definition store_response (res : value) (e : Env) : Env :=
  set_storage
    (mkStorage (current_request (storage e)) (Some res)
       (request_store (storage e)) (whitelist_match (storage e))
       (request_sq_time (storage e)) (raw_caller (storage e))) e.

(** [RecordResponseAWSLambda._record_response(options)] *)
Definition _record_response (options : gmap string value) : M value :=
  let result := default VNone (options !! "result") in
  if truthy result then effect_ (store_response result);; ret VNone
  else ret VNone.

Definition RecordResponseAWSLambda_post : body :=
  fun self instance args kwargs options => _record_response options.

Definition RecordResponseAWSLambda_failing : body :=
  fun self instance args kwargs options => _record_response options.

(** The class [RecordResponseAWSLambda]: not interruptible. *)
Definition class_RecordResponseAWSLambda : callback_class :=
  mkClass false false
    {[ "post" := RecordResponseAWSLambda_post;
       "failing" := RecordResponseAWSLambda_failing ]}.

(** The requests of the supported events of a list, in order. *)
Definition supported_requests (evs : list (gmap string value))
  : list request :=
  omap (fun ev =>
          if is_v2_event ev then Some (AWSLambdaProxyV2Request ev)
          else if is_v1_event ev then Some (AWSLambdaProxyV1Request ev)
          else None) evs.

(** * [rules_callbacks/count_http_codes_flask.py] *)

Section Flask.

(** The [status_code] attribute of a response object of the framework,
    [None] for an object that has no such attribute. *)
Variable status_code_of : value → option Z.

(** [CountHTTPCodesCBFlask.post]; [result] is the keyword argument of that
    name, [None] when the options do not have it. *)
Definition CountHTTPCodesCBFlask_post : body :=
  fun self instance args kwargs options =>
    let response := default VNone (options !! "result") in
    match status_code_of response with
    | Some status_code =>
        effect_ (record_observation self "http_code" (pretty status_code)
                   (VInt 1) None);;
        ret (VDict ∅)
    | None => raise (AttributeError "status_code")
    end.

End Flask.

(** * [sdk/events.py] *)

(** The values found in the options of an SDK event: plain values and
    [datetime] objects, with their time zone if they have one. *)
Inductive sdk_value : Type :=
| Plain (v : value)
| Datetime (tzinfo : option string) (t : Z).

(** An options dictionary, in insertion order; the keys are distinct. *)
Definition odict : Type := list (string * sdk_value).

(** [d.get(key)]: the value, if the key is there. *)
Fixpoint od_get (key : string) (d : odict) : option sdk_value :=
  match d with
  | [] => None
  | (k, v) :: d' => if String.eqb k key then Some v else od_get key d'
  end.

(** [d[key] = v]: in place for a key that is there, at the end for a new
    one. *)
Definition od_set (key : string) (v : sdk_value) (d : odict) : odict :=
  match od_get key d with
  | Some _ => (fun p => if String.eqb (fst p) key then (key, v) else p) <$> d
  | None => (d ++ [(key, v)])%list
  end.

Definition od_keys (d : odict) : list string := fst <$> d.

Definition sdk_truthy (v : sdk_value) : bool :=
  match v with
  | Plain v => truthy v
  | Datetime _ _ => true
  end.

Definition sdk_is_not_None (v : sdk_value) : bool :=
  match v with
  | Plain VNone => false
  | _ => true
  end.

(** [len(v)] *)
Definition sdk_len (v : sdk_value) : outcome nat :=
  match v with
  | Plain (VDict d) => Ret (size d)
  | Plain (VList l) => Ret (length l)
  | Plain (VStr s) => Ret (String.length s)
  | _ => Raise TypeError
  end.

Definition _SQREEN_EVENT_PREFIX : string := "sq.".

Definition _TRACK_OPTIONS_FIELDS : list string :=
  ["properties"; "user_identifiers"; "timestamp"; "collect_body"].

Definition _TRACK_PAYLOAD_SECTIONS : list string :=
  ["request"; "response"; "headers"; "local"].

Definition _MAX_EVENT_PROPERTIES : nat := 16.

(** The order [sorted] puts the items of a dictionary in: by key. *)
Definition item_le (p q : string * value) : Prop :=
  String.leb (fst p) (fst q) = true.

#[global] Instance item_le_dec : RelDecision item_le.
Proof. intros p q. unfold item_le. apply _. Defined.

(** [dict(sorted(properties.items())[:_MAX_EVENT_PROPERTIES])] *)
Definition first_properties (properties : gmap string value)
  : gmap string value :=
  list_to_map
    (take _MAX_EVENT_PROPERTIES (merge_sort item_le (map_to_list properties))).

(** What [LOGGER] is told. *)
Inductive sdk_log : Type :=
| ReservedEventName (event : string)
| InvalidOptionKey (key : string)
| NaiveTimestamp (event : string)
| TooManyProperties (event : string) (n : nat)
| StacktraceRecorded (event : string)
| DifferentUserIdentifiers.

(** What [track] does to the outside, in order. *)
Inductive sdk_effect : Type :=
| SdkLogged (r : sdk_log)
| SdkObserved (source : string) (timestamp : sdk_value) (event : string)
    (options : odict) (payload_sections : gset string) (report : bool).

(** An action, as far as [track_action] reads it. *)
Record action_t : Type := mkAction {
  send_response : value;
  action_name : string;
  iden : value
}.

Section Events.

(** The collaborators that are not part of the sources: [now()] and
    [naive_dt_to_utc] of [utils], the comparison [!=] of two user
    identifiers, and [traceback.format_stack()]. *)
Variable now_datetime : Env → sdk_value.
Variable naive_dt_to_utc : sdk_value → sdk_value.
Variable py_ne : sdk_value → value → bool.
Variable format_stack : list string.

(** The module-level set [STACKTRACE_EVENTS]. *)
Variable STACKTRACE_EVENTS : gset string.

(** [_track_unsafe(event, options, storage, source)] *)
Definition _track_unsafe (event : string) (options : odict) (e : Env)
    (source : string) : outcome value * list sdk_effect :=
  let options :=
    if bool_decide ("timestamp" ∈ od_keys options) then options
    else od_set "timestamp" (now_datetime e) options in
  let payload_sections : gset string :=
    list_to_set _TRACK_PAYLOAD_SECTIONS in
  let payload_sections :=
    if sdk_truthy (default (Plain (VBool false))
                     (od_get "collect_body" options))
    then {[ "params" ]} ∪ payload_sections else payload_sections in
  (Ret (VBool true),
   [SdkObserved source
      (default (Plain VNone) (od_get "timestamp" options)) event options
      payload_sections true]).

(** The timestamp check of [track]. *)
Definition check_timestamp (event : string) (options : odict)
  : outcome (odict * list sdk_effect) :=
  let timestamp := default (Plain VNone) (od_get "timestamp" options) in
  if sdk_is_not_None timestamp then
    match timestamp with
    | Datetime None _ =>
        Ret (od_set "timestamp" (naive_dt_to_utc timestamp) options,
             [SdkLogged (NaiveTimestamp event)])
    | Datetime (Some _) _ => Ret (options, [])
    | Plain _ => Raise TypeError
    end
  else Ret (options, []).

(** The check of the number of properties of [track]; the warning is
    logged before the properties are replaced. *)
Definition check_properties (event : string) (options : odict)
  : outcome odict * list sdk_effect :=
  let properties := default (Plain VNone) (od_get "properties" options) in
  if sdk_truthy properties then
    match sdk_len properties with
    | Raise x => (Raise x, [])
    | Ret n =>
        if Nat.ltb _MAX_EVENT_PROPERTIES n then
          (match properties with
           | Plain (VDict d) =>
               Ret (od_set "properties"
                      (Plain (VDict (first_properties d))) options)
           | _ => Raise (AttributeError "items")
           end,
           [SdkLogged (TooManyProperties event n)])
        else (Ret options, [])
    end
  else (Ret options, []).

(** [track(event, options, storage)] *)
Definition track (event : value) (options : option odict) (e : Env)
  : outcome value * list sdk_effect :=
  match event with
  | VStr event =>
      if String.prefix _SQREEN_EVENT_PREFIX event then
        (Ret (VBool false), [SdkLogged (ReservedEventName event)])
      else
        let options := default [] options in
        let log_keys :=
          (fun k => SdkLogged (InvalidOptionKey k)) <$>
          List.filter
            (fun k => negb (bool_decide (k ∈ _TRACK_OPTIONS_FIELDS)))
            (od_keys options) in
        let options :=
          List.filter
            (fun p => bool_decide (fst p ∈ _TRACK_OPTIONS_FIELDS)) options in
        match check_timestamp event options with
        | Raise x => (Raise x, log_keys)
        | Ret (options, log_ts) =>
        match check_properties event options with
        | (Raise x, log_props) =>
            (Raise x, log_keys ++ log_ts ++ log_props)%list
        | (Ret options, log_props) =>
            let '(options, log_stack) :=
              if bool_decide (event ∈ STACKTRACE_EVENTS) then
                (od_set "stacktrace"
                   (Plain (VList (VStr <$> format_stack))) options,
                 [SdkLogged (StacktraceRecorded event)])
              else (options, []) in
            let options :=
              od_set "collect_body"
                (Plain (VBool (sdk_truthy
                                 (default (Plain VNone)
                                    (od_get "collect_body" options)))))
                options in
            let user_identifiers :=
              default (Plain VNone) (od_get "user_identifiers" options) in
            let log_ids :=
              if sdk_truthy user_identifiers then
                match request_store (storage e) !! "user_identifiers" with
                | Some global_user_identifiers =>
                    if is_not_None global_user_identifiers
                       && py_ne user_identifiers global_user_identifiers
                    then [SdkLogged DifferentUserIdentifiers] else []
                | None => []
                end
              else [] in
            let '(r, observed) := _track_unsafe event options e "track" in
            (r, (log_keys ++ log_ts ++ log_props ++ log_stack ++ log_ids
                 ++ observed)%list)
        end end
  | _ => (Raise TypeError, [])
  end.

(** [track_action(action, output, storage)] *)
Definition track_action (action : action_t) (output : value) (e : Env)
  : outcome value * list sdk_effect :=
  if negb (truthy (send_response action)) then (Ret (VBool false), [])
  else
    _track_unsafe ("sq.action." ++ action_name action)
      [("properties",
        Plain (VDict {[ "output" := output; "action_id" := iden action ]}));
       ("collect_body", Plain (VBool true))]
      e "track".

End Events.

(** The events a run of effects handed to the storage. *)
Definition sdk_observations (l : list sdk_effect) : list sdk_effect :=
  List.filter (fun x => match x with
                        | SdkObserved _ _ _ _ _ _ => true
                        | _ => false
                        end) l.

(** ** Concrete instances for [sdk/events.py] *)

(** A clock that reads the time of the environment, in UTC. *)
Definition example_now_datetime (e : Env) : sdk_value :=
  Datetime (Some "UTC") (now e).

(** A datetime without a time zone is taken as UTC. *)
Definition example_naive_dt_to_utc (v : sdk_value) : sdk_value :=
  match v with
  | Datetime None t => Datetime (Some "UTC") t
  | _ => v
  end.

(** User identifiers given as strings differ when the strings do. *)
Definition example_py_ne (a : sdk_value) (b : value) : bool :=
  match a, b with
  | Plain (VStr x), VStr y => negb (String.eqb x y)
  | _, _ => true
  end.

Definition example_format_stack : list string := ["frame"].

Definition example_STACKTRACE_EVENTS : gset string := {[ "crash" ]}.

(** Options with a key that [track] does not know. *)
Definition options_signup : odict :=
  [("user_identifiers", Plain (VStr "u1"));
   ("color", Plain (VStr "red"));
   ("collect_body", Plain (VInt 1))].

(** Options with a timestamp that has no time zone. *)
Definition options_naive : odict := [("timestamp", Datetime None 5)].

(** Options with one property. *)
Definition options_plan : odict :=
  [("properties", Plain (VDict {[ "plan" := VStr "pro" ]}))].

(** Seventeen properties. *)
Definition seventeen_properties : gmap string value :=
  list_to_map
    [("a", VInt 1); ("b", VInt 2); ("c", VInt 3); ("d", VInt 4);
     ("e", VInt 5); ("f", VInt 6); ("g", VInt 7); ("h", VInt 8);
     ("i", VInt 9); ("j", VInt 10); ("k", VInt 11); ("l", VInt 12);
     ("m", VInt 13); ("n", VInt 14); ("o", VInt 15); ("p", VInt 16);
     ("q", VInt 17)].

(** A handler of [noop] under the debug trace and the performance monitor,
    and one under a sampler of the [pre] phase. *)
Definition method_traced : method :=
  perf_monitoring_wrapper (debug_log_wrapper (Own noop) "pre") "sq.pack.rule.pre".

Definition method_sampled_pre : method :=
  call_count_wrapper (Own noop) "pre" "pack/rule/pre".

(** [track] with these collaborators. *)
Abbreviation ex_track :=
  (track example_now_datetime example_naive_dt_to_utc example_py_ne
     example_format_stack example_STACKTRACE_EVENTS).

(** ** Concrete instances for [record_exception] *)

(** Formatters and a storage that return: the raw formatter gives the
    frames of a traceback and no frame for another object, the stack
    formatter keeps the frames, the storage forwards the event to its
    sink. *)
Definition example_raw_traceback_formatter (tb : py_object)
  : py_result (list string) := Returns (default [] (obj_frames tb)).

Definition example_traceback_formatter (st : list string)
  : py_result (list string) := Returns st.

Definition example_storage_observe (category : string) (p : payload)
    (sections : option (list string)) (report : option bool) (e : Env)
  : py_result unit * Env := (Returns tt, observe category p sections report e).

(** An exception object without [exception_infos], and one whose
    [exception_infos] is interrupted from the keyboard. *)
Definition exc_without_infos : exc_arg :=
  mkExcArg (Raises (AnException (AttributeError "exception_infos"))).

Definition exc_interrupted : exc_arg :=
  mkExcArg (Raises (NotAnException "KeyboardInterrupt")).

(** [sys.exc_info()] while a [ValueError] is handled, and while no
    exception is handled: [(None, None, None)]. *)
Definition exc_info_ValueError : exc_info_arg :=
  ExcInfoTuple [class_object "ValueError"; exception_instance "bad value";
                traceback_object ["frame"]].

Definition exc_info_no_exception : exc_info_arg :=
  ExcInfoTuple [None_object; None_object; None_object].

(** [record_exception] with these collaborators. *)
Abbreviation ex_record_exception :=
  (BaseCallback_record_exception example_raw_traceback_formatter
     example_traceback_formatter example_storage_observe).

(** * Properties *)

Section Facts.

Variable is_condition_empty : value → bool.
Variable evaluate : value → bindings → value.
Variable get_current_args : Storage → list value → list value.
Variable raw_traceback_formatter : list string → list string.
Variable traceback_formatter : list string → list string.

Local Abbreviation invoke := (call evaluate get_current_args).
Local Abbreviation construct := (RuleCallback_init is_condition_empty).
Local Abbreviation composed := (pipeline is_condition_empty).
Local Abbreviation gated := (gated_logic is_condition_empty).
Local Abbreviation invoke_each := (invoke_all evaluate get_current_args).
Local Abbreviation outcomes := (outcomes_all evaluate get_current_args).
Local Abbreviation counts_one := (counts_one evaluate get_current_args).
Local Abbreviation skips_with := (skips_with evaluate get_current_args).
Local Abbreviation runs_in := (runs_in evaluate get_current_args).

(** ** The loops that rebind the lifecycle attributes *)

Lemma rewrap_self G cb l : self_ (rewrap G cb l) = self_ cb.
Proof. unfold rewrap. destruct (attrs cb !! l); reflexivity. Qed.

Lemma rewrap_lookup G cb l l' :
  attrs (rewrap G cb l) !! l' =
  if decide (l = l') then G (self_ cb) l <$> attrs cb !! l
  else attrs cb !! l'.
Proof.
  unfold rewrap. destruct (attrs cb !! l) as [m|] eqn:E; simpl.
  - case_decide as Hd.
    + subst l'. apply lookup_insert_eq.
    + by apply lookup_insert_ne.
  - case_decide as Hd; [subst l'; by rewrite E | done].
Qed.

Lemma foldl_rewrap_self G methods :
  ∀ cb, self_ (foldl (rewrap G) cb methods) = self_ cb.
Proof.
  induction methods as [|l ls IH]; intros cb; simpl; [done|].
  by rewrite IH, rewrap_self.
Qed.

Lemma foldl_rewrap_lookup G methods :
  ∀ cb l', NoDup methods →
    attrs (foldl (rewrap G) cb methods) !! l' =
    if decide (l' ∈ methods) then G (self_ cb) l' <$> attrs cb !! l'
    else attrs cb !! l'.
Proof.
  induction methods as [|l ls IH]; intros cb l' Hnd; cbn [foldl].
  - destruct (decide (l' ∈ [])) as [Hd|_]; [by apply elem_of_nil in Hd|done].
  - inversion Hnd as [|? ? Hl Hls]; subst.
    rewrite IH by done. rewrite rewrap_self, rewrap_lookup.
    destruct (decide (l = l')) as [->|Hne].
    + rewrite decide_False by done.
      rewrite decide_True by (by left). done.
    + destruct (decide (l' ∈ ls)) as [Hin|Hnin].
      * rewrite decide_True by (by right). done.
      * rewrite decide_False; [done|].
        intros [?|?]%elem_of_cons; [by subst | done].
Qed.

Lemma foldl_pointwise {A B} (f g : A → B → A) :
  (∀ a b, f a b = g a b) → ∀ l a, foldl f a l = foldl g a l.
Proof.
  intros Hfg l. induction l as [|b l IH]; intros a; simpl; [done|].
  by rewrite Hfg, IH.
Qed.

Lemma setattr_same cb l m : attrs cb !! l = Some m → setattr cb l m = cb.
Proof.
  intros H. destruct cb as [c at_]. unfold setattr. simpl in *.
  by rewrite insert_id.
Qed.

Lemma _apply_debug_log_rewrap e methods cb :
  _apply_debug_log e methods cb =
  foldl (rewrap (fun _ l m =>
                   wrap_if (debug_guard e)
                     (fun m => debug_log_wrapper m l) m)) cb methods.
Proof.
  unfold _apply_debug_log, debug_guard, wrap_if.
  destruct (LOGGER_isEnabledFor_DEBUG e); simpl.
  - reflexivity.
  - revert cb. induction methods as [|l ls IH]; intros cb; simpl; [done|].
    rewrite <- IH. f_equal. unfold rewrap.
    destruct (attrs cb !! l) eqn:E; [|done]. symmetry. by apply setattr_same.
Qed.

Lemma _apply_conditions_rewrap methods cb :
  _apply_conditions is_condition_empty methods cb =
  foldl (rewrap (fun c l m =>
                   wrap_if (condition_guard is_condition_empty c l)
                     (fun m => check_condition_wrapper m (condition_of c l) l)
                     m)) cb methods.
Proof.
  unfold _apply_conditions. apply foldl_pointwise. intros a l.
  unfold rewrap, condition_guard, condition_of, wrap_if.
  destruct (attrs a !! l) eqn:E; [|done].
  destruct (negb _); [done|]. symmetry. by apply setattr_same.
Qed.

Lemma foldl_rewrap_id methods :
  ∀ cb, foldl (rewrap (fun _ _ m => m)) cb methods = cb.
Proof.
  induction methods as [|l ls IH]; intros cb; simpl; [done|].
  rewrite IH. unfold rewrap. destruct (attrs cb !! l) eqn:E; [|done].
  by apply setattr_same.
Qed.

Lemma foldl_rewrap_ext G G' methods :
  ∀ cb, (∀ l m, G (self_ cb) l m = G' (self_ cb) l m) →
    foldl (rewrap G) cb methods = foldl (rewrap G') cb methods.
Proof.
  induction methods as [|l ls IH]; intros cb HG; simpl; [done|].
  assert (Hstep : rewrap G cb l = rewrap G' cb l).
  { unfold rewrap. destruct (attrs cb !! l); [|done]. by rewrite HG. }
  rewrite Hstep. apply IH. intros l0 m. rewrite rewrap_self. apply HG.
Qed.

Lemma _apply_call_count_rewrap methods cb :
  _apply_call_count methods cb =
  foldl (rewrap (fun c l m =>
                   wrap_if (call_count_guard c)
                     (fun m => call_count_wrapper m l (observation_key_of c l))
                     m)) cb methods.
Proof.
  unfold _apply_call_count.
  destruct (Z.eqb (call_count_interval (self_ cb)) 0) eqn:E.
  - rewrite <- (foldl_rewrap_id methods cb) at 1.
    apply foldl_rewrap_ext. intros l m.
    unfold wrap_if, call_count_guard. by rewrite E.
  - apply (foldl_rewrap_ext
             (fun c l m => call_count_wrapper m l (observation_key_of c l))).
    intros l m. unfold wrap_if, call_count_guard. by rewrite E.
Qed.

Lemma _apply_perf_monitoring_rewrap methods cb :
  _apply_perf_monitoring methods cb =
  foldl (rewrap (fun c l m =>
                   wrap_if (perf_guard c)
                     (fun m => perf_monitoring_wrapper m (metric_name_of c l))
                     m)) cb methods.
Proof.
  unfold _apply_perf_monitoring.
  destruct (performance_monitoring_enabled (self_ cb)) eqn:E; simpl.
  - apply (foldl_rewrap_ext
             (fun c l m => perf_monitoring_wrapper m (metric_name_of c l))).
    intros l m. unfold wrap_if, perf_guard. by rewrite E.
  - rewrite <- (foldl_rewrap_id methods cb) at 1.
    apply foldl_rewrap_ext. intros l m.
    unfold wrap_if, perf_guard. by rewrite E.
Qed.

(** ** The handler built by [RuleCallback.__init__] *)

Lemma NoDup_lifecycle_methods cb : NoDup (lifecycle_methods cb).
Proof.
  unfold lifecycle_methods. apply NoDup_filter.
  apply (bool_decide_unpack _). by vm_compute.
Qed.

Lemma elem_of_lifecycle_methods cb l :
  l ∈ lifecycle_methods cb ↔
  l ∈ ["pre"; "post"; "failing"] ∧ is_Some (attrs cb !! l).
Proof.
  unfold lifecycle_methods. rewrite list_elem_of_filter. tauto.
Qed.

Lemma RuleCallback_init_self cls a e :
  self_ (fst (construct cls a e)) =
  mkConfig (cls_SUPPORTS_BUDGET cls) (cls_INTERRUPTIBLE cls) (a_rule_name a)
    (a_rulespack_id a) (a_runner a) (py_or (a_data a) (VDict ∅))
    (py_or (a_beta a) (VBool false)) (py_or (a_block a) (VBool false))
    (py_or (a_test a) (VBool false)) (py_or (a_metrics a) (VList []))
    (a_attack_type a)
    (match a_payload_sections a with None => SECTIONS | Some s => s end)
    (init_priority (a_priority a)) (default ∅ (a_conditions a))
    (default 0 (a_call_count_interval a)).
Proof.
  unfold RuleCallback_init. cbn [fst].
  rewrite _apply_perf_monitoring_rewrap, _apply_call_count_rewrap,
    _apply_conditions_rewrap, _apply_debug_log_rewrap.
  rewrite !foldl_rewrap_self. reflexivity.
Qed.

Lemma RuleCallback_init_handler cls a e l f :
  l ∈ ["pre"; "post"; "failing"] →
  cls_methods cls !! l = Some f →
  handler (fst (construct cls a e)) l =
  Some (composed e (self_ (fst (construct cls a e))) l f).
Proof.
  intros Hl Hf. rewrite RuleCallback_init_self.
  unfold RuleCallback_init, handler. cbn [fst].
  rewrite _apply_perf_monitoring_rewrap, _apply_call_count_rewrap,
    _apply_conditions_rewrap, _apply_debug_log_rewrap.
  match goal with
  | |- context [lifecycle_methods ?cb0] => set (ms := lifecycle_methods cb0);
      assert (Hms : NoDup ms) by apply NoDup_lifecycle_methods;
      assert (Hin : l ∈ ms)
  end.
  { apply elem_of_lifecycle_methods. split; [done|].
    cbn [attrs]. rewrite lookup_fmap, Hf. by eexists. }
  rewrite !foldl_rewrap_lookup by done.
  rewrite !decide_True by done.
  rewrite !foldl_rewrap_self. cbn [attrs self_].
  rewrite lookup_fmap, Hf. reflexivity.
Qed.

Lemma RuleCallback_init_no_handler cls a e l :
  cls_methods cls !! l = None →
  handler (fst (construct cls a e)) l = None.
Proof.
  intros Hf. unfold RuleCallback_init, handler. cbn [fst].
  rewrite _apply_perf_monitoring_rewrap, _apply_call_count_rewrap,
    _apply_conditions_rewrap, _apply_debug_log_rewrap.
  match goal with
  | |- context [lifecycle_methods ?cb0] => set (ms := lifecycle_methods cb0);
      assert (Hms : NoDup ms) by apply NoDup_lifecycle_methods
  end.
  rewrite !foldl_rewrap_lookup by done. cbn [attrs].
  rewrite lookup_fmap, Hf. by repeat case_decide.
Qed.

(** ** Effects of the recording primitives *)

Lemma observed_as_emit_observed cat cat' p sec rep e :
  observed_as cat (emit (Observed cat' p sec rep) e) =
  (observed_as cat e ++ if String.eqb cat' cat then [p] else [])%list.
Proof.
  unfold observed_as, emit. cbn [effects set_effects].
  rewrite omap_app. cbn [omap list_omap]. by destruct (String.eqb cat' cat).
Qed.

Lemma observed_as_emit_other cat x e :
  (∀ c p s r, x ≠ Observed c p s r) →
  observed_as cat (emit x e) = observed_as cat e.
Proof.
  intros Hx. unfold observed_as, emit. cbn [effects set_effects].
  rewrite omap_app. destruct x; cbn [omap list_omap];
    try (by rewrite app_nil_r).
  by destruct (Hx category p payload_sections0 report).
Qed.

Lemma observed_as_LOGGER_debug cat r e :
  observed_as cat (LOGGER_debug r e) = observed_as cat e.
Proof.
  unfold LOGGER_debug. destruct (debug_enabled e); [|done].
  by apply observed_as_emit_other.
Qed.

Lemma observed_as_set_call_counts cat m e :
  observed_as cat (set_call_counts m e) = observed_as cat e.
Proof. reflexivity. Qed.

Lemma storage_LOGGER_debug r e : storage (LOGGER_debug r e) = storage e.
Proof. unfold LOGGER_debug. by destruct (debug_enabled e). Qed.

Lemma call_counts_LOGGER_debug r e :
  call_counts (LOGGER_debug r e) = call_counts e.
Proof. unfold LOGGER_debug. by destruct (debug_enabled e). Qed.

Lemma storage_count_call c l key n e :
  storage (count_call c l key n e) = storage e.
Proof.
  unfold count_call, record_observation, observe.
  destruct (Z.eqb _ _); cbn; [apply storage_LOGGER_debug | done].
Qed.

Lemma call_counts_count_call c l key n e :
  call_counts (count_call c l key n e) =
  <[l := if Z.eqb (n + 1) (call_count_interval c) then 0 else n + 1]>
    (call_counts e).
Proof.
  unfold count_call, record_observation, observe.
  destruct (Z.eqb _ _); cbn; [|done]. by rewrite call_counts_LOGGER_debug.
Qed.

Lemma observed_as_count_call cat c l key n e :
  observed_as cat (count_call c l key n e) =
  (observed_as cat e ++
   if Z.eqb (n + 1) (call_count_interval c) && String.eqb "observations" cat
   then [MetricPayload "sqreen_call_counts" (now e) key
           (VInt (call_count_interval c))]
   else [])%list.
Proof.
  unfold count_call, record_observation, observe.
  destruct (Z.eqb _ _); cbn [andb].
  - rewrite observed_as_set_call_counts, observed_as_emit_observed,
      observed_as_LOGGER_debug. done.
  - by rewrite observed_as_set_call_counts, app_nil_r.
Qed.

(** A view of the state that trace scopes and log records do not affect is
    kept by every wrapper but the call-count sampler; it is kept by the
    whole handler when the class-defined method keeps it too. *)
Lemma invoke_preserves {X} (view : Env → X) c m :
  (∀ x e, (∀ cat p s r, x ≠ Observed cat p s r) →
          view (emit x e) = view e) →
  (call_count_applied m = true →
   ∀ l key n e, view (count_call c l key n e) = view e) →
  (∀ i a k o e, view (snd (own_logic m c i a k o e)) = view e) →
  ∀ i a k o w, view (env (snd (invoke c m i a k o w))) = view (env w).
Proof.
  intros Hemit. 
  assert (Hlog : ∀ r e, view (LOGGER_debug r e) = view e).
  { intros r e. unfold LOGGER_debug. destruct (debug_enabled e); [|done].
    by apply Hemit. }
  induction m as [f|m IH cond l|m IH l key|m IH name|m IH l];
    intros Hcount Hown i a k o w; cbn [call].
  - specialize (Hown i a k o (env w)). cbn [own_logic] in Hown.
    destruct (f c i a k o (env w)) as [r e']. exact Hown.
  - destruct (in_False_None _).
    + cbn [snd on_env env]. apply Hlog.
    + by apply IH.
  - destruct (call_counts (env w) !! l) as [n|]; [|done].
    rewrite IH by (try done; intros; by apply Hcount).
    cbn [on_env env]. by apply Hcount.
  - unfold with_. cbn [storage_trace cm_enter cm_exit].
    specialize (IH Hcount Hown i a k o (on_env (emit (TraceEnter name)) w)).
    destruct (call _ _ _ _ _ _ _ _ _) as [[v|x] w'];
      cbn [snd on_env env] in *; rewrite Hemit by done;
      rewrite IH; by apply Hemit.
  - rewrite IH by done. cbn [on_env env]. apply Hlog.
Qed.

(** ** [BaseCallback] *)

(** C10. A callback constructed without a priority ([None]) has priority
    100; a priority that is given, 0 included, is kept as it is.  This
    holds for [BaseCallback.__init__] and for the attribute of the object
    [RuleCallback.__init__] builds. *)
Theorem priority_default_100 cls a e sb it rn rp ru be bl te da me ps aty :
  priority (BaseCallback_init sb it rn rp ru be bl te da me ps VNone aty)
    = VInt 100 ∧
  priority (BaseCallback_init sb it rn rp ru be bl te da me ps (VInt 0) aty)
    = VInt 0 ∧
  (∀ p, p ≠ VNone →
     priority (BaseCallback_init sb it rn rp ru be bl te da me ps p aty)
       = p) ∧
  (a_priority a = VNone →
     priority (self_ (fst (construct cls a e))) = VInt 100) ∧
  (a_priority a ≠ VNone →
     priority (self_ (fst (construct cls a e))) = a_priority a).
Proof.
  rewrite RuleCallback_init_self. cbn [priority BaseCallback_init].
  unfold init_priority. repeat split.
  - intros p Hp. by destruct p.
  - by intros ->.
  - intros Hp. by destruct (a_priority a).
Qed.

(** C6, as the code has it.  [collaborative] is the class constant
    [SUPPORTS_BUDGET] and nothing else: it does not depend on the runner or
    on performance monitoring.  [skippable] is the class constant
    [INTERRUPTIBLE]: true unless the class is marked non-interruptible. *)
Theorem collaborative_is_SUPPORTS_BUDGET cls a e c r :
  collaborative c = SUPPORTS_BUDGET c ∧
  collaborative
    (mkConfig (SUPPORTS_BUDGET c) (INTERRUPTIBLE c) (rule_name c)
       (rulespack_id c) r (data c) (beta c) (block c) (test c) (metrics c)
       (attack_type c) (payload_sections c) (priority c) (conditions c)
       (call_count_interval c)) = collaborative c ∧
  skippable c = INTERRUPTIBLE c ∧
  collaborative (self_ (fst (construct cls a e))) = cls_SUPPORTS_BUDGET cls ∧
  skippable (self_ (fst (construct cls a e))) = cls_INTERRUPTIBLE cls.
Proof. rewrite RuleCallback_init_self. repeat split. Qed.

(** C4, as the code has it.  Without an override, [get_remaining_budget]
    returns [B - E] when the runner has the budget [B] and performance
    monitoring is enabled, [E] being the time already spent on the request
    (0 when none is recorded).  A value other than [None] under the
    override key is returned and the key is removed from the options; it
    takes precedence over any budget.  Without an override, the result is
    [None] when there is no runner, when performance monitoring is not
    enabled or when the runner has no budget.  The options are changed in
    no other way. *)
Theorem get_remaining_budget_cases c e :
  (∀ r B kw,
     runner c = Some r → budget r = Some B →
     performance_monitoring_enabled c = true →
     kw !! "__sqreen_override_budget" = None →
     get_remaining_budget c None e
       = (VInt (B - default 0 (request_sq_time (storage e))), None) ∧
     get_remaining_budget c (Some kw) e
       = (VInt (B - default 0 (request_sq_time (storage e))), Some kw)) ∧
  (∀ kw O,
     kw !! "__sqreen_override_budget" = Some O → O ≠ VNone →
     get_remaining_budget c (Some kw) e
       = (O, Some (delete "__sqreen_override_budget" kw))) ∧
  (∀ kw,
     kw !! "__sqreen_override_budget" = None →
     (runner c = None ∨ performance_monitoring_enabled c = false ∨
      (∃ r, runner c = Some r ∧ budget r = None)) →
     get_remaining_budget c None e = (VNone, None) ∧
     get_remaining_budget c (Some kw) e = (VNone, Some kw)).
Proof.
  unfold get_remaining_budget. split; [|split].
  - intros r B kw Hr Hb Hp Hkw. split.
    + cbn [is_not_None]. by rewrite Hr, Hp, Hb.
    + rewrite Hkw. cbn [default is_not_None].
      rewrite Hr, Hp, Hb. by rewrite delete_id.
  - intros kw O HO HN. rewrite HO. cbn [default].
    by destruct O.
  - intros kw Hkw Hno. split.
    + cbn [is_not_None].
      destruct Hno as [->|[Hp|[r [-> Hb]]]]; [done| |].
      * rewrite Hp. by destruct (runner c).
      * rewrite Hb. by destruct (performance_monitoring_enabled c).
    + rewrite Hkw. cbn [default is_not_None]. rewrite delete_id by done.
      destruct Hno as [->|[Hp|[r [-> Hb]]]]; [done| |].
      * rewrite Hp. by destruct (runner c).
      * rewrite Hb. by destruct (performance_monitoring_enabled c).
Qed.

(** ** The wrapper pipeline *)

(** C3, as the code has it.  For every lifecycle phase the class
    implements, the handler built by [RuleCallback.__init__] is the
    composition, innermost to outermost, of the phase's own logic, the debug
    trace, the condition gate, the call-count sampler and the performance
    monitor: the debug trace is the innermost decorator and the performance
    monitor the outermost.  A decorator whose guard is false is left out, so
    with every guard false the handler is the phase's own logic; a phase the
    class does not implement has no handler. *)
Theorem effective_handler_composition cls a e l f :
  l ∈ ["pre"; "post"; "failing"] →
  cls_methods cls !! l = Some f →
  let c := self_ (fst (construct cls a e)) in
  handler (fst (construct cls a e)) l =
    Some
      (wrap_if (performance_monitoring_enabled c)
         (fun m => perf_monitoring_wrapper m (metric_name_of c l))
         (wrap_if (negb (Z.eqb (call_count_interval c) 0))
            (fun m => call_count_wrapper m l (observation_key_of c l))
            (wrap_if
               (negb (is_condition_empty (default VNone (conditions c !! l))))
               (fun m => check_condition_wrapper m
                           (default VNone (conditions c !! l)) l)
               (wrap_if (LOGGER_isEnabledFor_DEBUG e)
                  (fun m => debug_log_wrapper m l) (Own f))))) ∧
  (performance_monitoring_enabled c = false →
   call_count_interval c = 0 →
   is_condition_empty (default VNone (conditions c !! l)) = true →
   LOGGER_isEnabledFor_DEBUG e = false →
   handler (fst (construct cls a e)) l = Some (Own f)) ∧
  (∀ l', cls_methods cls !! l' = None →
         handler (fst (construct cls a e)) l' = None).
Proof.
  intros Hl Hf c. split; [|split].
  - apply (RuleCallback_init_handler cls a e l f Hl Hf).
  - intros Hp Hc Hi Hd.
    rewrite (RuleCallback_init_handler cls a e l f Hl Hf).
    unfold pipeline, gated_logic, perf_guard,
      call_count_guard, condition_guard, condition_of, debug_guard.
    fold c. by rewrite Hp, Hc, Hi, Hd.
  - intros l' Hn. by apply RuleCallback_init_no_handler.
Qed.

(** C5, as the code has it.  The performance monitor is applied to the
    handler of a phase exactly when performance monitoring is enabled on
    the runner (a runner is present, its [performance_metrics] flag is set
    and its settings are enabled); the class's budget support plays no part.
    When applied it is the outermost decorator, and its trace scope is
    opened before the wrapped handler runs and closed after it, when the
    wrapped handler returns and when it raises; what the wrapped handler
    returned or raised is passed on. *)
Theorem perf_monitoring_applied_and_scoped cls a e l f :
  l ∈ ["pre"; "post"; "failing"] →
  cls_methods cls !! l = Some f →
  let c := self_ (fst (construct cls a e)) in
  (∃ h, handler (fst (construct cls a e)) l = Some h ∧
        perf_monitor_applied h = performance_monitoring_enabled c ∧
        (performance_monitoring_enabled c = true →
         ∃ wrapped, h = perf_monitoring_wrapper wrapped
                          (metric_name_of c l))) ∧
  (∀ c wrapped name i ar k o w,
     ∃ r w2,
       invoke c wrapped i ar k o (on_env (emit (TraceEnter name)) w)
         = (r, w2) ∧
       invoke c (perf_monitoring_wrapper wrapped name) i ar k o w
         = (r, on_env (emit (TraceExit name)) w2) ∧
       last (effects (env (snd (invoke c (perf_monitoring_wrapper wrapped
                                            name) i ar k o w))))
         = Some (TraceExit name)) ∧
  (∀ c wrapped name i ar k o w x w2,
     invoke c wrapped i ar k o (on_env (emit (TraceEnter name)) w)
       = (Raise x, w2) →
     invoke c (perf_monitoring_wrapper wrapped name) i ar k o w
       = (Raise x, on_env (emit (TraceExit name)) w2)).
Proof.
  intros Hl Hf c. split; [|split].
  - eexists. split; [apply (RuleCallback_init_handler cls a e l f Hl Hf)|].
    fold c. unfold pipeline, gated_logic, perf_guard,
      wrap_if.
    destruct (performance_monitoring_enabled c); cbn [perf_monitor_applied].
    + split; [done|]. intros _. by eexists.
    + split; [|done].
      destruct (call_count_guard c), (condition_guard _ c l),
        (debug_guard e); reflexivity.
  - intros c0 wrapped name i ar k o w. cbn [call]. unfold with_.
    cbn [storage_trace cm_enter cm_exit].
    destruct (invoke c0 wrapped i ar k o (on_env (emit (TraceEnter name)) w))
      as [[v|x] w2]; do 2 eexists; (split; [reflexivity|]);
      (split; [reflexivity|]); cbn [snd on_env env emit effects set_effects];
      apply last_snoc.
  - intros c0 wrapped name i ar k o w x w2 H. cbn [call]. unfold with_.
    cbn [storage_trace cm_enter cm_exit]. by rewrite H.
Qed.

(** C7, as the code has it.  [whitelisted] tells whether the storage
    reports a whitelist match, and skipping a whitelisted request is left to
    the caller: no wrapper reads the flag.  For a whitelisted request as for
    any other, no wrapper records an attack: an invocation of a handler
    records one only if the phase's own logic does, and none at all when the
    condition gate, outermost, skips the phase. *)
Theorem whitelisted_left_to_caller c m :
  (∀ e, truthy (whitelisted e) = truthy (whitelist_match (storage e))) ∧
  (∀ i a k o w,
     truthy (whitelisted (env w)) = true →
     (∀ i a k o e,
        observed_as "attacks" (snd (own_logic m c i a k o e))
          = observed_as "attacks" e) →
     observed_as "attacks" (env (snd (invoke c m i a k o w)))
       = observed_as "attacks" (env w)) ∧
  (∀ cond l i a k o w,
     truthy (whitelisted (env w)) = true →
     in_False_None
       (evaluate cond
          (binding_eval_args get_current_args c l i a k o
             (storage (env w)))) = true →
     observed_as "attacks"
       (env (snd (invoke c (check_condition_wrapper m cond l) i a k o w)))
       = observed_as "attacks" (env w)).
Proof.
  split; [|split].
  - intros e. unfold whitelisted, py_or.
    by destruct (truthy (whitelist_match (storage e))) eqn:E.
  - intros i a k o w _ Hown.
    apply (invoke_preserves (observed_as "attacks")); try done.
    + intros x e Hx. by apply observed_as_emit_other.
    + intros _ l key n e. rewrite observed_as_count_call.
      rewrite andb_false_r. apply app_nil_r.
  - intros cond l i a k o w _ Hc. cbn [call]. rewrite Hc.
    cbn [snd on_env env]. apply observed_as_LOGGER_debug.
Qed.

(** ** Call-count sampling *)

Lemma invoke_all_app c h l1 l2 w :
  invoke_each c h (l1 ++ l2) w = invoke_each c h l2 (invoke_each c h l1 w).
Proof.
  revert w. induction l1 as [|i l1 IH]; intros w; cbn [invoke_all app];
    [done|]. apply IH.
Qed.

Lemma sampled_observations_count_call c l key n e :
  sampled_observations (count_call c l key n e) =
  (sampled_observations e ++
   if Z.eqb (n + 1) (call_count_interval c)
   then [(key, VInt (call_count_interval c))] else [])%list.
Proof.
  unfold sampled_observations. rewrite observed_as_count_call, omap_app.
  destruct (Z.eqb _ _); reflexivity.
Qed.

Lemma sampled_observations_emit_other x e :
  (∀ cat p s r, x ≠ Observed cat p s r) →
  sampled_observations (emit x e) = sampled_observations e.
Proof.
  intros Hx. unfold sampled_observations.
  by rewrite observed_as_emit_other.
Qed.

Lemma gated_logic_not_counting e c l f :
  call_count_applied (gated e c l f) = false.
Proof.
  unfold gated_logic, wrap_if.
  by destruct (condition_guard _ c l), (debug_guard e).
Qed.

Lemma own_logic_gated_logic e c l f : own_logic (gated e c l f) = f.
Proof.
  unfold gated_logic, wrap_if.
  by destruct (condition_guard _ c l), (debug_guard e).
Qed.

Lemma call_counts_emit x e : call_counts (emit x e) = call_counts e.
Proof. reflexivity. Qed.

(** One invocation of the handler that [RuleCallback.__init__] builds for
    a phase, decorator by decorator: the trace scope is entered, the call is
    counted, the condition is evaluated on the storage the handler was
    invoked with, the debug record is logged, the class-defined method is
    called, the trace scope is left. *)
Lemma pipeline_invocation e0 c l f i ar k o w n :
  (call_count_interval c ≠ 0 → call_counts (env w) !! l = Some n) →
  let name := metric_name_of c l in
  let cond := default VNone (conditions c !! l) in
  let r := evaluate cond
             (binding_eval_args get_current_args c l i ar k o
                (storage (env w))) in
  let entered := if performance_monitoring_enabled c
                 then emit (TraceEnter name) (env w) else env w in
  let leave := fun e => if performance_monitoring_enabled c
                        then emit (TraceExit name) e else e in
  let counted := if Z.eqb (call_count_interval c) 0 then entered
                 else count_call c l (observation_key_of c l) n entered in
  let e_in := if LOGGER_isEnabledFor_DEBUG e0
              then LOGGER_debug (LogRunning l (rule_name c)) counted
              else counted in
  invoke c (composed e0 c l f) i ar k o w
  = if negb (is_condition_empty cond) && in_False_None r
    then (Ret VNone,
          mkWorld
            (leave (LOGGER_debug (LogNotRunning l (rule_name c) cond r)
                      counted))
            (calls w))
    else (fst (f c i ar k o e_in),
          mkWorld (leave (snd (f c i ar k o e_in)))
            (calls w ++ [mkInvocation i ar k o])%list).
Proof.
  intros Hn. cbn zeta.
  unfold pipeline, gated_logic, perf_guard, call_count_guard,
    condition_guard, condition_of, debug_guard, wrap_if.
  destruct (performance_monitoring_enabled c);
    destruct (Z.eqb_spec (call_count_interval c) 0) as [Hz|Hnz];
    try (specialize (Hn Hnz));
    destruct (is_condition_empty (default VNone (conditions c !! l)));
    destruct (LOGGER_isEnabledFor_DEBUG e0);
    cbn [negb andb call]; unfold with_;
    cbn [storage_trace cm_enter cm_exit on_env env calls call];
    rewrite ?call_counts_emit, ?Hn; cbn [on_env env calls call];
    rewrite ?storage_count_call; cbn [emit set_effects storage];
    try destruct (in_False_None _);
    cbn [on_env env calls];
    try (match goal with
         | |- context [f c i ar k o ?e] =>
             destruct (f c i ar k o e) as [[v|x] e']
         end);
    reflexivity.
Qed.

Lemma call_count_wrapper_counts_one c l wrapped :
  call_count_applied wrapped = false →
  (∀ i ar k o e,
     call_counts (snd (own_logic wrapped c i ar k o e)) = call_counts e ∧
     sampled_observations (snd (own_logic wrapped c i ar k o e))
       = sampled_observations e) →
  counts_one c l (call_count_wrapper wrapped l (observation_key_of c l)).
Proof.
  intros Hnc Hown n i ar k o w Hn. cbn [call]. rewrite Hn. cbn zeta.
  assert (Hkeep : ∀ w1,
            (call_counts (env (snd (invoke c wrapped i ar k o w1))),
             sampled_observations
               (env (snd (invoke c wrapped i ar k o w1))))
            = (call_counts (env w1), sampled_observations (env w1))).
  { intros w1.
    apply (invoke_preserves
             (fun e => (call_counts e, sampled_observations e))).
    - intros x e Hx. by rewrite sampled_observations_emit_other.
    - intros Happ. congruence.
    - intros i0 ar0 k0 o0 e. by destruct (Hown i0 ar0 k0 o0 e) as [-> ->]. }
  specialize (Hkeep (on_env (count_call c l (observation_key_of c l) n) w)).
  injection Hkeep as Hc Hs. rewrite Hc, Hs. cbn [on_env env].
  rewrite call_counts_count_call, sampled_observations_count_call.
  by rewrite lookup_insert_eq.
Qed.

Lemma perf_monitoring_wrapper_counts_one c l h name :
  counts_one c l h → counts_one c l (perf_monitoring_wrapper h name).
Proof.
  intros Hh n i ar k o w Hn. cbn [call]. unfold with_.
  cbn [storage_trace cm_enter cm_exit].
  specialize (Hh n i ar k o (on_env (emit (TraceEnter name)) w) Hn).
  cbn zeta in Hh.
  destruct (invoke c h i ar k o (on_env (emit (TraceEnter name)) w))
    as [[v|x] w2]; cbn [snd on_env env] in *;
    rewrite sampled_observations_emit_other by done;
    destruct Hh as [Hc Hs]; split; try done;
    rewrite Hs; by rewrite sampled_observations_emit_other.
Qed.

Lemma succ_mod_reset n K :
  0 < K → 0 <= n → n mod K + 1 = K →
  (n + 1) mod K = 0 ∧ (n + 1) / K = n / K + 1.
Proof.
  intros HK Hn Hr. pose proof (Z.div_mod n K ltac:(lia)) as Hd.
  assert (Heq : n + 1 = (n / K + 1) * K + 0) by lia.
  split.
  - rewrite Heq. rewrite Z.add_0_r. apply Z.mod_mul. lia.
  - rewrite Heq. rewrite Z.add_0_r. apply Z.div_mul. lia.
Qed.

Lemma succ_mod_step n K :
  0 < K → 0 <= n → n mod K + 1 ≠ K →
  (n + 1) mod K = n mod K + 1 ∧ (n + 1) / K = n / K.
Proof.
  intros HK Hn Hr. pose proof (Z.div_mod n K ltac:(lia)) as Hd.
  pose proof (Z.mod_pos_bound n K HK) as Hb.
  assert (Heq : n + 1 = K * (n / K) + (n mod K + 1)) by lia.
  split.
  - symmetry. apply (Z.mod_unique_pos _ _ (n / K)); lia.
  - symmetry. apply (Z.div_unique_pos _ _ _ (n mod K + 1)); lia.
Qed.

Lemma counts_one_iterated c l h K :
  call_count_interval c = K → 0 < K → counts_one c l h →
  ∀ w0 invs,
    call_counts (env w0) !! l = Some 0 →
    let w := invoke_each c h invs w0 in
    let n := Z.of_nat (length invs) in
    call_counts (env w) !! l = Some (n mod K) ∧
    sampled_observations (env w) =
      (sampled_observations (env w0) ++
       replicate (Z.to_nat (n / K)) (observation_key_of c l, VInt K))%list.
Proof.
  intros HK Hpos Hone w0 invs H0. cbn zeta.
  induction invs as [|i invs IH] using rev_ind.
  - cbn [invoke_all length]. rewrite Z.mod_0_l by lia.
    rewrite Z.div_0_l by lia. cbn. by rewrite app_nil_r.
  - rewrite invoke_all_app. cbn [invoke_all]. destruct IH as [IHc IHs].
    destruct (Hone _ (i_inst i) (i_args i) (i_kwargs i) (i_options i) _ IHc)
      as [Hc Hs].
    rewrite Hc, Hs, IHs, HK. rewrite length_app. cbn [length].
    rewrite Nat2Z.inj_add. change (Z.of_nat 1) with 1.
    set (n := Z.of_nat (length invs)) in *.
    assert (Hn : 0 <= n) by lia.
    destruct (Z.eqb_spec (n mod K + 1) K) as [Heq|Hne].
    + destruct (succ_mod_reset n K Hpos Hn Heq) as [-> ->].
      split; [done|]. rewrite <- app_assoc. f_equal.
      rewrite Z2Nat.inj_add by (try lia; apply Z.div_pos; lia).
      by rewrite replicate_add.
    + destruct (succ_mod_step n K Hpos Hn Hne) as [-> ->].
      split; [done|]. by rewrite app_nil_r.
Qed.

Lemma CountHTTPCodesCBFlask_failing_frame c i ar k o e :
  call_counts (snd (CountHTTPCodesCBFlask_failing c i ar k o e))
    = call_counts e ∧
  sampled_observations (snd (CountHTTPCodesCBFlask_failing c i ar k o e))
    = sampled_observations e.
Proof.
  unfold CountHTTPCodesCBFlask_failing, mbind, M_bind, bind, effect_, ret.
  cbn [snd]. unfold record_observation, observe. split.
  - cbn [emit set_effects call_counts]. apply call_counts_LOGGER_debug.
  - unfold sampled_observations.
    rewrite observed_as_emit_observed, observed_as_LOGGER_debug.
    rewrite omap_app. cbn. by rewrite app_nil_r.
Qed.

Lemma initial_call_counts_zero l :
  l ∈ ["pre"; "post"; "failing"] → initial_call_counts !! l = Some 0.
Proof.
  intros Hl. repeat (apply elem_of_cons in Hl as [->|Hl]; [reflexivity|]).
  by apply elem_of_nil in Hl.
Qed.

(** C2. A rule callback with a positive sampling interval [K] whose own
    phase logic [f] leaves the counters and the reported samples alone: its
    constructor sets the counter of every phase to 0, and the handler of a
    phase is the call-count sampler around the gated logic of [f], under
    the performance monitor when that is enabled.  Starting from a counter
    at 0, after [n] invocations the counter is [n mod K], so it is never
    negative, stays below [K] and equals [n] as long as [n < K], and [n / K]
    samples [(rulespack_id/rule_name/phase, K)] have been reported: exactly
    one after [K] invocations, with the counter back at 0, and none after
    [K - 1].  Whatever the counter is, an invocation first counts and then
    goes on to the logic the sampler wraps: unless the condition gate of
    the phase skips it, [f] is called exactly once, with the arguments the
    handler received, in the state left by the counting, and what it
    returns or raises and the state it leaves are passed on; without a
    condition on the phase, a run of invocations calls [f] once for each,
    in order. *)
Theorem call_count_sampling cls a e0 l f K :
  l ∈ ["pre"; "post"; "failing"] →
  cls_methods cls !! l = Some f →
  a_call_count_interval a = Some K →
  0 < K →
  (∀ c i ar k o e,
     call_counts (snd (f c i ar k o e)) = call_counts e ∧
     sampled_observations (snd (f c i ar k o e)) = sampled_observations e) →
  let c := self_ (fst (construct cls a e0)) in
  let key := rulespack_id c ++ "/" ++ rule_name c ++ "/" ++ l in
  let name := metric_name_of c l in
  let cond := default VNone (conditions c !! l) in
  call_counts (snd (construct cls a e0)) !! l = Some 0 ∧
  ∃ h,
    handler (fst (construct cls a e0)) l = Some h ∧
    h = wrap_if (performance_monitoring_enabled c)
          (fun m => perf_monitoring_wrapper m name)
          (call_count_wrapper (gated e0 c l f) l key) ∧
    (∀ w0 invs,
       call_counts (env w0) !! l = Some 0 →
       let w := invoke_each c h invs w0 in
       let n := Z.of_nat (length invs) in
       (∃ cnt, call_counts (env w) !! l = Some cnt ∧ cnt = n mod K ∧
               0 <= cnt < K ∧ (n < K → cnt = n)) ∧
       sampled_observations (env w) =
         (sampled_observations (env w0) ++
          replicate (Z.to_nat (n / K)) (key, VInt K))%list ∧
       (n = K →
        call_counts (env w) !! l = Some 0 ∧
        sampled_observations (env w) =
          (sampled_observations (env w0) ++ [(key, VInt K)])%list) ∧
       (n = K - 1 →
        sampled_observations (env w) = sampled_observations (env w0))) ∧
    (∀ n i ar k o w,
       call_counts (env w) !! l = Some n →
       let r := evaluate cond
                  (binding_eval_args get_current_args c l i ar k o
                     (storage (env w))) in
       let entered := if performance_monitoring_enabled c
                      then emit (TraceEnter name) (env w) else env w in
       let leave := fun e => if performance_monitoring_enabled c
                             then emit (TraceExit name) e else e in
       let counted := count_call c l key n entered in
       let e_in := if LOGGER_isEnabledFor_DEBUG e0
                   then LOGGER_debug (LogRunning l (rule_name c)) counted
                   else counted in
       if negb (is_condition_empty cond) && in_False_None r
       then invoke c h i ar k o w
            = (Ret VNone,
               mkWorld
                 (leave (LOGGER_debug (LogNotRunning l (rule_name c) cond r)
                           counted))
                 (calls w))
       else runs_in e_in leave c f h i ar k o w) ∧
    (is_condition_empty cond = true →
     ∀ w0 invs,
       call_counts (env w0) !! l = Some 0 →
       calls (invoke_each c h invs w0) = (calls w0 ++ invs)%list).
Proof.
  intros Hl Hf HK Hpos Hown c key name cond.
  assert (Hint : call_count_interval c = K).
  { unfold c. rewrite RuleCallback_init_self. cbn. by rewrite HK. }
  split.
  { unfold RuleCallback_init. cbn [snd call_counts set_call_counts].
    by apply initial_call_counts_zero. }
  pose proof (RuleCallback_init_handler cls a e0 l f Hl Hf) as Hh.
  fold c in Hh.
  assert (Hg : call_count_guard c = true).
  { unfold call_count_guard. rewrite Hint.
    destruct (Z.eqb_spec K 0); [lia|done]. }
  assert (Hshape : composed e0 c l f
                   = wrap_if (performance_monitoring_enabled c)
                       (fun m => perf_monitoring_wrapper m name)
                       (call_count_wrapper (gated e0 c l f) l key)).
  { unfold pipeline. by rewrite Hg. }
  assert (Hone : counts_one c l (composed e0 c l f)).
  { rewrite Hshape. unfold wrap_if.
    assert (H1 : counts_one c l
                   (call_count_wrapper (gated e0 c l f) l
                      (observation_key_of c l))).
    { apply call_count_wrapper_counts_one.
      - apply gated_logic_not_counting.
      - rewrite own_logic_gated_logic. intros. apply Hown. }
    destruct (performance_monitoring_enabled c); [|exact H1].
    by apply perf_monitoring_wrapper_counts_one. }
  assert (Hcount : ∀ w0 invs,
     call_counts (env w0) !! l = Some 0 →
     call_counts (env (invoke_each c (composed e0 c l f) invs w0)) !! l
       = Some (Z.of_nat (length invs) mod K)).
  { intros w0 invs H0.
    by destruct (counts_one_iterated c l _ K Hint Hpos Hone w0 invs H0). }
  assert (Hstep : ∀ n i ar k o w,
     call_counts (env w) !! l = Some n →
     let r := evaluate cond
                (binding_eval_args get_current_args c l i ar k o
                   (storage (env w))) in
     let entered := if performance_monitoring_enabled c
                    then emit (TraceEnter name) (env w) else env w in
     let leave := fun e => if performance_monitoring_enabled c
                           then emit (TraceExit name) e else e in
     let counted := count_call c l key n entered in
     let e_in := if LOGGER_isEnabledFor_DEBUG e0
                 then LOGGER_debug (LogRunning l (rule_name c)) counted
                 else counted in
     if negb (is_condition_empty cond) && in_False_None r
     then invoke c (composed e0 c l f) i ar k o w
          = (Ret VNone,
             mkWorld
               (leave (LOGGER_debug (LogNotRunning l (rule_name c) cond r)
                         counted))
               (calls w))
     else runs_in e_in leave c f (composed e0 c l f) i ar k o w).
  { intros n i ar k o w Hn. cbn zeta. unfold runs_in.
    pose proof (pipeline_invocation e0 c l f i ar k o w n (fun _ => Hn))
      as Hinv.
    cbn zeta in Hinv. fold cond name in Hinv.
    assert (Hz : Z.eqb (call_count_interval c) 0 = false).
    { rewrite Hint. apply Z.eqb_neq. lia. }
    rewrite Hz in Hinv.
    change (observation_key_of c l) with key in Hinv.
    by destruct (negb (is_condition_empty cond) && in_False_None _). }
  exists (composed e0 c l f).
  split; [exact Hh|]. split; [exact Hshape|]. split; [|split].
  - intros w0 invs H0. cbn zeta.
    destruct (counts_one_iterated c l _ K Hint Hpos Hone w0 invs H0)
      as [Hc Hs].
    change (observation_key_of c l) with key in Hs.
    set (n := Z.of_nat (length invs)) in *.
    assert (Hn : 0 <= n) by lia.
    pose proof (Z.mod_pos_bound n K Hpos) as Hb.
    split; [|split; [exact Hs|split]].
    + exists (n mod K). repeat split; try done; try lia.
      intros Hlt. apply Z.mod_small. lia.
    + intros HnK. rewrite Hc, Hs, HnK.
      rewrite Z_mod_same_full, Z_div_same_full by lia. done.
    + intros HnK. rewrite Hs, HnK.
      rewrite Z.div_small by lia. cbn. by rewrite app_nil_r.
  - exact Hstep.
  - intros Hempty w0 invs H0.
    induction invs as [|inv invs IH] using rev_ind.
    + cbn [invoke_all]. by rewrite app_nil_r.
    + rewrite invoke_all_app. cbn [invoke_all].
      pose proof (Hstep _ (i_inst inv) (i_args inv) (i_kwargs inv)
                    (i_options inv) _ (Hcount w0 invs H0)) as Hrun.
      cbn zeta in Hrun. rewrite Hempty in Hrun. cbn [negb andb] in Hrun.
      unfold runs_in in Hrun. rewrite Hrun. cbn [snd calls].
      rewrite IH. destruct inv. by rewrite app_assoc.
Qed.

(** ** The condition gate *)

Lemma in_False_None_skip r :
  r = VBool false ∨ r = VNone → in_False_None r = true.
Proof. by intros [->| ->]. Qed.

Lemma skips_with_gate c wrapped cond l i ar k o w :
  in_False_None
    (evaluate cond
       (binding_eval_args get_current_args c l i ar k o (storage (env w))))
    = true →
  skips_with [] c (check_condition_wrapper wrapped cond l) i ar k o w.
Proof.
  intros Hr. eexists. cbn [call]. rewrite Hr. split; [reflexivity|].
  cbn [on_env env calls]. split; [done|]. split; [|split].
  - apply storage_LOGGER_debug.
  - intros cat _. apply observed_as_LOGGER_debug.
  - rewrite observed_as_LOGGER_debug. by rewrite app_nil_r.
Qed.

Lemma skips_with_perf extra c h name i ar k o w :
  skips_with extra c h i ar k o (on_env (emit (TraceEnter name)) w) →
  skips_with extra c (perf_monitoring_wrapper h name) i ar k o w.
Proof.
  intros (w' & Hc & Hcalls & Hst & Hcat & Hobs). eexists. cbn [call].
  unfold with_. cbn [storage_trace cm_enter cm_exit]. rewrite Hc.
  split; [reflexivity|]. cbn [on_env env calls] in *.
  split; [done|]. split; [done|]. split.
  - intros cat Hne. rewrite observed_as_emit_other by done.
    rewrite Hcat by done. by apply observed_as_emit_other.
  - rewrite observed_as_emit_other by done. rewrite Hobs.
    by rewrite observed_as_emit_other.
Qed.

Lemma skips_with_count c h l key n i ar k o w :
  call_counts (env w) !! l = Some n →
  skips_with [] c h i ar k o (on_env (count_call c l key n) w) →
  skips_with
    (if Z.eqb (n + 1) (call_count_interval c)
     then [MetricPayload "sqreen_call_counts" (now (env w)) key
             (VInt (call_count_interval c))]
     else [])
    c (call_count_wrapper h l key) i ar k o w.
Proof.
  intros Hn (w' & Hc & Hcalls & Hst & Hcat & Hobs). eexists. cbn [call].
  rewrite Hn, Hc. split; [reflexivity|]. cbn [on_env env calls] in *.
  split; [done|]. split; [by rewrite Hst, storage_count_call|]. split.
  - intros cat Hne. rewrite Hcat by done. rewrite observed_as_count_call.
    destruct (String.eqb_spec "observations" cat) as [<-|_]; [done|].
    by rewrite andb_false_r, app_nil_r.
  - rewrite Hobs, app_nil_r, observed_as_count_call.
    by rewrite andb_true_r.
Qed.


(** ** The request-context callback of the AWS Lambda adapter *)

Ltac if_bool_decide_ext :=
  match goal with
  | |- (if ?x then _ else _) = (if ?y then _ else _) =>
      replace x with y; [reflexivity|apply bool_decide_ext]
  end.

Lemma pre_supported c ev i k o e :
  unsupported_event ev = false →
  ∃ r, RecordRequestContextAWSLambda_pre c i [VDict ev] k o e
         = (Ret VNone, set_storage r e).
Proof.
  unfold unsupported_event, RecordRequestContextAWSLambda_pre.
  destruct (is_v2_event ev); [intros _; by eexists|].
  destruct (is_v1_event ev); [intros _; by eexists|done].
Qed.

Lemma pre_unsupported c ev i k o e :
  unsupported_event ev = true →
  RecordRequestContextAWSLambda_pre c i [VDict ev] k o e =
  if bool_decide (dom ev ∈ UNSUPPORTED_LAMBDA_EVENTS e) then (Ret VNone, e)
  else (Raise (UnsupportedAWSLambdaEvent ev),
        set_UNSUPPORTED_LAMBDA_EVENTS
          ({[dom ev]} ∪ UNSUPPORTED_LAMBDA_EVENTS e) e).
Proof.
  unfold unsupported_event, RecordRequestContextAWSLambda_pre.
  destruct (is_v2_event ev); [done|]. by destruct (is_v1_event ev).
Qed.

(** C9. A [pre] invocation of the request-context callback whose event is
    neither a version 2.0 event, nor a version 1.0 event, nor has the key
    [httpMethod] raises [UnsupportedAWSLambdaEvent] when the set of the
    event's top-level keys has not been seen, and records that set; with a
    set already seen it returns without raising and changes nothing.  So
    over any run of [pre] invocations the error is raised exactly once for
    each shape of unsupported event that occurs in the run and was not seen
    before, and never for any other shape. *)
Theorem unsupported_event_raised_once c :
  (∀ ev i k o w,
     unsupported_event ev = true →
     dom ev ∉ UNSUPPORTED_LAMBDA_EVENTS (env w) →
     ∃ w',
       invoke c (Own RecordRequestContextAWSLambda_pre) i [VDict ev] k o w
         = (Raise (UnsupportedAWSLambdaEvent ev), w') ∧
       UNSUPPORTED_LAMBDA_EVENTS (env w')
         = {[dom ev]} ∪ UNSUPPORTED_LAMBDA_EVENTS (env w)) ∧
  (∀ ev i k o w,
     unsupported_event ev = true →
     dom ev ∈ UNSUPPORTED_LAMBDA_EVENTS (env w) →
     ∃ w',
       invoke c (Own RecordRequestContextAWSLambda_pre) i [VDict ev] k o w
         = (Ret VNone, w') ∧
       env w' = env w) ∧
  (∀ evs w0 shape,
     unsupported_raised shape
       (outcomes c (Own RecordRequestContextAWSLambda_pre)
          (event_invocation <$> evs) w0)
     = if bool_decide (shape ∈ unsupported_shapes evs ∧
                       shape ∉ UNSUPPORTED_LAMBDA_EVENTS (env w0))
       then 1%nat else 0%nat).
Proof.
  split; [|split].
  - intros ev i k o w Hu Hnew. cbn [call]. rewrite pre_unsupported by done.
    rewrite bool_decide_eq_false_2 by done. by eexists.
  - intros ev i k o w Hu Hseen. cbn [call]. rewrite pre_unsupported by done.
    rewrite bool_decide_eq_true_2 by done. by eexists.
  - intros evs. induction evs as [|ev evs IH]; intros w0 shape.
    + cbn. rewrite bool_decide_eq_false_2; [done|].
      intros [H _]. by apply elem_of_nil in H.
    + cbn [fmap list_fmap outcomes_all event_invocation i_inst i_args
             i_kwargs i_options call].
      unfold unsupported_shapes. cbn [omap list_omap].
      fold (unsupported_shapes evs).
      destruct (unsupported_event ev) eqn:Hu.
      * rewrite pre_unsupported by done.
        destruct (decide (dom ev ∈ UNSUPPORTED_LAMBDA_EVENTS (env w0)))
          as [Hseen|Hnew].
        -- rewrite bool_decide_eq_true_2 by done.
           unfold unsupported_raised in *.
           cbn [List.filter raised_unsupported]. rewrite IH. cbn [env].
           if_bool_decide_ext. rewrite elem_of_cons.
           split; [|intros [? ?]; by auto].
           intros [[->|?] ?]; by auto.
        -- rewrite bool_decide_eq_false_2 by done.
           unfold unsupported_raised in *.
           cbn [List.filter raised_unsupported].
           destruct (decide (dom ev = shape)) as [<-|Hne].
           ++ rewrite bool_decide_eq_true_2 by done. cbn [length].
              rewrite IH. cbn [env UNSUPPORTED_LAMBDA_EVENTS
                                 set_UNSUPPORTED_LAMBDA_EVENTS].
              rewrite bool_decide_eq_false_2.
              2:{ intros [_ Hn]. apply Hn, elem_of_union. left.
                  by apply elem_of_singleton_2. }
              rewrite bool_decide_eq_true_2; [done|].
              split; [by left|done].
           ++ rewrite (bool_decide_eq_false_2 (dom ev = shape)) by done.
              rewrite IH. cbn [env UNSUPPORTED_LAMBDA_EVENTS
                                 set_UNSUPPORTED_LAMBDA_EVENTS].
              if_bool_decide_ext. rewrite elem_of_cons.
              split.
              ** intros [[?|?] Hn]; [by subst|]. split; [done|].
                 intros [Hs|Hu0]%elem_of_union; [|done].
                 apply elem_of_singleton_1 in Hs. by subst.
              ** intros [? Hn]. split; [by right|].
                 intros Hu0. apply Hn, elem_of_union. by right.
      * destruct (pre_supported c ev VNone ∅ ∅ (env w0) Hu) as [r ->].
        unfold unsupported_raised in *.
        cbn [List.filter raised_unsupported]. rewrite IH. done.
Qed.

End Facts.

(** * [record_exception] on arguments of any shape *)

Section RecordExceptionFacts.

Variable raw_traceback_formatter : py_object → py_result (list string).
Variable traceback_formatter : list string → py_result (list string).
Variable storage_observe :
  string → payload → option (list string) → option bool → Env →
  py_result unit * Env.

Local Abbreviation record_exception_any :=
  (BaseCallback_record_exception raw_traceback_formatter traceback_formatter
     storage_observe).

(** When the payload cannot be built, nothing is handed to the storage and
    the state is left as it was. *)
Lemma record_exception_raises_early c exc exc_info stack infos at_ e r :
  (arg_exception_infos exc = Raises (NotAnException r) ∨
   exc_info = ExcInfoNone ∨
   ∃ items, exc_info = ExcInfoTuple items ∧ (length items < 3)%nat) →
  ∃ x, record_exception_any c exc exc_info stack infos at_ e = (Raises x, e).
Proof.
  unfold BaseCallback_record_exception, updated_infos.
  intros [Hexc|[->|(items & -> & Hlen)]].
  - rewrite Hexc. by eexists.
  - destruct (arg_exception_infos exc) as [d|[x|k]]; by eexists.
  - assert (Hnone : items !! 2%nat = None)
      by (apply lookup_ge_None; lia).
    destruct (arg_exception_infos exc) as [d|[x|k]];
      cbn [mbind py_result_bind exc_info_getitem]; rewrite ?Hnone;
      by eexists.
Qed.

(** C8, as the code has it.  [record_exception] protects the extraction of
    the exception's own structured information and nothing else.  Given an
    [exc_info] of at least three items whose first item has a [__name__]
    and whose second item has a string form, traceback formatters that
    return (the one for the stack is only called when a stack is given)
    and a storage whose [observe] returns, it returns [None] for every
    exception object whose [exception_infos] returns or fails with an
    [Exception], with or without a stack: a failure there is ignored and the
    extra information is left as given, otherwise the exception's
    information is merged over it; in both cases one event carrying the
    rule name and the rulespack id is handed to the storage. *)
Theorem record_exception_swallows_infos_failure c exc klass value_ tb rest
    stack infos at_ e name message bt :
  (∀ k, arg_exception_infos exc ≠ Raises (NotAnException k)) →
  obj_name klass = Returns name →
  obj_str value_ = Returns message →
  raw_traceback_formatter tb = Returns bt →
  match stack with
  | Some st => ∃ bt', traceback_formatter st = Returns bt'
  | None => True
  end →
  (∀ p e1, fst (storage_observe "sqreen_exceptions" p
                  (Some (payload_sections c)) None e1) = Returns tt) →
  let infos' := match arg_exception_infos exc with
                | Returns d => d ∪ default ∅ infos
                | Raises _ => default ∅ infos
                end in
  let backtrace := match stack with
                   | Some st => match traceback_formatter st with
                                | Returns bt' => (bt' ++ bt)%list
                                | Raises _ => bt
                                end
                   | None => bt
                   end in
  let p := ExceptionPayload message name infos' (rule_name c)
             (rulespack_id c) (test c)
             (match at_ with Some t => t | None => now e end) backtrace in
  record_exception_any c exc (ExcInfoTuple (klass :: value_ :: tb :: rest))
    stack infos at_ e
  = (Returns VNone,
     snd (storage_observe "sqreen_exceptions" p (Some (payload_sections c))
            None (LOGGER_debug (LogObserved "exception" p) e))).
Proof.
  intros Hexc Hname Hstr Hraw Hstack Hobs. cbn zeta.
  unfold BaseCallback_record_exception, updated_infos.
  assert (Hinfos : match arg_exception_infos exc with
                   | Returns d => Returns (d ∪ default ∅ infos)
                   | Raises (AnException _) => Returns (default ∅ infos)
                   | Raises (NotAnException klass0) =>
                       Raises (NotAnException klass0)
                   end
                   = Returns match arg_exception_infos exc with
                             | Returns d => d ∪ default ∅ infos
                             | Raises _ => default ∅ infos
                             end).
  { destruct (arg_exception_infos exc) as [d|[x|k]]; try done.
    by destruct (Hexc k). }
  rewrite Hinfos.
  cbn [mbind py_result_bind exc_info_getitem lookup list_lookup].
  rewrite Hraw. cbn [mbind py_result_bind].
  assert (Hbt : match stack with
                | Some st =>
                    st' ← traceback_formatter st; mret (st' ++ bt)%list
                | None => mret bt
                end
                = Returns match stack with
                          | Some st => match traceback_formatter st with
                                       | Returns bt' => (bt' ++ bt)%list
                                       | Raises _ => bt
                                       end
                          | None => bt
                          end).
  { destruct stack as [st|]; [|done]. destruct Hstack as [bt' ->]. done. }
  rewrite Hbt. cbn [mbind py_result_bind].
  rewrite Hstr. cbn [mbind py_result_bind]. rewrite Hname.
  cbn [mbind py_result_bind mret py_result_ret].
  match goal with
  | |- context [storage_observe ?cat ?p ?s ?r ?e1] =>
      pose proof (Hobs p e1) as Ho;
      destruct (storage_observe cat p s r e1) as [[[]|x] e2]
  end; [done|discriminate Ho].
Qed.

End RecordExceptionFacts.

(** On the triple of an exception class, an exception and a traceback,
    with formatters and a storage that return, [record_exception] on
    arguments of any shape is [record_exception]. *)
Lemma record_exception_on_triples raw_traceback_formatter traceback_formatter
    c exc exc_info stack infos at_ e :
  BaseCallback_record_exception
    (fun tb => Returns (raw_traceback_formatter (default [] (obj_frames tb))))
    (fun st => Returns (traceback_formatter st))
    (fun cat p s r e => (Returns tt, observe cat p s r e))
    c (exc_arg_of exc) (exc_info_triple exc_info) stack infos at_ e
  = (to_result
       (fst (record_exception raw_traceback_formatter traceback_formatter c
               exc exc_info stack infos at_ e)),
     snd (record_exception raw_traceback_formatter traceback_formatter c exc
            exc_info stack infos at_ e)).
Proof.
  unfold BaseCallback_record_exception, record_exception, updated_infos,
    exc_arg_of, exc_info_triple.
  cbn [arg_exception_infos].
  destruct (exc_exception_infos exc) as [x|d], stack as [st|]; reflexivity.
Qed.

(** * Counterexamples and instances *)


(** C3 as stated fails: with the logger at debug level and performance
    monitoring enabled, the handler of [pre] has the performance monitor
    outermost and the debug trace innermost, not the debug trace outermost;
    an invocation opens the trace scope before the debug record is
    logged. *)
Lemma effective_handler_composition_counterexample :
  let cb := fst (ex_init (class_with_pre noop)
                   (args_plain (Some runner_monitoring)) env_debug) in
  handler cb "pre" =
    Some (perf_monitoring_wrapper (debug_log_wrapper (Own noop) "pre")
            "sq.rule.pre") ∧
  pipeline_debug_outermost example_is_condition_empty env_debug (self_ cb)
    "pre" noop =
    debug_log_wrapper (perf_monitoring_wrapper (Own noop) "sq.rule.pre")
      "pre" ∧
  handler cb "pre" ≠
    Some (pipeline_debug_outermost example_is_condition_empty env_debug
            (self_ cb) "pre" noop) ∧
  (fun r => effects (env (snd r)))
    <$> ex_invoke_phase cb "pre" VNone [] ∅ ∅ (mkWorld env_debug [])
    = Some [TraceEnter "sq.rule.pre"; Logged (LogRunning "pre" "rule");
            TraceExit "sq.rule.pre"] ∧
  effects
    (env (snd (ex_call (self_ cb)
                 (pipeline_debug_outermost example_is_condition_empty
                    env_debug (self_ cb) "pre" noop)
                 VNone [] ∅ ∅ (mkWorld env_debug []))))
    = [Logged (LogRunning "pre" "rule"); TraceEnter "sq.rule.pre";
       TraceExit "sq.rule.pre"].
Proof.
  cbn zeta. split; [by vm_compute|]. split; [by vm_compute|].
  split; [|split; by vm_compute].
  intros H. vm_compute in H. discriminate H.
Qed.

(** C4 as stated fails: the runner has the budget 10 and 3 time units are
    spent, but performance metrics are switched off; the result is [None],
    not 7. *)
Lemma get_remaining_budget_counterexample :
  let c := self_ (fst (ex_init class_with_budget
                         (args_plain (Some runner_not_monitoring)) env0)) in
  budget <$> runner c = Some (Some 10) ∧
  request_sq_time (storage env_whitelisted) = Some 3 ∧
  get_remaining_budget c None env_whitelisted = (VNone, None) ∧
  fst (get_remaining_budget c None env_whitelisted) ≠ VInt (10 - 3).
Proof. vm_compute. repeat split. discriminate. Qed.

(** C5 as stated fails: the class declares no budget support, performance
    monitoring is enabled, and the performance monitor is applied to the
    handler of [pre]. *)
Lemma perf_monitoring_counterexample :
  let cb := fst (ex_init (class_with_pre noop)
                   (args_plain (Some runner_monitoring)) env0) in
  SUPPORTS_BUDGET (self_ cb) = false ∧
  performance_monitoring_enabled (self_ cb) = true ∧
  perf_monitor_applied <$> handler cb "pre" = Some true ∧
  ¬ (perf_monitor_applied <$> handler cb "pre" = Some true ↔
     performance_monitoring_enabled (self_ cb) = true ∧
     SUPPORTS_BUDGET (self_ cb) = true).
Proof.
  vm_compute. repeat split. intros [H _].
  destruct (H eq_refl) as [_ H']. discriminate H'.
Qed.

(** C6 as stated fails: the class declares budget support and the runner
    has performance metrics switched off; the callback is collaborative. *)
Lemma collaborative_counterexample :
  let c := self_ (fst (ex_init class_with_budget
                         (args_plain (Some runner_not_monitoring)) env0)) in
  collaborative c = true ∧
  SUPPORTS_BUDGET c = true ∧
  performance_monitoring_enabled c = false ∧
  ¬ (collaborative c = true ↔
     SUPPORTS_BUDGET c = true ∧ performance_monitoring_enabled c = true).
Proof.
  vm_compute. repeat split. intros [H _].
  destruct (H eq_refl) as [_ H']. discriminate H'.
Qed.

(** C7 as stated fails: the storage reports a whitelist match, and the
    handler of [pre] of a callback whose own logic records an attack
    records it. *)
Lemma whitelisted_counterexample :
  let cb := fst (ex_init (class_with_pre attack_on_call) (args_plain None)
                   env0) in
  truthy (whitelisted env_whitelisted) = true ∧
  observed_as "attacks" env_whitelisted = [] ∧
  (fun r => observed_as "attacks" (env (snd r)))
    <$> ex_invoke_phase cb "pre" VNone [] ∅ ∅ (mkWorld env_whitelisted [])
    = Some [AttackPayload (VStr "found") "pack" "rule" (VBool false)
              (VBool false) (VBool false) VNone 0 (Some [])].
Proof. vm_compute. repeat split. Qed.

(** [priority_default_100] at a rule description without a priority and at
    one with the priority 0. *)
Lemma priority_default_100_witness :
  (a_priority (args_priority VNone) = VNone ∧
   priority (self_ (fst (ex_init (class_with_pre noop)
                           (args_priority VNone) env0))) = VInt 100) ∧
  (a_priority (args_priority (VInt 0)) ≠ VNone ∧
   priority (self_ (fst (ex_init (class_with_pre noop)
                           (args_priority (VInt 0)) env0))) = VInt 0).
Proof.
  split.
  - split; [reflexivity|].
    apply (priority_default_100 example_is_condition_empty
             (class_with_pre noop) (args_priority VNone) env0
             false true "rule" "pack" None VNone VNone VNone VNone VNone
             None VNone).
    reflexivity.
  - split; [discriminate|].
    apply (priority_default_100 example_is_condition_empty
             (class_with_pre noop) (args_priority (VInt 0)) env0
             false true "rule" "pack" None VNone VNone VNone VNone VNone
             None VNone).
    discriminate.
Defined.

(** [get_remaining_budget_cases] with a budget of 10, 3 time units spent
    and performance monitoring enabled; with an override of 2; and with
    performance metrics switched off. *)
Lemma get_remaining_budget_cases_witness :
  let c := self_ (fst (ex_init class_with_budget
                         (args_plain (Some runner_monitoring)) env0)) in
  let c' := self_ (fst (ex_init class_with_budget
                          (args_plain (Some runner_not_monitoring)) env0)) in
  get_remaining_budget c None env_whitelisted = (VInt (10 - 3), None) ∧
  get_remaining_budget c
    (Some {[ "__sqreen_override_budget" := VInt 2; "result" := VNone ]})
    env_whitelisted = (VInt 2, Some {[ "result" := VNone ]}) ∧
  get_remaining_budget c' (Some {[ "result" := VNone ]}) env_whitelisted
    = (VNone, Some {[ "result" := VNone ]}).
Proof.
  cbn zeta. split; [|split].
  - apply (proj1 (get_remaining_budget_cases _ env_whitelisted)
             runner_monitoring 10 ∅); reflexivity.
  - replace (Some ({[ "result" := VNone ]} : gmap string value)) with
      (Some (delete "__sqreen_override_budget"
               ({[ "__sqreen_override_budget" := VInt 2;
                   "result" := VNone ]} : gmap string value)))
      by (by vm_compute).
    apply (proj1 (proj2 (get_remaining_budget_cases _ env_whitelisted)));
      [reflexivity|discriminate].
  - apply (proj2 (proj2 (get_remaining_budget_cases _ env_whitelisted))
             {[ "result" := VNone ]}); [reflexivity|].
    right. left. reflexivity.
Defined.

(** [effective_handler_composition] at a class that defines [pre], with the
    logger at debug level and performance monitoring enabled. *)
Lemma effective_handler_composition_witness :
  "pre" ∈ ["pre"; "post"; "failing"] ∧
  cls_methods (class_with_pre noop) !! "pre" = Some noop ∧
  handler (fst (ex_init (class_with_pre noop)
                  (args_plain (Some runner_monitoring)) env_debug)) "pre"
  = Some (perf_monitoring_wrapper (debug_log_wrapper (Own noop) "pre")
            "sq.rule.pre") ∧
  handler (fst (ex_init (class_with_pre noop)
                  (args_plain (Some runner_monitoring)) env_debug)) "post"
  = None.
Proof.
  assert (Hl : "pre" ∈ ["pre"; "post"; "failing"]) by constructor.
  assert (Hf : cls_methods (class_with_pre noop) !! "pre" = Some noop)
    by reflexivity.
  split; [exact Hl|]. split; [exact Hf|].
  destruct (effective_handler_composition example_is_condition_empty
              (class_with_pre noop) (args_plain (Some runner_monitoring))
              env_debug "pre" noop Hl Hf) as (H1 & _ & H3).
  split.
  - rewrite H1. reflexivity.
  - apply H3. reflexivity.
Defined.

(** [perf_monitoring_applied_and_scoped] at a class without budget support,
    with performance monitoring enabled, and at a wrapped handler that
    raises. *)
Lemma perf_monitoring_applied_and_scoped_witness :
  "pre" ∈ ["pre"; "post"; "failing"] ∧
  cls_methods (class_with_pre noop) !! "pre" = Some noop ∧
  (∃ h, handler (fst (ex_init (class_with_pre noop)
                        (args_plain (Some runner_monitoring)) env0)) "pre"
          = Some h ∧
        perf_monitor_applied h = true) ∧
  ex_call (self_ (fst (ex_init (class_with_pre noop)
                         (args_plain (Some runner_monitoring)) env0)))
    (perf_monitoring_wrapper
       (Own (fun _ _ _ _ _ => raise NotImplementedError)) "sq.rule.pre")
    VNone [] ∅ ∅ (mkWorld env0 [])
  = (Raise NotImplementedError,
     on_env (emit (TraceExit "sq.rule.pre"))
       (mkWorld (emit (TraceEnter "sq.rule.pre") env0)
          [mkInvocation VNone [] ∅ ∅])).
Proof.
  assert (Hl : "pre" ∈ ["pre"; "post"; "failing"]) by constructor.
  assert (Hf : cls_methods (class_with_pre noop) !! "pre" = Some noop)
    by reflexivity.
  split; [exact Hl|]. split; [exact Hf|].
  destruct (perf_monitoring_applied_and_scoped example_is_condition_empty
              example_evaluate example_get_current_args
              (class_with_pre noop) (args_plain (Some runner_monitoring))
              env0 "pre" noop Hl Hf) as ((h & Hh & Hp & _) & _ & Hraise).
  split.
  - exists h. split; [exact Hh|]. rewrite Hp. reflexivity.
  - apply (Hraise _ _ _ _ _ _ _ (mkWorld env0 []) NotImplementedError
             (mkWorld (emit (TraceEnter "sq.rule.pre") env0)
                [mkInvocation VNone [] ∅ ∅])).
    reflexivity.
Defined.

(** [whitelisted_left_to_caller] at a whitelisted request: a handler whose
    own logic records no attack records none, under the call-count sampler
    and the performance monitor too. *)
Lemma whitelisted_left_to_caller_witness :
  truthy (whitelisted env_whitelisted) = true ∧
  observed_as "attacks"
    (env (snd (ex_call
                 (self_ (fst (ex_init (class_with_pre noop)
                                (args_sampled 1) env0)))
                 (perf_monitoring_wrapper
                    (call_count_wrapper (Own noop) "pre" "pack/rule/pre")
                    "sq.rule.pre")
                 VNone [] ∅ ∅ (mkWorld env_whitelisted []))))
  = observed_as "attacks" env_whitelisted ∧
  observed_as "attacks"
    (env (snd (ex_call
                 (self_ (fst (ex_init (class_with_pre attack_on_call)
                                (args_plain None) env0)))
                 (check_condition_wrapper (Own attack_on_call)
                    example_condition "pre")
                 VNone [] ∅ ∅ (mkWorld env_whitelisted_early []))))
  = observed_as "attacks" env_whitelisted_early.
Proof.
  split; [reflexivity|]. split.
  - apply (proj1 (proj2 (whitelisted_left_to_caller example_evaluate
                           example_get_current_args _ _))
             VNone [] ∅ ∅ (mkWorld env_whitelisted [])).
    + reflexivity.
    + intros i a k o e. reflexivity.
  - apply (proj2 (proj2 (whitelisted_left_to_caller example_evaluate
                           example_get_current_args _ _))
             example_condition "pre" VNone [] ∅ ∅
             (mkWorld env_whitelisted_early [])); reflexivity.
Defined.


(** [call_count_sampling] at the [failing] phase of the class that counts
    HTTP codes, with a sampling interval of 3: after three invocations one
    sample of value 3 is reported and the counter is back at 0; after two
    invocations none is; the three invocations have each called the
    method of the class. *)
Lemma call_count_sampling_witness :
  let cb := fst (ex_init class_CountHTTPCodesCBFlask (args_sampled 3) env0) in
  let e := snd (ex_init class_CountHTTPCodesCBFlask (args_sampled 3) env0) in
  let inv := mkInvocation VNone [] ∅ ∅ in
  "failing" ∈ ["pre"; "post"; "failing"] ∧
  cls_methods class_CountHTTPCodesCBFlask !! "failing"
    = Some CountHTTPCodesCBFlask_failing ∧
  a_call_count_interval (args_sampled 3) = Some 3 ∧
  0 < 3 ∧
  call_counts e !! "failing" = Some 0 ∧
  ∃ h,
    handler cb "failing" = Some h ∧
    call_counts (env (ex_invoke_all (self_ cb) h [inv; inv; inv]
                        (mkWorld e []))) !! "failing" = Some 0 ∧
    sampled_observations
      (env (ex_invoke_all (self_ cb) h [inv; inv; inv] (mkWorld e [])))
      = [("pack/rule/failing", VInt 3)] ∧
    sampled_observations
      (env (ex_invoke_all (self_ cb) h [inv; inv] (mkWorld e []))) = [] ∧
    calls (ex_invoke_all (self_ cb) h [inv; inv; inv] (mkWorld e []))
      = [inv; inv; inv] ∧
    runs_in example_evaluate example_get_current_args
      (count_call (self_ cb) "failing" "pack/rule/failing" 2 e)
      (fun e => e) (self_ cb) CountHTTPCodesCBFlask_failing h VNone [] ∅ ∅
      (mkWorld (set_call_counts (<["failing" := 2]> (call_counts e)) e) []).
Proof.
  cbn zeta.
  assert (Hl : "failing" ∈ ["pre"; "post"; "failing"])
    by (do 2 apply list_elem_of_further; constructor).
  assert (Hf : cls_methods class_CountHTTPCodesCBFlask !! "failing"
               = Some CountHTTPCodesCBFlask_failing) by reflexivity.
  split; [exact Hl|]. split; [exact Hf|]. split; [reflexivity|].
  split; [lia|].
  destruct (call_count_sampling example_is_condition_empty example_evaluate
              example_get_current_args class_CountHTTPCodesCBFlask
              (args_sampled 3) env0 "failing" CountHTTPCodesCBFlask_failing
              3 Hl Hf eq_refl ltac:(lia)
              CountHTTPCodesCBFlask_failing_frame)
    as (H0 & h & Hh & _ & Hall & Hstep & Hcalls).
  split; [exact H0|]. exists h. split; [exact Hh|].
  pose (w0 := mkWorld (snd (ex_init class_CountHTTPCodesCBFlask
                              (args_sampled 3) env0)) []).
  pose (inv := mkInvocation VNone [] ∅ ∅).
  destruct (Hall w0 [inv; inv; inv] H0) as (_ & _ & H3 & _).
  destruct (Hall w0 [inv; inv] H0) as (_ & _ & _ & H2).
  destruct (H3 eq_refl) as [Hc Hs].
  split; [exact Hc|]. split; [exact Hs|]. split; [exact (H2 eq_refl)|].
  split.
  - exact (Hcalls eq_refl w0 [inv; inv; inv] H0).
  - exact (Hstep 2 VNone [] ∅ ∅
             (mkWorld
                (set_call_counts
                   (<["failing" := 2]>
                      (call_counts
                         (snd (ex_init class_CountHTTPCodesCBFlask
                                 (args_sampled 3) env0))))
                   (snd (ex_init class_CountHTTPCodesCBFlask
                           (args_sampled 3) env0)))
                [])
             eq_refl).
Defined.

(** [unsupported_event_raised_once] at a scheduled event, whose keys are
    [source] and [detail]: the first invocation raises and records the
    shape, the next one returns; in a run of this event, a version 1.0
    request and this event again, the error is raised once. *)
Lemma unsupported_event_raised_once_witness :
  let c := self_ (fst (ex_init
                         (class_with_pre RecordRequestContextAWSLambda_pre)
                         (args_priority (VInt 20)) env0)) in
  let seen := env_seen_scheduled in
  unsupported_event event_scheduled = true ∧
  (dom event_scheduled ∉ UNSUPPORTED_LAMBDA_EVENTS env0) ∧
  (dom event_scheduled ∈ UNSUPPORTED_LAMBDA_EVENTS seen) ∧
  (∃ w',
     ex_call c (Own RecordRequestContextAWSLambda_pre) VNone
       [VDict event_scheduled] ∅ ∅ (mkWorld env0 [])
       = (Raise (UnsupportedAWSLambdaEvent event_scheduled), w') ∧
     UNSUPPORTED_LAMBDA_EVENTS (env w')
       = {[ dom event_scheduled ]} ∪ UNSUPPORTED_LAMBDA_EVENTS env0) ∧
  (∃ w',
     ex_call c (Own RecordRequestContextAWSLambda_pre) VNone
       [VDict event_scheduled] ∅ ∅ (mkWorld seen [])
       = (Ret VNone, w') ∧
     env w' = seen) ∧
  unsupported_raised (dom event_scheduled)
    (outcomes_all example_evaluate example_get_current_args c
       (Own RecordRequestContextAWSLambda_pre)
       (event_invocation <$> [event_scheduled; event_v1; event_scheduled])
       (mkWorld env0 [])) = 1%nat.
Proof.
  cbn zeta.
  assert (Hu : unsupported_event event_scheduled = true) by reflexivity.
  assert (Hnew : dom event_scheduled ∉ UNSUPPORTED_LAMBDA_EVENTS env0)
    by apply not_elem_of_empty.
  assert (Hseen : dom event_scheduled ∈
                  UNSUPPORTED_LAMBDA_EVENTS env_seen_scheduled)
    by (cbv [env_seen_scheduled set_UNSUPPORTED_LAMBDA_EVENTS
               UNSUPPORTED_LAMBDA_EVENTS];
        apply elem_of_singleton_2; reflexivity).
  split; [exact Hu|]. split; [exact Hnew|]. split; [exact Hseen|].
  pose proof (unsupported_event_raised_once example_evaluate
                example_get_current_args
                (self_ (fst (ex_init
                               (class_with_pre
                                  RecordRequestContextAWSLambda_pre)
                               (args_priority (VInt 20)) env0))))
    as (Hraise & Hquiet & Hcount).
  split; [|split].
  - exact (Hraise event_scheduled VNone ∅ ∅ (mkWorld env0 []) Hu Hnew).
  - exact (Hquiet event_scheduled VNone ∅ ∅
             (mkWorld env_seen_scheduled []) Hu Hseen).
  - rewrite Hcount. reflexivity.
Defined.

(** C8 as stated fails: [record_exception] raises when [exc_info] is
    [None] ([TypeError], at [exc_info[2]]), when it is the
    [(None, None, None)] that [sys.exc_info()] gives while no exception is
    handled ([AttributeError], at [exc_info[0].__name__]), and when the
    exception's [exception_infos] raises [KeyboardInterrupt], which
    [except Exception] lets through.  The stack is omitted each time, and in
    the first two the exception object has no [exception_infos].  Nothing is
    recorded. *)
Lemma record_exception_counterexample :
  let c := self_ (fst (ex_init (class_with_pre noop) (args_plain None)
                         env0)) in
  ex_record_exception c exc_without_infos ExcInfoNone None None None env0
    = (Raises (AnException TypeError), env0) ∧
  ex_record_exception c exc_without_infos exc_info_no_exception None None
      None env0
    = (Raises (AnException (AttributeError "__name__")), env0) ∧
  ex_record_exception c exc_interrupted exc_info_ValueError None None None
      env0
    = (Raises (NotAnException "KeyboardInterrupt"), env0).
Proof. cbn zeta. repeat split. Qed.

(** [record_exception_swallows_infos_failure] at an exception object that
    has no [exception_infos], with the stack omitted: the call returns and
    the event carries the extra information as given. *)
Lemma record_exception_swallows_infos_failure_witness :
  let c := self_ (fst (ex_init (class_with_pre noop) (args_plain None)
                         env0)) in
  (∀ k, arg_exception_infos exc_without_infos ≠ Raises (NotAnException k)) ∧
  fst (ex_record_exception c exc_without_infos exc_info_ValueError None None
         None env0) = Returns VNone ∧
  observed_as "sqreen_exceptions"
    (snd (ex_record_exception c exc_without_infos exc_info_ValueError None
            None None env0))
  = [ExceptionPayload "bad value" "ValueError" ∅ "rule" "pack" (VBool false)
       0 ["frame"]].
Proof.
  cbn zeta.
  assert (Hexc : ∀ k, arg_exception_infos exc_without_infos
                      ≠ Raises (NotAnException k)) by (intros k [=]).
  split; [exact Hexc|].
  pose proof (record_exception_swallows_infos_failure
                example_raw_traceback_formatter example_traceback_formatter
                example_storage_observe
                (self_ (fst (ex_init (class_with_pre noop) (args_plain None)
                               env0)))
                exc_without_infos (class_object "ValueError")
                (exception_instance "bad value") (traceback_object ["frame"])
                [] None None None env0 "ValueError" "bad value" ["frame"]
                Hexc eq_refl eq_refl eq_refl I (fun _ _ => eq_refl)) as H.
  split.
  - exact (f_equal fst H).
  - exact (f_equal (fun x => observed_as "sqreen_exceptions" (snd x)) H).
Defined.

(** * Further properties of [rules.py] *)

Section MoreFacts.

Variable is_condition_empty : value → bool.
Variable evaluate : value → bindings → value.
Variable get_current_args : Storage → list value → list value.
Variable raw_traceback_formatter : list string → list string.
Variable traceback_formatter : list string → list string.

Local Abbreviation invoke := (call evaluate get_current_args).
Local Abbreviation construct := (RuleCallback_init is_condition_empty).
Local Abbreviation invoke_each := (invoke_all evaluate get_current_args).

Lemma LOGGER_debug_frame r e :
  storage (LOGGER_debug r e) = storage e ∧
  clock (LOGGER_debug r e) = clock e ∧
  debug_enabled (LOGGER_debug r e) = debug_enabled e ∧
  UNSUPPORTED_LAMBDA_EVENTS (LOGGER_debug r e) = UNSUPPORTED_LAMBDA_EVENTS e.
Proof. unfold LOGGER_debug. by destruct (debug_enabled e) eqn:E. Qed.

Lemma count_call_frame c l key n e :
  storage (count_call c l key n e) = storage e ∧
  clock (count_call c l key n e) = clock e ∧
  debug_enabled (count_call c l key n e) = debug_enabled e ∧
  UNSUPPORTED_LAMBDA_EVENTS (count_call c l key n e)
    = UNSUPPORTED_LAMBDA_EVENTS e.
Proof.
  unfold count_call, record_observation, observe.
  destruct (Z.eqb _ _); [|done].
  cbn [set_call_counts emit set_effects storage clock debug_enabled
         UNSUPPORTED_LAMBDA_EVENTS].
  apply LOGGER_debug_frame.
Qed.

(** The decorators read and write the counters and add effects; they leave
    the storage, the clock, the logger's level and the module-level set of
    the AWS Lambda adapter as they are. *)
Lemma before_own_frame c m i a k o e e_in :
  before_own evaluate get_current_args c m i a k o e = inl e_in →
  storage e_in = storage e ∧ clock e_in = clock e ∧
  debug_enabled e_in = debug_enabled e ∧
  UNSUPPORTED_LAMBDA_EVENTS e_in = UNSUPPORTED_LAMBDA_EVENTS e.
Proof.
  revert e.
  induction m as [f|m IH cond l|m IH l key|m IH name|m IH l]; intros e;
    cbn [before_own].
  - by intros [= <-].
  - destruct (in_False_None _); [done|]. apply IH.
  - destruct (call_counts e !! l) as [n|]; [|done].
    intros H. destruct (IH _ H) as (-> & -> & -> & ->).
    apply count_call_frame.
  - destruct (before_own _ _ _ m i a k o (emit (TraceEnter name) e))
      as [e'|[r e']] eqn:E; [|done].
    intros [= <-]. by destruct (IH _ E) as (-> & -> & -> & ->).
  - intros H. destruct (IH _ H) as (-> & -> & -> & ->).
    apply LOGGER_debug_frame.
Qed.

Lemma call_factors c m i a k o w :
  match before_own evaluate get_current_args c m i a k o (env w) with
  | inl e_in =>
      invoke c m i a k o w
      = (fst (own_logic m c i a k o e_in),
         mkWorld (after_own m (snd (own_logic m c i a k o e_in)))
           (calls w ++ [mkInvocation i a k o])%list)
  | inr (r, e') =>
      invoke c m i a k o w = (r, mkWorld e' (calls w)) ∧
      ((condition_applied m = true ∧ r = Ret VNone) ∨
       (call_count_applied m = true ∧ ∃ l, r = Raise (KeyError l)))
  end.
Proof.
  revert w.
  induction m as [f|m IH cond l|m IH l key|m IH name|m IH l]; intros w;
    cbn [call before_own own_logic after_own condition_applied
           call_count_applied].
  - by destruct (f c i a k o (env w)) as [r e'].
  - destruct (in_False_None _).
    + split; [done|]. by left.
    + specialize (IH w).
      destruct (before_own _ _ c m i a k o (env w)) as [e_in|[r e']];
        [exact IH|].
      destruct IH as [IH [[_ Hr]|[Hc Hr]]]; (split; [exact IH|]);
        [by left|by right].
  - destruct (call_counts (env w) !! l) as [n|].
    + specialize (IH (on_env (count_call c l key n) w)).
      cbn [on_env env calls] in IH.
      destruct (before_own _ _ c m i a k o (count_call c l key n (env w)))
        as [e_in|[r e']]; [exact IH|].
      destruct IH as [IH [[Hc Hr]|[_ Hr]]]; (split; [exact IH|]);
        [by left|by right].
    + split; [by destruct w|]. right. split; [done|]. by eexists.
  - unfold with_. cbn [storage_trace cm_enter cm_exit].
    specialize (IH (on_env (emit (TraceEnter name)) w)).
    cbn [on_env env calls] in IH.
    destruct (before_own _ _ c m i a k o (emit (TraceEnter name) (env w)))
      as [e_in|[r e']].
    + rewrite IH. by destruct (fst (own_logic m c i a k o e_in)).
    + destruct IH as [-> Hr]. split; [by destruct r|exact Hr].
  - exact (IH (on_env (LOGGER_debug (LogRunning l (rule_name c))) w)).
Qed.

(** X1. Whatever decorators a handler is made of, one invocation either
    calls the class-defined method exactly once, with the arguments the
    handler received and in the state the decorators have prepared (they
    leave the storage, the clock, the logger's level and the module-level
    set of the AWS Lambda adapter as they found them), returns or raises
    exactly what that call returns or raises, and leaves the state that the
    call left, with the trace scopes closed; or it does not call it, and
    then it returns [None] (only possible under a condition gate) or raises
    [KeyError] (only possible under a call-count sampler whose counter is
    missing). *)
Theorem handler_outcome_is_own_outcome c m i a k o w :
  match before_own evaluate get_current_args c m i a k o (env w) with
  | inl e_in =>
      invoke c m i a k o w
      = (fst (own_logic m c i a k o e_in),
         mkWorld (after_own m (snd (own_logic m c i a k o e_in)))
           (calls w ++ [mkInvocation i a k o])%list) ∧
      storage e_in = storage (env w) ∧ clock e_in = clock (env w) ∧
      debug_enabled e_in = debug_enabled (env w) ∧
      UNSUPPORTED_LAMBDA_EVENTS e_in = UNSUPPORTED_LAMBDA_EVENTS (env w)
  | inr (r, e') =>
      invoke c m i a k o w = (r, mkWorld e' (calls w)) ∧
      ((condition_applied m = true ∧ r = Ret VNone) ∨
       (call_count_applied m = true ∧ ∃ l, r = Raise (KeyError l)))
  end.
Proof.
  pose proof (call_factors c m i a k o w) as H.
  pose proof (before_own_frame c m i a k o (env w)) as Hf.
  destruct (before_own _ _ c m i a k o (env w)) as [e_in|[r e']];
    [|exact H].
  split; [exact H|]. by apply Hf.
Qed.

Lemma trace_depth_app l1 l2 :
  trace_depth (l1 ++ l2) = trace_depth l1 + trace_depth l2.
Proof.
  induction l1 as [|x l1 IH]; cbn [app trace_depth]; [lia|].
  destruct x; lia.
Qed.

Lemma trace_depth_LOGGER_debug r e :
  trace_depth (effects (LOGGER_debug r e)) = trace_depth (effects e).
Proof.
  unfold LOGGER_debug. destruct (debug_enabled e); [|done].
  cbn [emit set_effects effects]. rewrite trace_depth_app. cbn. lia.
Qed.

Lemma trace_depth_count_call c l key n e :
  trace_depth (effects (count_call c l key n e)) = trace_depth (effects e).
Proof.
  unfold count_call, record_observation, observe.
  destruct (Z.eqb _ _); cbn [emit set_effects set_call_counts effects];
    [|done].
  rewrite trace_depth_app, trace_depth_LOGGER_debug. cbn. lia.
Qed.

Lemma invoke_trace_depth c m :
  (∀ i a k o e,
     trace_depth (effects (snd (own_logic m c i a k o e)))
       = trace_depth (effects e)) →
  ∀ i a k o w,
    trace_depth (effects (env (snd (invoke c m i a k o w))))
      = trace_depth (effects (env w)).
Proof.
  induction m as [f|m IH cond l|m IH l key|m IH name|m IH l];
    intros Hown i a k o w; cbn [call own_logic] in *.
  - specialize (Hown i a k o (env w)).
    by destruct (f c i a k o (env w)) as [r e'].
  - destruct (in_False_None _); [|by apply IH].
    cbn [snd on_env env]. apply trace_depth_LOGGER_debug.
  - destruct (call_counts (env w) !! l) as [n|]; [|done].
    rewrite IH by done. cbn [on_env env]. apply trace_depth_count_call.
  - unfold with_. cbn [storage_trace cm_enter cm_exit].
    specialize (IH Hown i a k o (on_env (emit (TraceEnter name)) w)).
    destruct (invoke c m i a k o (on_env (emit (TraceEnter name)) w))
      as [[v|x] w2]; cbn [snd on_env env emit set_effects effects] in *;
      rewrite trace_depth_app, IH, trace_depth_app; cbn; lia.
  - rewrite IH by done. cbn [on_env env]. apply trace_depth_LOGGER_debug.
Qed.

(** X2. Trace scopes stay balanced: when the class-defined method leaves as
    many trace scopes open as it found, so does every handler built on it,
    whether the invocation returns or raises. *)
Theorem handler_keeps_trace_scopes_balanced c m :
  (∀ i a k o e,
     trace_depth (effects (snd (own_logic m c i a k o e)))
       = trace_depth (effects e)) →
  ∀ i a k o w,
    trace_depth (effects (env (snd (invoke c m i a k o w))))
      = trace_depth (effects (env w)).
Proof. apply invoke_trace_depth. Qed.

(** X3. A sampler counts in the counter of its own phase only: the counter
    of a phase that no sampler of the handler counts in is left as it is by
    any run of invocations, provided the class-defined method leaves it
    alone. *)
Theorem other_counters_untouched c m l' :
  l' ∉ counted_phases m →
  (∀ i a k o e,
     call_counts (snd (own_logic m c i a k o e)) !! l'
       = call_counts e !! l') →
  ∀ invs w,
    call_counts (env (invoke_each c m invs w)) !! l'
      = call_counts (env w) !! l'.
Proof.
  intros Hnot Hown.
  assert (Hone : ∀ i a k o w,
            call_counts (env (snd (invoke c m i a k o w))) !! l'
              = call_counts (env w) !! l').
  { clear -Hnot Hown. revert Hnot Hown.
    induction m as [f|m IH cond l|m IH l key|m IH name|m IH l];
      intros Hnot Hown i a k o w; cbn [call own_logic counted_phases] in *.
    - specialize (Hown i a k o (env w)).
      by destruct (f c i a k o (env w)) as [r e'].
    - destruct (in_False_None _); [|by apply IH].
      cbn [snd on_env env]. by rewrite call_counts_LOGGER_debug.
    - apply not_elem_of_cons in Hnot as [Hne Hnot].
      destruct (call_counts (env w) !! l) as [n|]; [|done].
      rewrite IH by done. cbn [on_env env].
      rewrite call_counts_count_call. by apply lookup_insert_ne.
    - unfold with_. cbn [storage_trace cm_enter cm_exit].
      specialize (IH Hnot Hown i a k o (on_env (emit (TraceEnter name)) w)).
      by destruct (invoke c m i a k o (on_env (emit (TraceEnter name)) w))
        as [[v|x] w2].
    - rewrite IH by done. cbn [on_env env].
      by rewrite call_counts_LOGGER_debug. }
  intros invs. induction invs as [|i invs IH]; intros w;
    cbn [invoke_all]; [done|].
  rewrite IH. apply Hone.
Qed.

(** X4. A negative sampling interval is not treated as "no sampling": the
    sampler is installed, never reports a sample, and its counter is never
    reset; after [n] invocations from 0 it is [n]. *)
Theorem negative_interval_never_samples cls a e0 l f K :
  l ∈ ["pre"; "post"; "failing"] →
  cls_methods cls !! l = Some f →
  a_call_count_interval a = Some K →
  K < 0 →
  (∀ c i ar k o e,
     call_counts (snd (f c i ar k o e)) = call_counts e ∧
     sampled_observations (snd (f c i ar k o e)) = sampled_observations e) →
  ∃ h,
    handler (fst (construct cls a e0)) l = Some h ∧
    call_count_applied h = true ∧
    ∀ w0 invs,
      call_counts (env w0) !! l = Some 0 →
      call_counts
        (env (invoke_each (self_ (fst (construct cls a e0))) h invs w0)) !! l
        = Some (Z.of_nat (length invs)) ∧
      sampled_observations
        (env (invoke_each (self_ (fst (construct cls a e0))) h invs w0))
        = sampled_observations (env w0).
Proof.
  intros Hl Hf HK Hneg Hown.
  set (c := self_ (fst (construct cls a e0))).
  assert (Hint : call_count_interval c = K).
  { unfold c. rewrite RuleCallback_init_self. cbn. by rewrite HK. }
  pose proof (RuleCallback_init_handler is_condition_empty cls a e0 l f Hl Hf)
    as Hh.
  fold c in Hh. unfold pipeline in Hh.
  assert (Hg : call_count_guard c = true).
  { unfold call_count_guard. rewrite Hint.
    destruct (Z.eqb_spec K 0); [lia|done]. }
  rewrite Hg in Hh. cbn [wrap_if] in Hh.
  assert (Hone : counts_one evaluate get_current_args c l
                   (call_count_wrapper (gated_logic is_condition_empty e0 c l f)
                      l (observation_key_of c l))).
  { apply call_count_wrapper_counts_one.
    - apply gated_logic_not_counting.
    - rewrite own_logic_gated_logic. intros. apply Hown. }
  assert (Hall : ∀ h, counts_one evaluate get_current_args c l h →
            ∀ w0 invs, call_counts (env w0) !! l = Some 0 →
              call_counts (env (invoke_each c h invs w0)) !! l
                = Some (Z.of_nat (length invs)) ∧
              sampled_observations (env (invoke_each c h invs w0))
                = sampled_observations (env w0)).
  { intros h Hh1 w0 invs H0.
    induction invs as [|i invs [IHc IHs]] using rev_ind; [done|].
    rewrite invoke_all_app. cbn [invoke_all].
    destruct (Hh1 _ (i_inst i) (i_args i) (i_kwargs i) (i_options i) _ IHc)
      as [Hc Hs].
    rewrite Hc, Hs, IHs, Hint, length_app. cbn [length].
    destruct (Z.eqb_spec (Z.of_nat (length invs) + 1) K) as [Heq|Hne];
      [lia|].
    split; [f_equal; lia|by rewrite app_nil_r]. }
  unfold perf_guard in Hh.
  destruct (performance_monitoring_enabled c); cbn [wrap_if] in Hh;
    eexists; (split; [exact Hh|]); (split; [reflexivity|]).
  - apply Hall. by apply perf_monitoring_wrapper_counts_one.
  - by apply Hall.
Qed.

(** X5. An override of the budget is consumed by the call that reads it:
    the override key is removed from the options whatever its value, the
    other options are untouched, and a second call on the options that are
    left gives what a call without an override gives.  A key that is
    present with the value [None] is removed too and does not override. *)
Theorem override_budget_consumed c kw e :
  snd (get_remaining_budget c (Some kw) e)
    = Some (delete "__sqreen_override_budget" kw) ∧
  get_remaining_budget c (snd (get_remaining_budget c (Some kw) e)) e
    = (fst (get_remaining_budget c None e),
       Some (delete "__sqreen_override_budget" kw)) ∧
  (kw !! "__sqreen_override_budget" = Some VNone →
   fst (get_remaining_budget c (Some kw) e)
     = fst (get_remaining_budget c None e)) ∧
  (∀ k, k ≠ "__sqreen_override_budget" →
        delete "__sqreen_override_budget" kw !! k = kw !! k).
Proof.
  assert (Hsnd : ∀ kw', snd (get_remaining_budget c (Some kw') e)
                        = Some (delete "__sqreen_override_budget" kw')).
  { intros kw'. unfold get_remaining_budget.
    destruct (is_not_None _); [done|].
    destruct (runner c); [|done].
    destruct (performance_monitoring_enabled c); [|done].
    by destruct (budget r). }
  assert (Hnone : ∀ kw', kw' !! "__sqreen_override_budget" = None →
            fst (get_remaining_budget c (Some kw') e)
              = fst (get_remaining_budget c None e)).
  { intros kw' Hk. unfold get_remaining_budget. rewrite Hk.
    cbn [default is_not_None].
    destruct (runner c); [|done].
    destruct (performance_monitoring_enabled c); [|done].
    by destruct (budget r). }
  split; [apply Hsnd|]. split; [|split].
  - rewrite Hsnd. rewrite (surjective_pairing (get_remaining_budget c _ e)).
    rewrite Hsnd, Hnone by apply lookup_delete_eq.
    by rewrite delete_delete_eq.
  - intros Hk. unfold get_remaining_budget. rewrite Hk.
    cbn [default is_not_None].
    destruct (runner c); [|done].
    destruct (performance_monitoring_enabled c); [|done].
    by destruct (budget r).
  - intros k Hne. by apply lookup_delete_ne.
Qed.

Lemma record_exception_eq c exc exc_info stack infos at_ e :
  record_exception raw_traceback_formatter traceback_formatter c exc exc_info
    stack infos at_ e =
  let p := ExceptionPayload (exc_value_str exc_info)
             (exc_klass_name exc_info)
             (match exc_exception_infos exc with
              | InfosFails _ => default ∅ infos
              | InfosReturns d => d ∪ default ∅ infos
              end)
             (rule_name c) (rulespack_id c) (test c)
             (match at_ with Some t => t | None => now e end)
             (match stack with
              | Some st => traceback_formatter st ++
                           raw_traceback_formatter (exc_traceback exc_info)
              | None => raw_traceback_formatter (exc_traceback exc_info)
              end)%list in
  (Ret VNone,
   observe "sqreen_exceptions" p (Some (payload_sections c)) None
     (LOGGER_debug (LogObserved "exception" p) e)).
Proof.
  unfold record_exception.
  destruct (exc_exception_infos exc); reflexivity.
Qed.

(** X6. The structured information of the exception wins over the extra
    information the caller supplies: in the recorded event a key of the
    exception's [exception_infos()] has the exception's value, any other
    key has the caller's.  For [UnsupportedAWSLambdaEvent] the event is
    recorded under [event], whatever the caller supplied there. *)
Theorem exception_infos_override_extra_infos c d exc_info stack infos at_ e :
  ∃ infos' at' bt,
    observed_as "sqreen_exceptions"
      (snd (record_exception raw_traceback_formatter traceback_formatter c
              (mkExc (InfosReturns d)) exc_info stack infos at_ e))
    = (observed_as "sqreen_exceptions" e ++
       [ExceptionPayload (exc_value_str exc_info) (exc_klass_name exc_info)
          infos' (rule_name c) (rulespack_id c) (test c) at' bt])%list ∧
    (∀ k v, d !! k = Some v → infos' !! k = Some v) ∧
    (∀ k, d !! k = None → infos' !! k = default ∅ infos !! k) ∧
    (∀ ev, d = UnsupportedAWSLambdaEvent_exception_infos ev →
           infos' !! "event" = Some (VDict ev)).
Proof.
  rewrite record_exception_eq. cbn zeta. cbn [snd exc_exception_infos].
  do 3 eexists. split.
  - unfold observe. rewrite observed_as_emit_observed,
      observed_as_LOGGER_debug. reflexivity.
  - split; [|split].
    + intros k v Hk. by apply lookup_union_Some_l.
    + intros k Hk. by apply lookup_union_r.
    + intros ev ->. apply lookup_union_Some_l.
      apply lookup_singleton_eq.
Qed.

(** X7. A reactive callback has one phase, [handler], decorated by the
    debug trace and, outermost, the performance monitor, each only when its
    guard holds; no condition gate and no call-count sampler is ever
    applied.  Its authorized addresses are the given list as a set (none
    when the list is missing), the batch addresses are the same set and the
    group addresses are empty.  Invoking the handler of the base class
    raises [NotImplementedError] through the decorators, with the trace
    scope closed again. *)
Theorem reactive_handler_pipeline sb it hd rn rp ru be bl te da aa me ps pr
    aty e :
  let r := ReactiveRuleCallback_init sb it hd rn rp ru be bl te da aa me ps
             pr aty e in
  let c := self_ (reactive_cb r) in
  handler (reactive_cb r) "handler" =
    Some (wrap_if (performance_monitoring_enabled c)
            (fun m => perf_monitoring_wrapper m (metric_name_of c "handler"))
            (wrap_if (LOGGER_isEnabledFor_DEBUG e)
               (fun m => debug_log_wrapper m "handler") (Own hd))) ∧
  (∀ h, handler (reactive_cb r) "handler" = Some h →
        condition_applied h = false ∧ call_count_applied h = false) ∧
  (∀ x, x ∈ authorized_addresses r ↔ x ∈ default [] aa) ∧
  batch_addresses r = authorized_addresses r ∧
  group_addresses r = ∅ ∧
  (hd = ReactiveRuleCallback_handler →
   ∀ h i a k o w,
     handler (reactive_cb r) "handler" = Some h →
     fst (invoke c h i a k o w) = Raise NotImplementedError ∧
     trace_depth (effects (env (snd (invoke c h i a k o w))))
       = trace_depth (effects (env w))).
Proof.
  intros r c.
  assert (Hc : c = BaseCallback_init sb it rn rp ru be bl te da me ps pr aty).
  { unfold c, r, ReactiveRuleCallback_init. cbn [reactive_cb].
    rewrite _apply_perf_monitoring_rewrap, _apply_debug_log_rewrap.
    by rewrite !foldl_rewrap_self. }
  assert (Hh : handler (reactive_cb r) "handler" =
    Some (wrap_if (performance_monitoring_enabled c)
            (fun m => perf_monitoring_wrapper m (metric_name_of c "handler"))
            (wrap_if (LOGGER_isEnabledFor_DEBUG e)
               (fun m => debug_log_wrapper m "handler") (Own hd)))).
  { rewrite Hc. unfold r, ReactiveRuleCallback_init, handler.
    cbn [reactive_cb].
    rewrite _apply_perf_monitoring_rewrap, _apply_debug_log_rewrap.
    cbn [foldl]. rewrite !rewrap_lookup, !rewrap_self.
    rewrite !decide_True by done. cbn [attrs self_].
    rewrite lookup_singleton_eq. reflexivity. }
  split; [exact Hh|]. split; [|split; [|split; [|split]]].
  - intros h Hh'. rewrite Hh in Hh'. injection Hh' as <-. unfold wrap_if.
    by destruct (performance_monitoring_enabled c),
      (LOGGER_isEnabledFor_DEBUG e).
  - intros x. unfold r, ReactiveRuleCallback_init.
    cbn [authorized_addresses]. apply elem_of_list_to_set.
  - reflexivity.
  - reflexivity.
  - intros -> h i a k o w Hh'. rewrite Hh in Hh'. injection Hh' as <-.
    split.
    + unfold wrap_if, ReactiveRuleCallback_handler, raise.
      by destruct (performance_monitoring_enabled c),
        (LOGGER_isEnabledFor_DEBUG e).
    + apply invoke_trace_depth. intros i0 a0 k0 o0 e0.
      unfold wrap_if.
      by destruct (performance_monitoring_enabled c),
        (LOGGER_isEnabledFor_DEBUG e).
Qed.

(** X8. [from_rule_dict] fails with [KeyError] for the first key that is
    missing among [hookpoint], [klass], [method], [name] and
    [rulespack_id], in this order, and builds nothing then; every other key
    may be missing.  With the five keys present it returns the callback
    that [__init__] builds, attached to the given class and method, with
    the strategy [import_hook] when none is given and the priority 100 when
    none is given. *)
Theorem from_rule_dict_required_keys cls rd ru e :
  (rd_hookpoint rd = None →
   RuleCallback_from_rule_dict is_condition_empty cls rd ru e
     = Raise (KeyError "hookpoint")) ∧
  (∀ hp, rd_hookpoint rd = Some hp →
     (hp_klass hp = None →
      RuleCallback_from_rule_dict is_condition_empty cls rd ru e
        = Raise (KeyError "klass")) ∧
     (∀ kl, hp_klass hp = Some kl →
        (hp_method hp = None →
         RuleCallback_from_rule_dict is_condition_empty cls rd ru e
           = Raise (KeyError "method")) ∧
        (∀ me, hp_method hp = Some me →
           (rd_name rd = None →
            RuleCallback_from_rule_dict is_condition_empty cls rd ru e
              = Raise (KeyError "name")) ∧
           (∀ na, rd_name rd = Some na →
              (rd_rulespack_id rd = None →
               RuleCallback_from_rule_dict is_condition_empty cls rd ru e
                 = Raise (KeyError "rulespack_id")) ∧
              (∀ rp, rd_rulespack_id rd = Some rp →
                 ∃ cb e',
                   RuleCallback_from_rule_dict is_condition_empty cls rd ru e
                     = Ret (cb, e') ∧
                   hook_module cb = kl ∧
                   hook_name cb = me ∧
                   strategy cb = default "import_hook" (hp_strategy hp) ∧
                   rule_name (self_ (attached_cb cb)) = na ∧
                   rulespack_id (self_ (attached_cb cb)) = rp ∧
                   runner (self_ (attached_cb cb)) = ru ∧
                   (rd_priority rd = None →
                    priority (self_ (attached_cb cb)) = VInt 100) ∧
                   attached_cb cb
                     = fst (construct cls
                              (mkInitArgs na rp ru (get_value (rd_beta rd))
                                 (get_value (rd_block rd))
                                 (get_value (rd_test rd))
                                 (get_value (rd_data rd)) (rd_conditions rd)
                                 (rd_call_count_interval rd)
                                 (get_value (rd_metrics rd)) (rd_payload rd)
                                 (get_value (rd_priority rd))
                                 (get_value (rd_attack_type rd))) e)))))).
Proof.
  unfold RuleCallback_from_rule_dict. split.
  { by intros ->. }
  intros hp ->. cbn [subscript]. split; [by intros ->|].
  intros kl ->. cbn [subscript]. split; [by intros ->|].
  intros me ->. cbn [subscript]. split; [by intros ->|].
  intros na ->. cbn [subscript]. split; [by intros ->|].
  intros rp ->. cbn [subscript].
  match goal with
  | |- context [construct ?cl ?ar ?en] =>
      pose proof (RuleCallback_init_self is_condition_empty cl ar en) as Hs;
      destruct (construct cl ar en) as [cb e'] eqn:E
  end.
  cbn [fst] in Hs. do 2 eexists. split; [reflexivity|].
  cbn [hook_module hook_name strategy attached_cb fst]. rewrite Hs. cbn.
  repeat (split; [done|]). split; [|done].
  by intros ->.
Qed.

(** X9. Each recording operation hands the storage exactly one event, under
    its own category, and leaves every other category, the storage's
    readable state and the call counters as they are.  An attack carries
    the rule identity and the given time, or the current time when none is
    given; it carries the caller's stack exactly when [context] is among
    the callback's payload sections and a request is in flight.  A metric
    observation is handed over with [report=False]. *)
Theorem recording_adds_one_event c e :
  (∀ infos at_,
     ∃ bt,
       (∀ cat,
          observed_as cat (record_attack c infos at_ e) =
          (observed_as cat e ++
           if String.eqb "attacks" cat
           then [AttackPayload infos (rulespack_id c) (rule_name c) (beta c)
                   (block c) (test c) (attack_type c)
                   (match at_ with Some t => t | None => now e end) bt]
           else [])%list) ∧
       (bt = Some (raw_caller (storage e)) ∨ bt = None) ∧
       (bt ≠ None ↔
        "context" ∈ payload_sections c ∧
        current_request (storage e) ≠ None) ∧
       storage (record_attack c infos at_ e) = storage e ∧
       call_counts (record_attack c infos at_ e) = call_counts e) ∧
  (∀ metric_name key val at_,
     (∀ cat,
        observed_as cat (record_observation c metric_name key val at_ e) =
        (observed_as cat e ++
         if String.eqb "observations" cat
         then [MetricPayload metric_name
                 (match at_ with Some t => t | None => now e end) key val]
         else [])%list) ∧
     last (effects (record_observation c metric_name key val at_ e))
       = Some (Observed "observations"
                 (MetricPayload metric_name
                    (match at_ with Some t => t | None => now e end) key val)
                 None (Some false)) ∧
     storage (record_observation c metric_name key val at_ e) = storage e ∧
     call_counts (record_observation c metric_name key val at_ e)
       = call_counts e) ∧
  (∀ exc exc_info stack infos at_,
     (∃ p,
        ∀ cat,
          observed_as cat
            (snd (record_exception raw_traceback_formatter
                    traceback_formatter c exc exc_info stack infos at_ e)) =
          (observed_as cat e ++
           if String.eqb "sqreen_exceptions" cat then [p] else [])%list) ∧
     storage
       (snd (record_exception raw_traceback_formatter traceback_formatter c
               exc exc_info stack infos at_ e)) = storage e ∧
     call_counts
       (snd (record_exception raw_traceback_formatter traceback_formatter c
               exc exc_info stack infos at_ e)) = call_counts e).
Proof.
  split; [|split].
  - intros infos at_. unfold record_attack, observe.
    eexists. split; [|split; [|split; [|split]]].
    + intros cat. rewrite observed_as_emit_observed,
        observed_as_LOGGER_debug. reflexivity.
    + destruct (bool_decide _); [|by right].
      destruct (current_request (storage e)); [by left|by right].
    + destruct (decide ("context" ∈ payload_sections c)) as [Hin|Hnin].
      * rewrite bool_decide_eq_true_2 by done.
        destruct (current_request (storage e)); split; try done.
        -- by intros [_ ?].
      * rewrite bool_decide_eq_false_2 by done. split; [done|].
        by intros [? _].
    + cbn [emit set_effects storage]. apply storage_LOGGER_debug.
    + cbn [emit set_effects call_counts]. apply call_counts_LOGGER_debug.
  - intros metric_name key val at_. unfold record_observation, observe.
    split; [|split; [|split]].
    + intros cat. rewrite observed_as_emit_observed,
        observed_as_LOGGER_debug. reflexivity.
    + cbn [emit set_effects effects]. apply last_snoc.
    + cbn [emit set_effects storage]. apply storage_LOGGER_debug.
    + cbn [emit set_effects call_counts]. apply call_counts_LOGGER_debug.
  - intros exc exc_info stack infos at_. rewrite record_exception_eq.
    cbn zeta. cbn [snd]. unfold observe. split; [|split].
    + eexists. intros cat.
      rewrite observed_as_emit_observed, observed_as_LOGGER_debug.
      reflexivity.
    + cbn [emit set_effects storage]. apply storage_LOGGER_debug.
    + cbn [emit set_effects call_counts]. apply call_counts_LOGGER_debug.
Qed.

End MoreFacts.

(** * Further properties of [aws_lambda.py] *)

Section AwsFacts.

Variable is_condition_empty : value → bool.
Variable evaluate : value → bindings → value.
Variable get_current_args : Storage → list value → list value.
Variable int_of_str : string → option Z.

Local Abbreviation invoke := (call evaluate get_current_args).
Local Abbreviation construct := (RuleCallback_init is_condition_empty).
Local Abbreviation invoke_each := (invoke_all evaluate get_current_args).
Local Abbreviation outcomes := (outcomes_all evaluate get_current_args).

(** X10. The accessors that read [requestContext] raise [AttributeError]
    when the event has no [requestContext] dictionary, for both request
    classes; [method] and the version 1.0 [path] never raise.  [pre]
    accepts an event that has [httpMethod] and no [requestContext], so the
    request it stores is one whose [remote_addr] raises.  With a
    [requestContext] dictionary, [hostname] is its [domainName], and
    [remote_addr] is the [sourceIp] of its [http] (version 2.0) or
    [identity] (version 1.0) entry, [None] when that entry is missing. *)
Theorem request_context_accessors ev :
  ((∀ rc, request_rc ev ≠ VDict rc) →
   V2_remote_addr ev = Raise (AttributeError "get") ∧
   V2_hostname ev = Raise (AttributeError "get") ∧
   V2_client_user_agent ev = Raise (AttributeError "get") ∧
   V2_path ev = Raise (AttributeError "get") ∧
   V1_remote_addr ev = Raise (AttributeError "get") ∧
   V1_hostname ev = Raise (AttributeError "get") ∧
   V1_client_user_agent ev = Raise (AttributeError "get")) ∧
  V1_method ev = Ret (default VNone (ev !! "httpMethod")) ∧
  V2_method ev = Ret (default VNone (ev !! "httpMethod")) ∧
  V1_path ev = Ret (default VNone (ev !! "path")) ∧
  (∀ c i k o e,
     is_v2_event ev = false → is_Some (ev !! "httpMethod") →
     ev !! "requestContext" = None →
     fst (RecordRequestContextAWSLambda_pre c i [VDict ev] k o e)
       = Ret VNone ∧
     current_request
       (storage (snd (RecordRequestContextAWSLambda_pre c i [VDict ev] k o
                        e)))
       = Some (AWSLambdaProxyV1Request ev) ∧
     V1_remote_addr ev = Raise (AttributeError "get")) ∧
  (∀ rc, ev !! "requestContext" = Some (VDict rc) →
     V2_hostname ev = Ret (default VNone (rc !! "domainName")) ∧
     V1_hostname ev = Ret (default VNone (rc !! "domainName")) ∧
     (rc !! "http" = None → V2_remote_addr ev = Ret VNone) ∧
     (rc !! "identity" = None → V1_remote_addr ev = Ret VNone) ∧
     (∀ h, rc !! "http" = Some (VDict h) →
           V2_remote_addr ev = Ret (default VNone (h !! "sourceIp"))) ∧
     (∀ h, rc !! "identity" = Some (VDict h) →
           V1_remote_addr ev = Ret (default VNone (h !! "sourceIp")))).
Proof.
  split; [|split; [|split; [|split; [|split]]]]; try reflexivity.
  - intros Hrc.
    unfold V2_remote_addr, V2_hostname, V2_client_user_agent, V2_path,
      V1_remote_addr, V1_hostname, V1_client_user_agent.
    destruct (request_rc ev) as [| | | | |rc] eqn:E; cbn; try done.
    by destruct (Hrc rc).
  - intros c i k o e Hv2 Hm Hrc.
    unfold RecordRequestContextAWSLambda_pre. rewrite Hv2.
    assert (Hv1 : is_v1_event ev = true).
    { unfold is_v1_event. rewrite (bool_decide_eq_true_2 _ Hm).
      apply orb_true_r. }
    rewrite Hv1. split; [reflexivity|]. split; [reflexivity|].
    unfold V1_remote_addr, request_rc. by rewrite Hrc.
  - intros rc Hrc.
    unfold V2_remote_addr, V2_hostname, V1_remote_addr, V1_hostname,
      request_rc. rewrite Hrc. cbn [default from_option id py_get and_then].
    split; [done|]. split; [done|].
    split; [by intros ->|]. split; [by intros ->|].
    split; by intros h ->.
Qed.

(** X11. [query_params] never raises and is never [None]: it is the
    [multiValueQueryStringParameters] of the event, or an empty dictionary
    when that key is missing or [None].  Without a [headers] key [scheme]
    is ["http"] for both request classes, and [server_port] is [None] for
    version 1.0 but the string ["http"] for version 2.0; with [headers]
    present as [None] all four raise [AttributeError].  The header names
    are looked up as spelled, capitalized for version 1.0 and lower-case
    for version 2.0.  [request_uri] joins [rawPath] and [rawQueryString]
    with a question mark and raises [TypeError] unless both are strings. *)
Theorem headers_and_query_accessors ev :
  (∃ v, V1_query_params ev = Ret v ∧ V2_query_params ev = Ret v ∧
        v ≠ VNone ∧
        (∀ q, ev !! "multiValueQueryStringParameters" = Some q →
              q ≠ VNone → v = q) ∧
        (ev !! "multiValueQueryStringParameters" = Some VNone →
         v = VDict ∅) ∧
        (ev !! "multiValueQueryStringParameters" = None → v = VDict ∅)) ∧
  (ev !! "headers" = None →
   V1_scheme ev = Ret (VStr "http") ∧ V2_scheme ev = Ret (VStr "http") ∧
   V1_server_port ev = Ret VNone ∧ V2_server_port ev = Ret (VStr "http")) ∧
  (ev !! "headers" = Some VNone →
   V1_scheme ev = Raise (AttributeError "get") ∧
   V2_scheme ev = Raise (AttributeError "get") ∧
   V1_server_port ev = Raise (AttributeError "get") ∧
   V2_server_port ev = Raise (AttributeError "get")) ∧
  (∀ h, ev !! "headers" = Some (VDict h) →
     V1_scheme ev = Ret (default (VStr "http") (h !! "X-Forwarded-Proto")) ∧
     V2_scheme ev = Ret (default (VStr "http") (h !! "x-forwarded-proto")) ∧
     V1_server_port ev = Ret (default VNone (h !! "X-Forwarded-Port")) ∧
     V2_server_port ev
       = Ret (default (VStr "http") (h !! "x-forwarded-port"))) ∧
  (∀ p q, ev !! "rawPath" = Some (VStr p) →
          ev !! "rawQueryString" = Some (VStr q) →
          V2_request_uri ev = Ret (VStr (p ++ "?" ++ q))) ∧
  (ev !! "rawPath" = None ∨ ev !! "rawQueryString" = None →
   V2_request_uri ev = Raise TypeError).
Proof.
  split; [|split; [|split; [|split; [|split]]]].
  - unfold V1_query_params, V2_query_params. eexists.
    split; [reflexivity|]. split; [reflexivity|]. split; [|split; [|split]].
    + by destruct (default VNone _).
    + intros q -> Hq. cbn [default]. by destruct q.
    + by intros ->.
    + by intros ->.
  - intros Hh. unfold V1_scheme, V2_scheme, V1_server_port, V2_server_port.
    rewrite Hh. cbn. by rewrite !lookup_empty.
  - intros Hh. unfold V1_scheme, V2_scheme, V1_server_port, V2_server_port.
    by rewrite Hh.
  - intros h Hh. unfold V1_scheme, V2_scheme, V1_server_port, V2_server_port.
    by rewrite Hh.
  - intros p q Hp Hq. unfold V2_request_uri. by rewrite Hp, Hq.
  - intros [Hp|Hq]; unfold V2_request_uri.
    + by rewrite Hp.
    + rewrite Hq. cbn [default]. by destruct (default VNone _).
Qed.

(** X12. [content_length] swallows the failure to convert the header: with
    a result dictionary whose [headers] entry is missing or a dictionary it
    never raises; it is [None] when [Content-Length] is missing, [None] or
    does not convert with [int], and the integer otherwise.  It raises only
    when the result is no dictionary or its [headers] entry is present and
    no dictionary. *)
Theorem content_length_swallows_conversion_errors res :
  (∀ d, res = VDict d → d !! "headers" = None →
        Response_content_length int_of_str res = Ret VNone) ∧
  (∀ d h, res = VDict d → d !! "headers" = Some (VDict h) →
     (h !! "Content-Length" = None →
      Response_content_length int_of_str res = Ret VNone) ∧
     (h !! "Content-Length" = Some VNone →
      Response_content_length int_of_str res = Ret VNone) ∧
     (∀ n, h !! "Content-Length" = Some (VInt n) →
           Response_content_length int_of_str res = Ret (VInt n)) ∧
     (∀ s, h !! "Content-Length" = Some (VStr s) →
           Response_content_length int_of_str res
             = Ret (match int_of_str s with
                    | Some n => VInt n
                    | None => VNone
                    end)) ∧
     (∀ l, h !! "Content-Length" = Some (VList l) →
           Response_content_length int_of_str res = Ret VNone) ∧
     ∃ r, Response_content_length int_of_str res = Ret r) ∧
  (∀ x, Response_content_length int_of_str res = Raise x →
        x = AttributeError "get" ∧
        ((∀ d, res ≠ VDict d) ∨
         ∃ d v, res = VDict d ∧ d !! "headers" = Some v ∧
                ∀ h, v ≠ VDict h)).
Proof.
  unfold Response_content_length. split; [|split].
  - intros d -> Hh. cbn [py_get and_then]. rewrite Hh. cbn.
    by rewrite lookup_empty.
  - intros d h -> Hh. cbn [py_get and_then]. rewrite Hh.
    cbn [default from_option id py_get and_then].
    split; [by intros ->|]. split; [by intros ->|].
    split; [by intros n ->|]. split; [|split; [by intros l ->|]].
    + intros s ->. cbn. by destruct (int_of_str s).
    + destruct (default VNone (h !! "Content-Length")); cbn;
        try destruct (int_of_str s); by eexists.
  - intros x. destruct res as [| | | | |d]; cbn [py_get and_then];
      try (intros [= <-]; split; [done|by left]).
    destruct (d !! "headers") as [v|] eqn:Hh;
      cbn [default from_option id].
    + destruct v as [| | | | |h]; cbn [py_get and_then];
        try (intros [= <-]; split; [done|];
             right; eexists _, _; split; [done|]; split; [done|]; done).
      destruct (default VNone (h !! "Content-Length")); cbn;
        try destruct (int_of_str s); done.
    + cbn. rewrite lookup_empty. done.
Qed.

(** X13. [RecordResponseAWSLambda] stores a response exactly when the
    options carry a truthy [result]: a result that is missing, [None] or an
    empty dictionary is not stored.  [post] and [failing] do the same;
    neither raises, records an event or changes anything else.  The class
    is not interruptible, so its callbacks are never skippable, and it has
    no [pre] handler. *)
Theorem record_response_stores_truthy_result c i a k o e :
  RecordResponseAWSLambda_post c i a k o e
    = RecordResponseAWSLambda_failing c i a k o e ∧
  fst (RecordResponseAWSLambda_post c i a k o e) = Ret VNone ∧
  (∀ result, o !! "result" = Some result → truthy result = true →
     current_response
       (storage (snd (RecordResponseAWSLambda_post c i a k o e)))
       = Some result) ∧
  (o !! "result" = None ∨ o !! "result" = Some VNone ∨
   o !! "result" = Some (VDict ∅) →
   snd (RecordResponseAWSLambda_post c i a k o e) = e) ∧
  effects (snd (RecordResponseAWSLambda_post c i a k o e)) = effects e ∧
  current_request
    (storage (snd (RecordResponseAWSLambda_post c i a k o e)))
    = current_request (storage e) ∧
  call_counts (snd (RecordResponseAWSLambda_post c i a k o e))
    = call_counts e ∧
  (∀ ar e0,
     skippable (self_ (fst (construct class_RecordResponseAWSLambda ar e0)))
       = false ∧
     handler (fst (construct class_RecordResponseAWSLambda ar e0)) "pre"
       = None).
Proof.
  unfold RecordResponseAWSLambda_post, RecordResponseAWSLambda_failing,
    _record_response.
  split; [reflexivity|]. split; [by destruct (truthy _)|].
  split; [|split; [|split; [|split; [|split]]]].
  - intros result Hr Ht. rewrite Hr. cbn [default from_option id].
    by rewrite Ht.
  - intros [Hr|[Hr|Hr]]; by rewrite Hr.
  - by destruct (truthy _).
  - by destruct (truthy _).
  - by destruct (truthy _).
  - intros ar e0. split.
    + by rewrite RuleCallback_init_self.
    + by apply RuleCallback_init_no_handler.
Qed.

Lemma invoke_pre_step c ev w :
  let r := invoke c (Own RecordRequestContextAWSLambda_pre) VNone [VDict ev]
             ∅ ∅ w in
  UNSUPPORTED_LAMBDA_EVENTS (env (snd r))
    = (if unsupported_event ev
       then {[dom ev]} ∪ UNSUPPORTED_LAMBDA_EVENTS (env w)
       else UNSUPPORTED_LAMBDA_EVENTS (env w)) ∧
  current_request (storage (env (snd r)))
    = (if is_v2_event ev then Some (AWSLambdaProxyV2Request ev)
       else if is_v1_event ev then Some (AWSLambdaProxyV1Request ev)
       else current_request (storage (env w))) ∧
  effects (env (snd r)) = effects (env w) ∧
  (if unsupported_event ev
   then fst r = Ret VNone ∨ fst r = Raise (UnsupportedAWSLambdaEvent ev)
   else fst r = Ret VNone).
Proof.
  cbn zeta. cbn [call]. unfold unsupported_event.
  unfold RecordRequestContextAWSLambda_pre.
  destruct (is_v2_event ev); [|destruct (is_v1_event ev)];
    cbn [negb andb]; [done|done|].
  destruct (decide (dom ev ∈ UNSUPPORTED_LAMBDA_EVENTS (env w)))
    as [Hseen|Hnew].
  - rewrite bool_decide_eq_true_2 by done. cbn [snd fst env].
    split; [|split; [done|split; [done|by left]]].
    apply set_eq. intros x. rewrite elem_of_union, elem_of_singleton.
    split; [tauto|]. intros [->|?]; tauto.
  - rewrite bool_decide_eq_false_2 by done.
    cbn [snd fst env]. split; [done|]. split; [done|]. split; [done|].
    by right.
Qed.

(** X14. Over any run of [pre] invocations of the request-context callback
    on event dictionaries, the set of unsupported shapes only grows: at the
    end it is the set at the start together with the shapes of the
    unsupported events of the run.  A supported event never raises, and
    the request stored at the end is the one built from the last supported
    event, if there is one; a raising invocation stores nothing.  No
    invocation records an event. *)
Theorem pre_run_invariants c evs :
  ∀ w0,
    let w := invoke_each c (Own RecordRequestContextAWSLambda_pre)
               (event_invocation <$> evs) w0 in
    UNSUPPORTED_LAMBDA_EVENTS (env w)
      = list_to_set (unsupported_shapes evs)
        ∪ UNSUPPORTED_LAMBDA_EVENTS (env w0) ∧
    UNSUPPORTED_LAMBDA_EVENTS (env w0) ⊆ UNSUPPORTED_LAMBDA_EVENTS (env w) ∧
    current_request (storage (env w))
      = from_option Some (current_request (storage (env w0)))
          (last (supported_requests evs)) ∧
    effects (env w) = effects (env w0) ∧
    Forall2
      (fun ev r =>
         if unsupported_event ev
         then r = Ret VNone ∨ r = Raise (UnsupportedAWSLambdaEvent ev)
         else r = Ret VNone)
      evs
      (outcomes c (Own RecordRequestContextAWSLambda_pre)
         (event_invocation <$> evs) w0).
Proof.
  induction evs as [|ev evs IH]; intros w0.
  - cbn. split; [by rewrite (left_id_L ∅ (∪))|]. done.
  - cbn [fmap list_fmap invoke_all outcomes_all event_invocation i_inst
           i_args i_kwargs i_options].
    pose proof (invoke_pre_step c ev w0) as Hstep. cbn zeta in Hstep.
    destruct (invoke c (Own RecordRequestContextAWSLambda_pre) VNone
                [VDict ev] ∅ ∅ w0) as [r w1].
    cbn [snd fst] in Hstep |- *.
    destruct Hstep as (HU1 & Hreq1 & Heff1 & Hr).
    specialize (IH w1). cbn zeta in IH.
    destruct IH as (HU & Hsub & Hreq & Heff & Hout).
    unfold unsupported_shapes, supported_requests. cbn [omap list_omap].
    fold (unsupported_shapes evs). fold (supported_requests evs).
    split; [|split; [|split; [|split]]].
    + rewrite HU, HU1. unfold unsupported_event.
      destruct (is_v2_event ev); [|destruct (is_v1_event ev)];
        cbn [negb andb]; [done|done|].
      cbn [list_to_set foldr]. apply set_eq. intros x.
      rewrite !elem_of_union, elem_of_singleton. tauto.
    + intros x Hx. apply Hsub. rewrite HU1.
      destruct (unsupported_event ev); [|done].
      apply elem_of_union. by right.
    + rewrite Hreq, Hreq1.
      destruct (is_v2_event ev); [|destruct (is_v1_event ev)];
        try (rewrite last_cons; by destruct (last _)).
      done.
    + by rewrite Heff, Heff1.
    + constructor; [exact Hr|exact Hout].
Qed.

End AwsFacts.

(** * Properties of [count_http_codes_flask.py] and [sdk/events.py] *)

Section FlaskFacts.

Variable status_code_of : value → option Z.

(** X15. [CountHTTPCodesCBFlask]: [post] counts the response under the
    decimal text of its status code, so different codes are counted under
    different keys, and [failing] counts under ["500"], the key a response
    with status 500 is counted under.  Each records exactly one [http_code]
    observation of value 1 and returns an empty dictionary.  [post] without
    a [result] that has a status code raises [AttributeError] and records
    nothing.  Neither touches the call counters or reports call-count
    samples. *)
Theorem count_http_codes_flask c i a k o e :
  (∀ n, status_code_of (default VNone (o !! "result")) = Some n →
     fst (CountHTTPCodesCBFlask_post status_code_of c i a k o e)
       = Ret (VDict ∅) ∧
     observed_as "observations"
       (snd (CountHTTPCodesCBFlask_post status_code_of c i a k o e))
       = (observed_as "observations" e ++
          [MetricPayload "http_code" (now e) (pretty n) (VInt 1)])%list) ∧
  (status_code_of (default VNone (o !! "result")) = None →
   CountHTTPCodesCBFlask_post status_code_of c i a k o e
     = (Raise (AttributeError "status_code"), e)) ∧
  fst (CountHTTPCodesCBFlask_failing c i a k o e) = Ret (VDict ∅) ∧
  observed_as "observations" (snd (CountHTTPCodesCBFlask_failing c i a k o e))
    = (observed_as "observations" e ++
       [MetricPayload "http_code" (now e) (pretty 500) (VInt 1)])%list ∧
  (∀ n m : Z, pretty n = pretty m → n = m) ∧
  call_counts (snd (CountHTTPCodesCBFlask_post status_code_of c i a k o e))
    = call_counts e ∧
  sampled_observations
    (snd (CountHTTPCodesCBFlask_post status_code_of c i a k o e))
    = sampled_observations e.
Proof.
  unfold CountHTTPCodesCBFlask_post, CountHTTPCodesCBFlask_failing.
  split; [|split; [|split; [|split; [|split; [|split]]]]].
  - intros n ->. unfold mbind, M_bind, bind, effect_, ret. cbn [fst snd].
    split; [done|]. unfold record_observation, observe.
    by rewrite observed_as_emit_observed, observed_as_LOGGER_debug.
  - by intros ->.
  - reflexivity.
  - unfold mbind, M_bind, bind, effect_, ret. cbn [fst snd].
    unfold record_observation, observe.
    by rewrite observed_as_emit_observed, observed_as_LOGGER_debug.
  - intros n m. apply (inj pretty).
  - destruct (status_code_of _); [|done].
    unfold mbind, M_bind, bind, effect_, ret. cbn [fst snd].
    unfold record_observation, observe.
    cbn [emit set_effects call_counts]. apply call_counts_LOGGER_debug.
  - destruct (status_code_of _); [|done].
    unfold mbind, M_bind, bind, effect_, ret. cbn [fst snd].
    unfold record_observation, observe, sampled_observations.
    rewrite observed_as_emit_observed, observed_as_LOGGER_debug.
    rewrite omap_app. cbn. by rewrite app_nil_r.
Qed.

End FlaskFacts.

(** ** The order of strings *)

Lemma ascii_compare_refl a : Ascii.compare a a = Eq.
Proof. unfold Ascii.compare. apply N.compare_refl. Qed.

Lemma ascii_compare_lt_trans a b c :
  Ascii.compare a b = Lt → Ascii.compare b c = Lt → Ascii.compare a c = Lt.
Proof.
  unfold Ascii.compare. rewrite !N.compare_lt_iff. lia.
Qed.

Lemma string_compare_not_gt_trans s1 :
  ∀ s2 s3, String.compare s1 s2 ≠ Gt → String.compare s2 s3 ≠ Gt →
           String.compare s1 s3 ≠ Gt.
Proof.
  induction s1 as [|a s1 IH]; intros [|b s2] [|c s3]; cbn; try done.
  destruct (Ascii.compare a b) eqn:E1; [| |done];
    destruct (Ascii.compare b c) eqn:E2; try done.
  - apply Ascii.compare_eq_iff in E1, E2. subst.
    rewrite ascii_compare_refl. apply IH.
  - apply Ascii.compare_eq_iff in E1. subst. by rewrite E2.
  - apply Ascii.compare_eq_iff in E2. subst. by rewrite E1.
  - by rewrite (ascii_compare_lt_trans a b c).
Qed.

Lemma string_leb_trans s1 s2 s3 :
  String.leb s1 s2 = true → String.leb s2 s3 = true →
  String.leb s1 s3 = true.
Proof.
  unfold String.leb. intros H1 H2.
  pose proof (string_compare_not_gt_trans s1 s2 s3) as H.
  destruct (String.compare s1 s2), (String.compare s2 s3),
    (String.compare s1 s3); try done; exfalso; by apply H.
Qed.

#[global] Instance item_le_trans : Transitive item_le.
Proof. intros p q r. unfold item_le. apply string_leb_trans. Qed.

#[global] Instance item_le_total : Total item_le.
Proof. intros p q. unfold item_le. apply String.leb_total. Qed.

(** X16. When an event has more than 16 properties, the properties that
    are kept are exactly 16 of the given ones, each with the value it was
    given, and they are those with the smallest keys in the order of
    strings: every key that is kept is below every key that is dropped. *)
Theorem first_properties_smallest_keys (d : gmap string value) :
  (_MAX_EVENT_PROPERTIES < size d)%nat →
  size (first_properties d) = _MAX_EVENT_PROPERTIES ∧
  first_properties d ⊆ d ∧
  (∀ k k', k ∈ dom (first_properties d) → k' ∈ dom d →
           k' ∉ dom (first_properties d) →
           String.leb k k' = true ∧ k ≠ k').
Proof.
  intros Hsize. unfold first_properties.
  set (sorted := merge_sort item_le (map_to_list d)).
  assert (Hperm : sorted ≡ₚ map_to_list d) by apply merge_sort_Permutation.
  assert (Hnd : NoDup (sorted.*1)).
  { rewrite Hperm. apply NoDup_fst_map_to_list. }
  assert (Hss : StronglySorted item_le sorted)
    by (apply StronglySorted_merge_sort; apply _).
  assert (Hlen : length sorted = size d).
  { rewrite Hperm. apply length_map_to_list. }
  assert (Hndt : NoDup ((take _MAX_EVENT_PROPERTIES sorted).*1)).
  { rewrite fmap_take. exact (sublist_NoDup _ _ Hnd (sublist_take _ _)). }
  split; [|split].
  - rewrite map_size_list_to_map by done. rewrite length_take. lia.
  - apply map_subseteq_spec. intros k v Hk.
    apply elem_of_list_to_map in Hk; [|done].
    apply elem_of_map_to_list. rewrite <- Hperm.
    by apply (subseteq_take _MAX_EVENT_PROPERTIES).
  - intros k k' Hk Hk' Hnk'.
    apply elem_of_dom in Hk as [v Hk].
    apply elem_of_list_to_map in Hk; [|done].
    apply elem_of_dom in Hk' as [v' Hk'].
    apply elem_of_map_to_list in Hk'. rewrite <- Hperm in Hk'.
    rewrite <- (take_drop _MAX_EVENT_PROPERTIES sorted) in Hk', Hss.
    apply elem_of_app in Hk' as [Hin|Hin].
    + exfalso. apply Hnk'. apply elem_of_dom. exists v'.
      by apply elem_of_list_to_map.
    + split.
      * apply (StronglySorted_app_1_elem_of item_le _ _ (k, v) (k', v') Hss
                 Hk Hin).
      * intros ->. apply Hnk'. apply elem_of_dom. exists v.
        by apply elem_of_list_to_map.
Qed.

(** ** Ordered dictionaries *)

Lemma od_get_set_eq key v d : od_get key (od_set key v d) = Some v.
Proof.
  unfold od_set. destruct (od_get key d) as [v0|] eqn:E.
  - induction d as [|[k x] d IH]; [done|]. cbn in *.
    destruct (String.eqb_spec k key) as [->|Hne]; cbn.
    + by rewrite String.eqb_refl.
    + apply String.eqb_neq in Hne. rewrite Hne. by apply IH.
  - induction d as [|[k x] d IH]; cbn in *.
    + by rewrite String.eqb_refl.
    + destruct (String.eqb k key); [done|]. by apply IH.
Qed.

Lemma od_get_set_ne key key' v d :
  key' ≠ key → od_get key' (od_set key v d) = od_get key' d.
Proof.
  intros Hne. unfold od_set. destruct (od_get key d) as [v0|].
  - induction d as [|[k x] d IH]; [done|]. cbn.
    destruct (String.eqb_spec k key) as [->|Hk]; cbn.
    + apply not_eq_sym, String.eqb_neq in Hne. by rewrite Hne.
    + by rewrite IH.
  - induction d as [|[k x] d IH]; cbn.
    + apply not_eq_sym, String.eqb_neq in Hne. by rewrite Hne.
    + by rewrite IH.
Qed.

Lemma od_get_is_Some key d : is_Some (od_get key d) ↔ key ∈ od_keys d.
Proof.
  unfold od_keys. induction d as [|[k x] d IH]; cbn.
  - split; [by intros [? ?]|by intros ?%elem_of_nil].
  - destruct (String.eqb_spec k key) as [->|Hne].
    + split; [intros _; by left|by eexists].
    + rewrite IH, elem_of_cons. split; [by right|].
      by intros [?|?]; [subst|].
Qed.

Lemma od_keys_set key v d k :
  k ∈ od_keys (od_set key v d) ↔ k = key ∨ k ∈ od_keys d.
Proof.
  rewrite <- !od_get_is_Some. destruct (decide (k = key)) as [->|Hne].
  - rewrite od_get_set_eq. split; [by left|by eexists].
  - rewrite od_get_set_ne by done. split; [by right|by intros [?|?]].
Qed.

Lemma od_get_filter (f : string → bool) key d :
  od_get key (List.filter (fun p => f (fst p)) d)
  = if f key then od_get key d else None.
Proof.
  induction d as [|[k x] d IH]; cbn; [by destruct (f key)|].
  destruct (f k) eqn:Ek; cbn.
  - destruct (String.eqb_spec k key) as [->|Hne]; [by rewrite Ek|done].
  - rewrite IH. destruct (String.eqb_spec k key) as [->|Hne]; [|done].
    by rewrite Ek.
Qed.

Lemma sdk_observations_app l1 l2 :
  sdk_observations (l1 ++ l2) = (sdk_observations l1 ++ sdk_observations l2)%list.
Proof. apply List.filter_app. Qed.

Lemma sdk_observations_logged {A} (f : A → sdk_log) (l : list A) :
  sdk_observations ((fun k => SdkLogged (f k)) <$> l) = [].
Proof. induction l; [done|]. cbn. done. Qed.

Section EventsFacts.

Variable now_datetime : Env → sdk_value.
Variable naive_dt_to_utc : sdk_value → sdk_value.
Variable py_ne : sdk_value → value → bool.
Variable format_stack : list string.
Variable STACKTRACE_EVENTS : gset string.

Local Abbreviation do_track :=
  (track now_datetime naive_dt_to_utc py_ne format_stack STACKTRACE_EVENTS).
Local Abbreviation do_track_action := (track_action now_datetime).
Local Abbreviation unsafe := (_track_unsafe now_datetime).
Local Abbreviation check_ts := (check_timestamp naive_dt_to_utc).

Lemma check_timestamp_logs s o o1 l1 :
  check_ts s o = Ret (o1, l1) → sdk_observations l1 = [].
Proof.
  unfold check_timestamp.
  destruct (sdk_is_not_None _); [|by intros [= <- <-]].
  destruct (default _ _) as [v|[tz|] t]; [done| |]; by intros [= <- <-].
Qed.

Lemma check_properties_logs s o r l2 :
  check_properties s o = (r, l2) → sdk_observations l2 = [].
Proof.
  unfold check_properties.
  destruct (sdk_truthy _); [|by intros [= <- <-]].
  destruct (sdk_len _); [|by intros [= <- <-]].
  destruct (Nat.ltb _ _); by intros [= <- <-].
Qed.

(** The options [track] keeps, after the checks that do not fail. *)
Lemma track_unfold s opts e :
  String.prefix _SQREEN_EVENT_PREFIX s = false →
  let o0 := List.filter
              (fun p => bool_decide (fst p ∈ _TRACK_OPTIONS_FIELDS))
              (default [] opts) in
  match check_ts s o0 with
  | Raise x =>
      fst (do_track (VStr s) opts e) = Raise x ∧
      sdk_observations (snd (do_track (VStr s) opts e)) = []
  | Ret (o1, _) =>
      match check_properties s o1 with
      | (Raise x, _) =>
          fst (do_track (VStr s) opts e) = Raise x ∧
          sdk_observations (snd (do_track (VStr s) opts e)) = []
      | (Ret o2, _) =>
          let o3 := if bool_decide (s ∈ STACKTRACE_EVENTS)
                    then od_set "stacktrace"
                           (Plain (VList (VStr <$> format_stack))) o2
                    else o2 in
          let o4 := od_set "collect_body"
                      (Plain (VBool (sdk_truthy
                                       (default (Plain VNone)
                                          (od_get "collect_body" o3))))) o3 in
          fst (do_track (VStr s) opts e) = Ret (VBool true) ∧
          sdk_observations (snd (do_track (VStr s) opts e))
            = snd (unsafe s o4 e "track")
      end
  end.
Proof.
  intros Hp. cbn zeta. unfold track. rewrite Hp.
  destruct (check_ts s _) as [[o1 l1]|x] eqn:Ets.
  - pose proof (check_timestamp_logs _ _ _ _ Ets) as Hl1.
    destruct (check_properties s o1) as [[o2|x] l2] eqn:Eps;
      pose proof (check_properties_logs _ _ _ _ Eps) as Hl2.
    + destruct (bool_decide (s ∈ STACKTRACE_EVENTS));
        unfold _track_unsafe; cbn [fst snd]; (split; [done|]);
        rewrite !sdk_observations_app, sdk_observations_logged, Hl1, Hl2;
        cbn [app sdk_observations List.filter];
        destruct (sdk_truthy (default (Plain VNone)
                                (od_get "user_identifiers" _)));
        try destruct (request_store (storage e) !! "user_identifiers");
        try destruct (_ && _); done.
    + cbn [fst snd]. split; [done|].
      by rewrite !sdk_observations_app, sdk_observations_logged, Hl1, Hl2.
  - cbn [fst snd]. split; [done|]. apply sdk_observations_logged.
Qed.

Lemma check_timestamp_cases s o :
  check_ts s o
  = match od_get "timestamp" o with
    | Some (Datetime None t) =>
        Ret (od_set "timestamp" (naive_dt_to_utc (Datetime None t)) o,
             [SdkLogged (NaiveTimestamp s)])
    | Some (Plain VNone) | None | Some (Datetime (Some _) _) => Ret (o, [])
    | Some (Plain _) => Raise TypeError
    end.
Proof.
  unfold check_timestamp.
  by destruct (od_get "timestamp" o) as [[[]|[]]|].
Qed.

Lemma check_timestamp_get s o o1 l1 k :
  check_ts s o = Ret (o1, l1) → k ≠ "timestamp" → od_get k o1 = od_get k o.
Proof.
  rewrite check_timestamp_cases. intros H Hk.
  destruct (od_get "timestamp" o) as [[[]|[]]|]; simplify_eq; try done.
  by apply od_get_set_ne.
Qed.

Lemma check_timestamp_keys s o o1 l1 k :
  check_ts s o = Ret (o1, l1) → k ∈ od_keys o1 ↔ k ∈ od_keys o.
Proof.
  rewrite check_timestamp_cases. intros H.
  destruct (od_get "timestamp" o) as [[[]|[]]|] eqn:E; simplify_eq; try done.
  rewrite od_keys_set. split; [|by right].
  intros [->|?]; [|done]. apply od_get_is_Some. by eexists.
Qed.

Lemma check_timestamp_timestamp s o o1 l1 :
  check_ts s o = Ret (o1, l1) →
  od_get "timestamp" o1
  = match od_get "timestamp" o with
    | Some (Datetime None t) => Some (naive_dt_to_utc (Datetime None t))
    | x => x
    end
  ∧ ∀ v, od_get "timestamp" o = Some (Plain v) → v = VNone.
Proof.
  rewrite check_timestamp_cases. intros H.
  destruct (od_get "timestamp" o) as [[[]|[]]|] eqn:E; simplify_eq;
    rewrite ?E, ?od_get_set_eq; (split; [done|]); by intros ? [= <-].
Qed.

Lemma check_properties_get s o o2 l2 k :
  check_properties s o = (Ret o2, l2) → k ≠ "properties" →
  od_get k o2 = od_get k o.
Proof.
  unfold check_properties. intros H Hk.
  destruct (sdk_truthy _); [|by simplify_eq].
  destruct (sdk_len _); [|by simplify_eq].
  destruct (Nat.ltb _ _); [|by simplify_eq].
  destruct (default _ _) as [[]|]; simplify_eq.
  by apply od_get_set_ne.
Qed.

Lemma check_properties_keys s o o2 l2 k :
  check_properties s o = (Ret o2, l2) → k ∈ od_keys o2 ↔ k ∈ od_keys o.
Proof.
  unfold check_properties. intros H.
  destruct (sdk_truthy _) eqn:Et; [|by simplify_eq].
  destruct (sdk_len _); [|by simplify_eq].
  destruct (Nat.ltb _ _); [|by simplify_eq].
  destruct (od_get "properties" o) as [v|] eqn:E; [|done].
  cbn [default from_option id] in H. destruct v as [[]|]; simplify_eq.
  rewrite od_keys_set. split; [|by right].
  intros [->|?]; [|done]. apply od_get_is_Some. by eexists.
Qed.

Lemma check_properties_properties s o o2 l2 :
  check_properties s o = (Ret o2, l2) →
  od_get "properties" o2
  = match od_get "properties" o with
    | Some (Plain (VDict d)) =>
        Some (Plain (VDict (if Nat.ltb _MAX_EVENT_PROPERTIES (size d)
                            then first_properties d else d)))
    | x => x
    end.
Proof.
  unfold check_properties. intros H.
  destruct (od_get "properties" o) as [v|] eqn:E;
    cbn [default from_option id] in H; [|cbn in H; by simplify_eq].
  destruct v as [v|tz t]; [|cbn in H; by simplify_eq].
  destruct (sdk_truthy (Plain v)) eqn:Et.
  - destruct (sdk_len (Plain v)) as [n|] eqn:En; [|by simplify_eq].
    destruct (Nat.ltb _MAX_EVENT_PROPERTIES n) eqn:Hn.
    + destruct v; cbn [sdk_len] in En; simplify_eq. rewrite Hn.
      by rewrite od_get_set_eq.
    + simplify_eq. rewrite E. destruct v; try done.
      cbn [sdk_len] in En. simplify_eq. by rewrite Hn.
  - simplify_eq. rewrite E. destruct v; try done.
    cbn [sdk_truthy truthy] in Et.
    apply negb_false_iff, Nat.eqb_eq in Et. by rewrite Et.
Qed.

Lemma od_get_if_set (b : bool) key v d k :
  k ≠ key → od_get k (if b then od_set key v d else d) = od_get k d.
Proof. intros. destruct b; [by apply od_get_set_ne|done]. Qed.

Lemma od_get_if_keep (b : bool) key v d k :
  k ≠ key → od_get k (if b then d else od_set key v d) = od_get k d.
Proof. intros. destruct b; [done|by apply od_get_set_ne]. Qed.

Lemma od_keys_filter (f : string → bool) d k :
  k ∈ od_keys (List.filter (fun p => f (fst p)) d) ↔ k ∈ od_keys d ∧ f k = true.
Proof.
  rewrite <- !od_get_is_Some, od_get_filter. destruct (f k).
  - split; [by intros ?|by intros [? _]].
  - split; [by intros [? ?]|by intros [_ ?]].
Qed.

Lemma track_fields_get k opts :
  k ∈ _TRACK_OPTIONS_FIELDS →
  od_get k (List.filter
              (fun p => bool_decide (fst p ∈ _TRACK_OPTIONS_FIELDS)) opts)
  = od_get k opts.
Proof.
  intros Hk.
  pose (f := fun x : string => bool_decide (x ∈ _TRACK_OPTIONS_FIELDS)).
  change (od_get k (List.filter (fun p => f (fst p)) opts) = od_get k opts).
  rewrite od_get_filter. unfold f. by rewrite bool_decide_eq_true_2.
Qed.

Lemma track_fields_keys k opts :
  k ∈ od_keys (List.filter
                 (fun p => bool_decide (fst p ∈ _TRACK_OPTIONS_FIELDS)) opts)
  ↔ k ∈ od_keys opts ∧ k ∈ _TRACK_OPTIONS_FIELDS.
Proof.
  pose (f := fun x : string => bool_decide (x ∈ _TRACK_OPTIONS_FIELDS)).
  change (k ∈ od_keys (List.filter (fun p => f (fst p)) opts)
          ↔ k ∈ od_keys opts ∧ k ∈ _TRACK_OPTIONS_FIELDS).
  rewrite od_keys_filter. unfold f. by rewrite bool_decide_eq_true.
Qed.

(** What is observed when [track] does not return [True]: nothing. *)
Lemma track_not_true ev opts e :
  fst (do_track ev opts e) ≠ Ret (VBool true) →
  sdk_observations (snd (do_track ev opts e)) = [].
Proof.
  destruct ev as [| | |s| |]; try done.
  destruct (String.prefix _SQREEN_EVENT_PREFIX s) eqn:Hp.
  { unfold track. by rewrite Hp. }
  pose proof (track_unfold s opts e Hp) as Hu. cbn zeta in Hu.
  destruct (check_ts s _) as [[o1 l1]|x]; [|by destruct Hu].
  destruct (check_properties s o1) as [[o2|x] l2]; [|by destruct Hu].
  by destruct Hu.
Qed.

(** The event observed when [track] returns [True], read off the options
    it was given. *)
Lemma track_true s opts e :
  fst (do_track (VStr s) opts e) = Ret (VBool true) →
  let opts0 := default [] opts in
  let b := sdk_truthy (default (Plain VNone) (od_get "collect_body" opts0)) in
  ∃ ts o secs,
    sdk_observations (snd (do_track (VStr s) opts e))
      = [SdkObserved "track" ts s o secs true] ∧
    String.prefix _SQREEN_EVENT_PREFIX s = false ∧
    od_get "timestamp" o = Some ts ∧
    ts = match od_get "timestamp" opts0 with
         | None => now_datetime e
         | Some (Datetime None t) => naive_dt_to_utc (Datetime None t)
         | Some v => v
         end ∧
    (∀ v, od_get "timestamp" opts0 = Some (Plain v) → v = VNone) ∧
    od_get "collect_body" o = Some (Plain (VBool b)) ∧
    secs = (if b then {[ "params" ]} ∪ list_to_set _TRACK_PAYLOAD_SECTIONS
            else list_to_set _TRACK_PAYLOAD_SECTIONS) ∧
    od_get "user_identifiers" o = od_get "user_identifiers" opts0 ∧
    od_get "properties" o
      = match od_get "properties" opts0 with
        | Some (Plain (VDict d)) =>
            Some (Plain (VDict (if Nat.ltb _MAX_EVENT_PROPERTIES (size d)
                                then first_properties d else d)))
        | x => x
        end ∧
    (∀ k, k ∈ od_keys o ↔
          (k ∈ od_keys opts0 ∧ k ∈ _TRACK_OPTIONS_FIELDS)
          ∨ k = "timestamp" ∨ k = "collect_body"
          ∨ (k = "stacktrace" ∧ s ∈ STACKTRACE_EVENTS)) ∧
    (s ∈ STACKTRACE_EVENTS →
     od_get "stacktrace" o = Some (Plain (VList (VStr <$> format_stack)))).
Proof.
  intros Htrue opts0 b.
  destruct (String.prefix _SQREEN_EVENT_PREFIX s) eqn:Hp.
  { unfold track in Htrue. by rewrite Hp in Htrue. }
  pose proof (track_unfold s opts e Hp) as Hu. cbn zeta in Hu.
  fold opts0 in Hu.
  destruct (check_ts s _) as [[o1 l1]|x] eqn:Ets;
    [|destruct Hu as [Hu _]; congruence].
  destruct (check_properties s o1) as [[o2|x] l2] eqn:Eps;
    [|destruct Hu as [Hu _]; congruence].
  destruct Hu as [_ Hobs].
  unfold _track_unsafe in Hobs. cbn [snd] in Hobs.
  set (o3 := if bool_decide (s ∈ STACKTRACE_EVENTS)
             then od_set "stacktrace" (Plain (VList (VStr <$> format_stack))) o2
             else o2) in *.
  set (o4 := od_set "collect_body" _ o3) in *.
  set (o5 := if bool_decide ("timestamp" ∈ od_keys o4) then o4
             else od_set "timestamp" (now_datetime e) o4) in *.
  assert (Hget : ∀ k, k ∈ _TRACK_OPTIONS_FIELDS → k ≠ "timestamp" →
                      k ≠ "properties" → od_get k o3 = od_get k opts0).
  { intros k Hk Hk1 Hk2. unfold o3. rewrite od_get_if_set.
    - rewrite (check_properties_get _ _ _ _ _ Eps) by done.
      rewrite (check_timestamp_get _ _ _ _ _ Ets) by done.
      by apply track_fields_get.
    - intros ->. by repeat (apply elem_of_cons in Hk as [?|Hk]; [done|]);
                    apply elem_of_nil in Hk. }
  assert (Hcb : od_get "collect_body" o5 = Some (Plain (VBool b))).
  { unfold o5. rewrite od_get_if_keep by done. unfold o4.
    rewrite od_get_set_eq. unfold b. rewrite Hget; [done| |done|done].
    unfold _TRACK_OPTIONS_FIELDS. set_solver. }
  destruct (check_timestamp_timestamp _ _ _ _ Ets) as [Hts Hplain].
  rewrite track_fields_get in Hts, Hplain
    by (unfold _TRACK_OPTIONS_FIELDS; set_solver).
  assert (Hts4 : od_get "timestamp" o4
                 = match od_get "timestamp" opts0 with
                   | Some (Datetime None t) =>
                       Some (naive_dt_to_utc (Datetime None t))
                   | x => x
                   end).
  { unfold o4. rewrite od_get_set_ne by done. unfold o3.
    rewrite od_get_if_set by done.
    by rewrite (check_properties_get _ _ _ _ _ Eps). }
  assert (Hts5 : od_get "timestamp" o5
                 = Some (match od_get "timestamp" opts0 with
                         | None => now_datetime e
                         | Some (Datetime None t) =>
                             naive_dt_to_utc (Datetime None t)
                         | Some v => v
                         end)).
  { unfold o5. case_bool_decide as Hin.
    - apply od_get_is_Some in Hin as [v Hv]. rewrite Hv.
      rewrite Hts4 in Hv. by destruct (od_get "timestamp" opts0) as [[|[]]|].
    - rewrite od_get_set_eq.
      destruct (od_get "timestamp" o4) as [v|] eqn:Hv.
      + exfalso. apply Hin, od_get_is_Some. by eexists.
      + rewrite Hts4 in Hv.
        by destruct (od_get "timestamp" opts0) as [[|[]]|]. }
  eexists _, o5, _. split; [exact Hobs|]. split; [done|].
  rewrite Hts5, Hcb. cbn [default from_option id sdk_truthy truthy].
  split; [done|]. split; [done|]. split; [exact Hplain|].
  split; [done|]. split; [done|]. split; [|split; [|split]].
  - unfold o5. rewrite od_get_if_keep by done. unfold o4.
    rewrite od_get_set_ne by done. apply Hget; [|done|done].
    unfold _TRACK_OPTIONS_FIELDS. set_solver.
  - unfold o5. rewrite od_get_if_keep by done. unfold o4.
    rewrite od_get_set_ne by done. unfold o3.
    rewrite od_get_if_set by done.
    rewrite (check_properties_properties _ _ _ _ Eps).
    rewrite (check_timestamp_get _ _ _ _ _ Ets) by done.
    rewrite track_fields_get; [done|].
    unfold _TRACK_OPTIONS_FIELDS. set_solver.
  - intros k.
    assert (Hk3 : k ∈ od_keys o3 ↔
                  (k ∈ od_keys opts0 ∧ k ∈ _TRACK_OPTIONS_FIELDS)
                  ∨ (k = "stacktrace" ∧ s ∈ STACKTRACE_EVENTS)).
    { assert (Hk2 : k ∈ od_keys o2 ↔
                    k ∈ od_keys opts0 ∧ k ∈ _TRACK_OPTIONS_FIELDS).
      { rewrite (check_properties_keys _ _ _ _ _ Eps).
        rewrite (check_timestamp_keys _ _ _ _ _ Ets).
        apply track_fields_keys. }
      unfold o3. case_bool_decide as Hs.
      - rewrite od_keys_set, Hk2. intuition auto.
      - rewrite Hk2. intuition auto. }
    assert (Hk4 : k ∈ od_keys o4 ↔
                  k = "collect_body"
                  ∨ (k ∈ od_keys opts0 ∧ k ∈ _TRACK_OPTIONS_FIELDS)
                  ∨ (k = "stacktrace" ∧ s ∈ STACKTRACE_EVENTS)).
    { unfold o4. by rewrite od_keys_set, Hk3. }
    unfold o5. case_bool_decide as Hin.
    + rewrite Hk4. split; [intuition auto|].
      intros [?|[->|[?|?]]]; [intuition auto| |intuition auto|intuition auto].
      apply Hk4, Hin.
    + rewrite od_keys_set, Hk4. intuition auto.
  - intros Hs. unfold o5. rewrite od_get_if_keep by done. unfold o4.
    rewrite od_get_set_ne by done. unfold o3.
    rewrite bool_decide_eq_true_2 by done. apply od_get_set_eq.
Qed.

Lemma track_succeeds s opts e o1 l1 o2 l2 :
  String.prefix _SQREEN_EVENT_PREFIX s = false →
  check_ts s (List.filter
                (fun p => bool_decide (fst p ∈ _TRACK_OPTIONS_FIELDS))
                (default [] opts)) = Ret (o1, l1) →
  check_properties s o1 = (Ret o2, l2) →
  fst (do_track (VStr s) opts e) = Ret (VBool true).
Proof.
  intros Hp Ets Eps. pose proof (track_unfold s opts e Hp) as Hu.
  cbn zeta in Hu. rewrite Ets, Eps in Hu. by destruct Hu.
Qed.

Lemma track_fails s opts e x :
  String.prefix _SQREEN_EVENT_PREFIX s = false →
  (check_ts s (List.filter
                 (fun p => bool_decide (fst p ∈ _TRACK_OPTIONS_FIELDS))
                 (default [] opts)) = Raise x
   ∨ ∃ o1 l1 l2,
       check_ts s (List.filter
                     (fun p => bool_decide (fst p ∈ _TRACK_OPTIONS_FIELDS))
                     (default [] opts)) = Ret (o1, l1)
       ∧ check_properties s o1 = (Raise x, l2)) →
  fst (do_track (VStr s) opts e) = Raise x ∧
  sdk_observations (snd (do_track (VStr s) opts e)) = [].
Proof.
  intros Hp H. pose proof (track_unfold s opts e Hp) as Hu.
  cbn zeta in Hu. destruct H as [Ets|(o1 & l1 & l2 & Ets & Eps)].
  - by rewrite Ets in Hu.
  - by rewrite Ets, Eps in Hu.
Qed.

(** X17 ([track], sdk/events.py): [track] hands an event to the storage
    exactly when it returns [True], and then exactly one, with the source
    ["track"], the name it was given and [report=True].  An event that is
    not a string raises [TypeError] before anything is logged; a name that
    starts with the reserved prefix ["sq."] is logged and refused with
    [False]; in both cases, and whenever [track] raises, nothing is
    observed. *)
Theorem track_observes_exactly_when_true ev opts e :
  ((∀ s, ev ≠ VStr s) → do_track ev opts e = (Raise TypeError, [])) ∧
  (∀ s, ev = VStr s → String.prefix _SQREEN_EVENT_PREFIX s = true →
        do_track ev opts e
        = (Ret (VBool false), [SdkLogged (ReservedEventName s)])) ∧
  (fst (do_track ev opts e) ≠ Ret (VBool true) →
   sdk_observations (snd (do_track ev opts e)) = []) ∧
  (fst (do_track ev opts e) = Ret (VBool true) →
   ∃ s ts o secs,
     ev = VStr s ∧ String.prefix _SQREEN_EVENT_PREFIX s = false ∧
     sdk_observations (snd (do_track ev opts e))
       = [SdkObserved "track" ts s o secs true]).
Proof.
  split; [|split; [|split]].
  - intros Hns. destruct ev as [| | |s| |]; try done. by destruct (Hns s).
  - intros s -> Hp. unfold track. by rewrite Hp.
  - apply track_not_true.
  - intros Htrue. destruct ev as [| | |s| |]; try done.
    destruct (track_true s opts e Htrue) as (ts & o & secs & Hobs & Hp & _).
    by exists s, ts, o, secs.
Qed.

(** X18 ([track] and [_track_unsafe], sdk/events.py): the options recorded
    with an event that [track] accepted.  Their keys are the keys given that
    are among ["properties"], ["user_identifiers"], ["timestamp"] and
    ["collect_body"], together with ["timestamp"] and ["collect_body"],
    which are always there, and ["stacktrace"] exactly for the events of
    [STACKTRACE_EVENTS]; [collect_body] is the truth value of the option
    given, [False] without it; the payload sections are the four fixed
    ones, with ["params"] exactly when [collect_body] is true; the user
    identifiers are the ones given. *)
Theorem track_recorded_options s opts e :
  fst (do_track (VStr s) opts e) = Ret (VBool true) →
  let opts0 := default [] opts in
  let b := sdk_truthy (default (Plain VNone) (od_get "collect_body" opts0)) in
  ∃ ts o secs,
    sdk_observations (snd (do_track (VStr s) opts e))
      = [SdkObserved "track" ts s o secs true] ∧
    (∀ k, k ∈ od_keys o ↔
          (k ∈ od_keys opts0 ∧ k ∈ _TRACK_OPTIONS_FIELDS)
          ∨ k = "timestamp" ∨ k = "collect_body"
          ∨ (k = "stacktrace" ∧ s ∈ STACKTRACE_EVENTS)) ∧
    od_get "collect_body" o = Some (Plain (VBool b)) ∧
    (∀ x, x ∈ secs ↔
          x ∈ _TRACK_PAYLOAD_SECTIONS ∨ (x = "params" ∧ b = true)) ∧
    od_get "user_identifiers" o = od_get "user_identifiers" opts0 ∧
    (s ∈ STACKTRACE_EVENTS →
     od_get "stacktrace" o = Some (Plain (VList (VStr <$> format_stack)))).
Proof.
  intros Htrue opts0 b.
  destruct (track_true s opts e Htrue)
    as (ts & o & secs & Hobs & _ & _ & _ & _ & Hcb & Hsecs & Hids & _
        & Hkeys & Hstack).
  exists ts, o, secs. repeat split; try done.
  - apply Hkeys.
  - apply Hkeys.
  - rewrite Hsecs. fold opts0 b. destruct b.
    + rewrite elem_of_union, elem_of_singleton, elem_of_list_to_set.
      intros [->|?]; [by right|by left].
    + rewrite elem_of_list_to_set. by left.
  - rewrite Hsecs. fold opts0 b. intros [Hx|[-> Hb]].
    + destruct b; rewrite ?elem_of_union, elem_of_list_to_set; auto.
    + rewrite Hb. apply elem_of_union. left. by apply elem_of_singleton.
Qed.

(** X19 ([track] and [_track_unsafe], sdk/events.py): the timestamp of a
    tracked event.  Without a ["timestamp"] option the event is recorded at
    [now()]; a timestamp given as [None] is recorded as [None], not as
    [now()]; a datetime without a time zone is recorded converted by
    [naive_dt_to_utc]; one with a time zone is recorded as it is; any other
    value makes [track] raise [TypeError] and nothing is recorded.  In every
    case the timestamp handed to the storage is the one stored in the
    options of the event. *)
Theorem track_timestamp s opts e :
  String.prefix _SQREEN_EVENT_PREFIX s = false →
  let recorded ts :=
    fst (do_track (VStr s) opts e) = Ret (VBool true) →
    ∃ o secs,
      sdk_observations (snd (do_track (VStr s) opts e))
        = [SdkObserved "track" ts s o secs true] ∧
      od_get "timestamp" o = Some ts in
  match od_get "timestamp" (default [] opts) with
  | None => recorded (now_datetime e)
  | Some (Plain VNone) => recorded (Plain VNone)
  | Some (Plain _) =>
      fst (do_track (VStr s) opts e) = Raise TypeError ∧
      sdk_observations (snd (do_track (VStr s) opts e)) = []
  | Some (Datetime None t) => recorded (naive_dt_to_utc (Datetime None t))
  | Some (Datetime (Some tz) t) => recorded (Datetime (Some tz) t)
  end.
Proof.
  intros Hp recorded.
  assert (Hrec : ∀ ts,
             ts = match od_get "timestamp" (default [] opts) with
                  | None => now_datetime e
                  | Some (Datetime None t) => naive_dt_to_utc (Datetime None t)
                  | Some v => v
                  end → recorded ts).
  { intros ts Hts Htrue.
    destruct (track_true s opts e Htrue)
      as (ts' & o & secs & Hobs & _ & Hget & Hts' & _).
    exists o, secs. rewrite Hts. rewrite <- Hts'. done. }
  assert (Hraise : ∀ v, od_get "timestamp" (default [] opts) = Some (Plain v) →
                        v ≠ VNone →
                        fst (do_track (VStr s) opts e) = Raise TypeError ∧
                        sdk_observations (snd (do_track (VStr s) opts e)) = []).
  { intros v Hv Hne. apply track_fails; [done|]. left.
    rewrite check_timestamp_cases, track_fields_get, Hv
      by (unfold _TRACK_OPTIONS_FIELDS; set_solver).
    by destruct v. }
  destruct (od_get "timestamp" (default [] opts)) as [[v|[tz|] t]|] eqn:E;
    try (by apply Hrec).
  destruct v; try (by apply (Hraise _ eq_refl)). by apply Hrec.
Qed.

(** X20 ([track], sdk/events.py): the properties of a tracked event whose
    timestamp is acceptable.  A dictionary of at most 16 properties is
    recorded as it is, a larger one cut down to its first 16 items in the
    order of the keys.  A list or a string of more than 16 items makes
    [track] raise [AttributeError] (it has no [items]), a shorter one is
    recorded as it is; a true value without a length (a non-zero integer,
    [True]) makes it raise [TypeError]; a false value is recorded as it
    is.  When [track] raises nothing is recorded. *)
Theorem track_properties s opts e v :
  String.prefix _SQREEN_EVENT_PREFIX s = false →
  (∀ t, od_get "timestamp" (default [] opts) = Some (Plain t) → t = VNone) →
  od_get "properties" (default [] opts) = Some (Plain v) →
  let recorded v' :=
    fst (do_track (VStr s) opts e) = Ret (VBool true) ∧
    ∃ ts o secs,
      sdk_observations (snd (do_track (VStr s) opts e))
        = [SdkObserved "track" ts s o secs true] ∧
      od_get "properties" o = Some (Plain v') in
  let fails x :=
    fst (do_track (VStr s) opts e) = Raise x ∧
    sdk_observations (snd (do_track (VStr s) opts e)) = [] in
  match v with
  | VDict d =>
      recorded (VDict (if Nat.ltb _MAX_EVENT_PROPERTIES (size d)
                       then first_properties d else d))
  | VList l =>
      if Nat.ltb _MAX_EVENT_PROPERTIES (length l)
      then fails (AttributeError "items") else recorded v
  | VStr x =>
      if Nat.ltb _MAX_EVENT_PROPERTIES (String.length x)
      then fails (AttributeError "items") else recorded v
  | VInt _ | VBool _ | VNone =>
      if truthy v then fails TypeError else recorded v
  end.
Proof.
  intros Hp Hts Hv recorded fails.
  set (o0 := List.filter
               (fun p => bool_decide (fst p ∈ _TRACK_OPTIONS_FIELDS))
               (default [] opts)).
  assert (Ets : ∃ o1 l1, check_ts s o0 = Ret (o1, l1)).
  { rewrite check_timestamp_cases. unfold o0.
    rewrite track_fields_get by (unfold _TRACK_OPTIONS_FIELDS; set_solver).
    destruct (od_get "timestamp" (default [] opts)) as [[t|[]]|] eqn:E;
      try (by eexists _, _).
    rewrite (Hts t eq_refl). by eexists _, _. }
  destruct Ets as (o1 & l1 & Ets).
  assert (Hv1 : od_get "properties" o1 = Some (Plain v)).
  { rewrite (check_timestamp_get _ _ _ _ _ Ets) by done. unfold o0.
    by rewrite track_fields_get by (unfold _TRACK_OPTIONS_FIELDS; set_solver). }
  assert (Hrec : ∀ o2 l2 v',
             check_properties s o1 = (Ret o2, l2) →
             v' = match v with
                  | VDict d => VDict (if Nat.ltb _MAX_EVENT_PROPERTIES (size d)
                                      then first_properties d else d)
                  | _ => v
                  end →
             recorded v').
  { intros o2 l2 v' Eps Hv'.
    pose proof (track_succeeds s opts e _ _ _ _ Hp Ets Eps) as Htrue.
    split; [done|].
    destruct (track_true s opts e Htrue)
      as (ts & o & secs & Hobs & _ & _ & _ & _ & _ & _ & _ & Hprops & _).
    exists ts, o, secs. split; [done|]. rewrite Hprops, Hv, Hv'.
    by destruct v. }
  assert (Hfail : ∀ x l2, check_properties s o1 = (Raise x, l2) → fails x).
  { intros x l2 Eps. apply track_fails; [done|]. right. by eexists _, _, _. }
  unfold check_properties in Hrec, Hfail. rewrite Hv1 in Hrec, Hfail.
  cbn [default from_option id] in Hrec, Hfail.
  destruct v as [|b|n|x|l|d]; cbn [sdk_truthy truthy sdk_len] in *.
  - by eapply Hrec.
  - destruct b; [by eapply Hfail|by eapply Hrec].
  - destruct (negb (Z.eqb n 0)); [by eapply Hfail|by eapply Hrec].
  - destruct (negb (String.eqb x "")) eqn:Ex.
    + destruct (Nat.ltb _ _); [by eapply Hfail|by eapply Hrec].
    + apply negb_false_iff, String.eqb_eq in Ex as ->. by eapply Hrec.
  - destruct l as [|y l]; [by eapply Hrec|].
    destruct (Nat.ltb _ _); [by eapply Hfail|by eapply Hrec].
  - destruct (negb (Nat.eqb (size d) 0)) eqn:Ed.
    + destruct (Nat.ltb _ _); by eapply Hrec.
    + by eapply Hrec.
Qed.

(** X21 ([track_action] and [_track_unsafe], sdk/events.py): an action whose
    [send_response] is false records nothing and gives [False].  Any other
    action records exactly one event, at [now()], named ["sq.action."]
    followed by the name of the action, with the output and the identifier
    of the action as its properties, [collect_body] set and the ["params"]
    section among the payload sections; [track] itself refuses every such
    name. *)
Theorem track_action_event action output e :
  (truthy (send_response action) = false →
   do_track_action action output e = (Ret (VBool false), [])) ∧
  (truthy (send_response action) = true →
   do_track_action action output e
   = (Ret (VBool true),
      [SdkObserved "track" (now_datetime e)
         ("sq.action." ++ action_name action)
         [("properties",
           Plain (VDict {[ "output" := output; "action_id" := iden action ]}));
          ("collect_body", Plain (VBool true));
          ("timestamp", now_datetime e)]
         ({[ "params" ]} ∪ list_to_set _TRACK_PAYLOAD_SECTIONS) true])) ∧
  (∀ opts e',
     fst (do_track (VStr ("sq.action." ++ action_name action)) opts e')
     = Ret (VBool false) ∧
     sdk_observations
       (snd (do_track (VStr ("sq.action." ++ action_name action)) opts e'))
     = []).
Proof.
  split; [|split].
  - intros Hs. unfold track_action. by rewrite Hs.
  - intros Hs. unfold track_action. rewrite Hs. reflexivity.
  - intros opts e'. by cbn.
Qed.

Lemma check_timestamp_no_key_warning s o o1 l1 k :
  check_ts s o = Ret (o1, l1) → SdkLogged (InvalidOptionKey k) ∉ l1.
Proof.
  rewrite check_timestamp_cases. intros H.
  destruct (od_get "timestamp" o) as [[[]|[]]|]; simplify_eq;
    try apply not_elem_of_nil.
  apply not_elem_of_cons. split; [done|apply not_elem_of_nil].
Qed.

Lemma check_properties_no_key_warning s o r l2 k :
  check_properties s o = (r, l2) → SdkLogged (InvalidOptionKey k) ∉ l2.
Proof.
  unfold check_properties. intros H.
  destruct (sdk_truthy _); [|simplify_eq; apply not_elem_of_nil].
  destruct (sdk_len _); [|simplify_eq; apply not_elem_of_nil].
  destruct (Nat.ltb _ _); simplify_eq; [|apply not_elem_of_nil].
  apply not_elem_of_cons. split; [done|apply not_elem_of_nil].
Qed.

Lemma key_warnings k (o : odict) :
  SdkLogged (InvalidOptionKey k)
    ∈ ((fun k => SdkLogged (InvalidOptionKey k)) <$>
       List.filter (fun k => negb (bool_decide (k ∈ _TRACK_OPTIONS_FIELDS)))
         (od_keys o))
  ↔ k ∈ od_keys o ∧ k ∉ _TRACK_OPTIONS_FIELDS.
Proof.
  rewrite list_elem_of_fmap. split.
  - intros (y & [= <-] & Hy).
    apply list_elem_of_In, List.filter_In in Hy as [Hy Hn].
    apply negb_true_iff, bool_decide_eq_false in Hn.
    by rewrite list_elem_of_In.
  - intros [Hk Hn]. exists k. split; [done|].
    apply list_elem_of_In, List.filter_In. split; [by apply list_elem_of_In|].
    by apply negb_true_iff, bool_decide_eq_false.
Qed.

(** X22 ([track], sdk/events.py): for an event name that is not reserved,
    [track] warns about an option key exactly when the key was given and is
    not one of ["properties"], ["user_identifiers"], ["timestamp"] and
    ["collect_body"]: whether it then records the event or raises, every key
    it drops is reported, and no other. *)
Theorem track_warns_about_dropped_keys s opts e k :
  String.prefix _SQREEN_EVENT_PREFIX s = false →
  SdkLogged (InvalidOptionKey k) ∈ snd (do_track (VStr s) opts e)
  ↔ k ∈ od_keys (default [] opts) ∧ k ∉ _TRACK_OPTIONS_FIELDS.
Proof.
  intros Hp. rewrite <- key_warnings. unfold track. rewrite Hp.
  destruct (check_ts s _) as [[o1 l1]|x] eqn:Ets; [|done].
  pose proof (check_timestamp_no_key_warning _ _ _ _ k Ets) as Hl1.
  destruct (check_properties s o1) as [[o2|x] l2] eqn:Eps;
    pose proof (check_properties_no_key_warning _ _ _ _ k Eps) as Hl2.
  - unfold _track_unsafe.
    destruct (bool_decide (s ∈ STACKTRACE_EVENTS)); cbn [fst snd];
      rewrite !elem_of_app;
      (split; [|by left]);
      (intros [?|[?|[?|[Hst|[Hid|Hob]]]]]; [done|done|done| | |]);
      try (by repeat (apply elem_of_cons in Hst as [?|Hst]; [done|]);
              apply elem_of_nil in Hst);
      try (by repeat (apply elem_of_cons in Hob as [?|Hob]; [done|]);
              apply elem_of_nil in Hob);
      destruct (sdk_truthy (default (Plain VNone)
                              (od_get "user_identifiers" _)));
      try destruct (request_store (storage e) !! "user_identifiers");
      try destruct (_ && _);
      by repeat (apply elem_of_cons in Hid as [?|Hid]; [done|]);
         apply elem_of_nil in Hid.
  - cbn [snd]. rewrite !elem_of_app. split; [|by left].
    by intros [?|[?|?]].
Qed.

End EventsFacts.

(** * Instances of the further properties *)

(** [handler_keeps_trace_scopes_balanced] at a handler of [noop] under the
    debug trace and the performance monitor, invoked at debug level. *)
Lemma handler_keeps_trace_scopes_balanced_witness :
  let c := self_ (fst (ex_init (class_with_pre noop)
                         (args_plain (Some runner_monitoring)) env0)) in
  (∀ i a k o e,
     trace_depth (effects (snd (own_logic method_traced c i a k o e)))
       = trace_depth (effects e)) ∧
  trace_depth
    (effects (env (snd (ex_call c method_traced VNone [] ∅ ∅
                          (mkWorld env_debug [])))))
    = trace_depth (effects (env (mkWorld env_debug []))).
Proof.
  cbn zeta.
  assert (Hown : ∀ i a k o e,
            trace_depth
              (effects
                 (snd (own_logic method_traced
                         (self_ (fst (ex_init (class_with_pre noop)
                                        (args_plain (Some runner_monitoring))
                                        env0)))
                         i a k o e)))
              = trace_depth (effects e)) by (intros; reflexivity).
  split; [exact Hown|].
  exact (handler_keeps_trace_scopes_balanced example_evaluate
           example_get_current_args _ method_traced Hown VNone [] ∅ ∅
           (mkWorld env_debug [])).
Defined.

(** [other_counters_untouched] at a sampler of the [pre] phase and the
    counter of [post], over two invocations. *)
Lemma other_counters_untouched_witness :
  let c := self_ (fst (ex_init (class_with_pre noop) (args_sampled 3) env0)) in
  let inv := mkInvocation VNone [] ∅ ∅ in
  ("post" ∉ counted_phases method_sampled_pre) ∧
  call_counts
    (env (ex_invoke_all c method_sampled_pre [inv; inv]
            (mkWorld env_request []))) !! "post"
    = call_counts (env (mkWorld env_request [])) !! "post".
Proof.
  cbn zeta.
  assert (Hnot : "post" ∉ counted_phases method_sampled_pre).
  { apply not_elem_of_cons. split; [done|apply not_elem_of_nil]. }
  split; [exact Hnot|].
  exact (other_counters_untouched example_evaluate example_get_current_args
           _ method_sampled_pre "post" Hnot
           (fun _ _ _ _ _ => eq_refl) _ (mkWorld env_request [])).
Defined.

(** [negative_interval_never_samples] at the [failing] phase of the class
    that counts HTTP codes, with the sampling interval -1. *)
Lemma negative_interval_never_samples_witness :
  let cb := fst (ex_init class_CountHTTPCodesCBFlask (args_sampled (-1))
                   env0) in
  "failing" ∈ ["pre"; "post"; "failing"] ∧
  cls_methods class_CountHTTPCodesCBFlask !! "failing"
    = Some CountHTTPCodesCBFlask_failing ∧
  a_call_count_interval (args_sampled (-1)) = Some (-1) ∧
  (-1 < 0) ∧
  ∃ h,
    handler cb "failing" = Some h ∧
    call_count_applied h = true ∧
    ∀ w0 invs,
      call_counts (env w0) !! "failing" = Some 0 →
      call_counts (env (ex_invoke_all (self_ cb) h invs w0)) !! "failing"
        = Some (Z.of_nat (length invs)) ∧
      sampled_observations (env (ex_invoke_all (self_ cb) h invs w0))
        = sampled_observations (env w0).
Proof.
  cbn zeta.
  assert (Hl : "failing" ∈ ["pre"; "post"; "failing"])
    by (do 2 apply list_elem_of_further; constructor).
  split; [exact Hl|]. split; [reflexivity|]. split; [reflexivity|].
  split; [lia|].
  exact (negative_interval_never_samples example_is_condition_empty
           example_evaluate example_get_current_args
           class_CountHTTPCodesCBFlask (args_sampled (-1)) env0 "failing"
           CountHTTPCodesCBFlask_failing (-1) Hl eq_refl eq_refl
           ltac:(lia) CountHTTPCodesCBFlask_failing_frame).
Defined.

(** [first_properties_smallest_keys] at seventeen properties. *)
Lemma first_properties_smallest_keys_witness :
  (_MAX_EVENT_PROPERTIES < size seventeen_properties)%nat ∧
  size (first_properties seventeen_properties) = _MAX_EVENT_PROPERTIES ∧
  first_properties seventeen_properties ⊆ seventeen_properties ∧
  (∀ k k', k ∈ dom (first_properties seventeen_properties) →
           k' ∈ dom seventeen_properties →
           k' ∉ dom (first_properties seventeen_properties) →
           String.leb k k' = true ∧ k ≠ k').
Proof.
  assert (Hsize : (_MAX_EVENT_PROPERTIES < size seventeen_properties)%nat)
    by (vm_compute; lia).
  split; [exact Hsize|].
  exact (first_properties_smallest_keys seventeen_properties Hsize).
Defined.

(** [track_recorded_options] at an event with user identifiers, a key that
    is not an option and a request for the body: the key [color] is not
    recorded, [collect_body] is recorded as [True]. *)
Lemma track_recorded_options_witness :
  fst (ex_track (VStr "signup") (Some options_signup) env0)
    = Ret (VBool true) ∧
  ∃ ts o secs,
    sdk_observations (snd (ex_track (VStr "signup") (Some options_signup) env0))
      = [SdkObserved "track" ts "signup" o secs true] ∧
    (∀ k, k ∈ od_keys o ↔
          (k ∈ od_keys options_signup ∧ k ∈ _TRACK_OPTIONS_FIELDS)
          ∨ k = "timestamp" ∨ k = "collect_body"
          ∨ (k = "stacktrace" ∧ "signup" ∈ example_STACKTRACE_EVENTS)) ∧
    od_get "collect_body" o = Some (Plain (VBool true)) ∧
    (∀ x, x ∈ secs ↔
          x ∈ _TRACK_PAYLOAD_SECTIONS ∨ (x = "params" ∧ true = true)) ∧
    od_get "user_identifiers" o = Some (Plain (VStr "u1")) ∧
    ("signup" ∈ example_STACKTRACE_EVENTS →
     od_get "stacktrace" o
       = Some (Plain (VList (VStr <$> example_format_stack)))).
Proof.
  split; [reflexivity|].
  exact (track_recorded_options example_now_datetime example_naive_dt_to_utc
           example_py_ne example_format_stack example_STACKTRACE_EVENTS
           "signup" (Some options_signup) env0 eq_refl).
Defined.

(** [track_timestamp] at a timestamp without a time zone: the event is
    recorded at the timestamp converted to UTC. *)
Lemma track_timestamp_witness :
  String.prefix _SQREEN_EVENT_PREFIX "signup" = false ∧
  fst (ex_track (VStr "signup") (Some options_naive) env0)
    = Ret (VBool true) ∧
  ∃ o secs,
    sdk_observations (snd (ex_track (VStr "signup") (Some options_naive) env0))
      = [SdkObserved "track" (Datetime (Some "UTC") 5) "signup" o secs true] ∧
    od_get "timestamp" o = Some (Datetime (Some "UTC") 5).
Proof.
  split; [reflexivity|]. split; [reflexivity|].
  exact (track_timestamp example_now_datetime example_naive_dt_to_utc
           example_py_ne example_format_stack example_STACKTRACE_EVENTS
           "signup" (Some options_naive) env0 eq_refl eq_refl).
Defined.

(** [track_properties] at an event with one property: it is recorded as it
    is. *)
Lemma track_properties_witness :
  String.prefix _SQREEN_EVENT_PREFIX "signup" = false ∧
  od_get "properties" options_plan
    = Some (Plain (VDict {[ "plan" := VStr "pro" ]})) ∧
  fst (ex_track (VStr "signup") (Some options_plan) env0)
    = Ret (VBool true) ∧
  ∃ ts o secs,
    sdk_observations (snd (ex_track (VStr "signup") (Some options_plan) env0))
      = [SdkObserved "track" ts "signup" o secs true] ∧
    od_get "properties" o
      = Some (Plain (VDict
                (if Nat.ltb _MAX_EVENT_PROPERTIES
                      (size ({[ "plan" := VStr "pro" ]} : gmap string value))
                 then first_properties {[ "plan" := VStr "pro" ]}
                 else {[ "plan" := VStr "pro" ]}))).
Proof.
  split; [reflexivity|]. split; [reflexivity|].
  exact (track_properties example_now_datetime example_naive_dt_to_utc
           example_py_ne example_format_stack example_STACKTRACE_EVENTS
           "signup" (Some options_plan) env0
           (VDict {[ "plan" := VStr "pro" ]}) eq_refl
           (fun t H => match H in _ = y
                             return match y with
                                    | Some _ => t = VNone
                                    | None => True
                                    end
                       with eq_refl => I end)
           eq_refl).
Defined.

(** [track_warns_about_dropped_keys] at the key [color], which is not an
    option of [track], and at the key [collect_body], which is. *)
Lemma track_warns_about_dropped_keys_witness :
  String.prefix _SQREEN_EVENT_PREFIX "signup" = false ∧
  SdkLogged (InvalidOptionKey "color")
    ∈ snd (ex_track (VStr "signup") (Some options_signup) env0) ∧
  SdkLogged (InvalidOptionKey "collect_body")
    ∉ snd (ex_track (VStr "signup") (Some options_signup) env0).
Proof.
  split; [reflexivity|]. split.
  - apply (track_warns_about_dropped_keys example_now_datetime
             example_naive_dt_to_utc example_py_ne example_format_stack
             example_STACKTRACE_EVENTS "signup" (Some options_signup) env0
             "color" eq_refl).
    split.
    + apply list_elem_of_further. constructor.
    + unfold _TRACK_OPTIONS_FIELDS. intros H.
      repeat (apply elem_of_cons in H as [H|H]; [discriminate H|]).
      by apply elem_of_nil in H.
  - intros H.
    apply (track_warns_about_dropped_keys example_now_datetime
             example_naive_dt_to_utc example_py_ne example_format_stack
             example_STACKTRACE_EVENTS "signup" (Some options_signup) env0
             "collect_body" eq_refl) in H as [_ H].
    apply H. unfold _TRACK_OPTIONS_FIELDS.
    do 3 apply list_elem_of_further. constructor.
Defined.
